(** * Workspace authorisation middleware and the primary-domain endpoint

    A shallow embedding of the middleware [withWorkspace] and of the route
    [POST /api/domains/[domain]/primary] built on it.

    The middleware is one [try] block that threads a mutable [headers]
    variable, talks to the database and to a few external services, and
    leaves either by throwing, by an early [return] or by calling the route
    handler.  It is modelled as a state-and-exit monad over the database,
    the [headers] variable and a log of the external interactions that were
    performed. *)

From Stdlib Require Import ZArith Lia Ascii String.
From stdpp Require Import base strings list gmap pretty.

Local Open Scope string_scope.
Local Open Scope Z_scope.

(* ===================================================================== *)
(** ** JavaScript strings and truthiness *)
(* ===================================================================== *)

Module Js.

(** A value of type [string | undefined] (or [string | null]). *)
Definition Str := option string.

(** [!!v]: [undefined], [null] and the empty string are falsy. *)
Definition truthy (v : Str) : bool :=
  match v with
  | Some s => negb (String.eqb s "")
  | None => false
  end.

(** The string inside an [if (v) { ... }]. *)
Definition whenTruthy (v : Str) : option string :=
  match v with
  | Some s => if String.eqb s "" then None else Some s
  | None => None
  end.

(** [a || b] *)
Definition or (a b : Str) : Str := if truthy a then a else b.

Definition is_Some_b {A} (o : option A) : bool :=
  match o with
  | Some _ => true
  | None => false
  end.

(** [a || undefined] *)
Definition orUndefined (a : Str) : Str := if truthy a then a else None.

(** [s.startsWith(p)] *)
Fixpoint startsWith (p s : string) : bool :=
  match p, s with
  | EmptyString, _ => true
  | String _ _, EmptyString => false
  | String a p', String b s' => if Ascii.eqb a b then startsWith p' s' else false
  end.

(** [s.includes(p)] *)
Fixpoint includes (p s : string) : bool :=
  startsWith p s ||
  match s with
  | EmptyString => false
  | String _ s' => includes p s'
  end.

Fixpoint skip (n : nat) (s : string) : string :=
  match n, s with
  | O, _ => s
  | S _, EmptyString => EmptyString
  | S n', String _ s' => skip n' s'
  end.

(** [s.replace(p, r)] for a string pattern: the first occurrence only. *)
Fixpoint replace (p r s : string) : string :=
  if startsWith p s then r ++ skip (String.length p) s
  else match s with
       | EmptyString => EmptyString
       | String c s' => String c (replace p r s')
       end.

(** [s.split(" ")]: the pieces between single spaces; never empty. *)
Fixpoint splitSpaces (s : string) : list string :=
  match s with
  | EmptyString => [EmptyString]
  | String c s' =>
      if Ascii.eqb c " "%char then EmptyString :: splitSpaces s'
      else match splitSpaces s' with
           | h :: t => String c h :: t
           | [] => [String c EmptyString]
           end
  end.

End Js.

(* ===================================================================== *)
(** ** Data model *)
(* ===================================================================== *)

Definition Scope := string.
Definition Headers := list (string * string).

(** Error codes of [DubApiError] that the two files use. *)
Inductive ErrorCode :=
| bad_request | not_found | unauthorized | rate_limit_exceeded
| forbidden | invite_expired | invite_pending.

(** What a [throw] carries: a [DubApiError], or an error raised by a
    library (the ORM, the schema validator, the JavaScript runtime). *)
Inductive Exn :=
| DubApiError (code : ErrorCode) (message : string)
| LibraryError (what : string).

#[warnings="-register-all"]
Inductive Json :=
| JNull
| JBool (b : bool)
| JNum (n : Z)
| JStr (s : string)
| JObj (fields : list (string * Json)).

(** [handleAndReturnErrorResponse(error, headers)] and
    [NextResponse.json(body, { headers })]. *)
Inductive Response :=
| ErrorResponse (e : Exn) (h : Headers)
| JsonResponse (body : Json) (h : Headers).

Record SessionUser := {
  su_id : string;
  su_name : string;
  su_email : string;
  su_isMachine : bool;
}.

(** A session object; [user] may be missing on what [getSession] returns. *)
Record Session := { user : option SessionUser }.

(** The [user] selection of a token row: id, name, email, isMachine. *)
Record TokenUser := {
  tu_id : string;
  tu_name : Js.Str;
  tu_email : Js.Str;
  tu_isMachine : bool;
}.

Record TokenRow := {
  t_hashedKey : string;
  t_user : option TokenUser;
  t_lastUsed : option Z;
}.

Record RestrictedTokenRow := {
  rt_hashedKey : string;
  rt_scopes : Js.Str;
  rt_rateLimit : option Z;
  rt_projectId : string;
  rt_user : option TokenUser;
  rt_lastUsed : option Z;
}.

(** What [findUnique] selects: the restricted-token query also selects
    [scopes], [rateLimit] and [projectId]. *)
Inductive Token :=
| PlainToken (tuser : option TokenUser)
| RestrictedToken (scopes : Js.Str) (rateLimit : option Z) (projectId : string)
    (tuser : option TokenUser).

Definition token_user (t : Token) : option TokenUser :=
  match t with
  | PlainToken u => u
  | RestrictedToken _ _ _ u => u
  end.

Record ProjectRow := {
  p_id : string;
  p_slug : string;
  p_plan : string;
  p_usage : Z;
  p_usageLimit : Z;
  p_linksUsage : Z;
  p_linksLimit : Z;
}.

Record ProjectUserRow := {
  pu_projectId : string;
  pu_userId : string;
  pu_role : string;
}.

Record DomainRow := {
  d_id : string;
  d_slug : string;
  d_primary : bool;
  d_projectId : string;
}.

Record LinkRow := {
  l_id : string;
  l_domain : string;
  l_key : string;
  l_projectId : Js.Str;
  l_externalId : Js.Str;
}.

Record InviteRow := {
  i_email : string;
  i_projectId : string;
  i_expires : Z;
}.

Record Db := {
  tokens : list TokenRow;
  restrictedTokens : list RestrictedTokenRow;
  projects : list ProjectRow;
  projectUsers : list ProjectUserRow;
  domainRows : list DomainRow;
  links : list LinkRow;
  projectInvites : list InviteRow;
}.

Definition set_tokens (ts : list TokenRow) (db : Db) : Db :=
  {| tokens := ts; restrictedTokens := restrictedTokens db;
     projects := projects db; projectUsers := projectUsers db;
     domainRows := domainRows db; links := links db;
     projectInvites := projectInvites db |}.

Definition set_restrictedTokens (ts : list RestrictedTokenRow) (db : Db) : Db :=
  {| tokens := tokens db; restrictedTokens := ts;
     projects := projects db; projectUsers := projectUsers db;
     domainRows := domainRows db; links := links db;
     projectInvites := projectInvites db |}.

Definition set_domainRows (ds : list DomainRow) (db : Db) : Db :=
  {| tokens := tokens db; restrictedTokens := restrictedTokens db;
     projects := projects db; projectUsers := projectUsers db;
     domainRows := ds; links := links db;
     projectInvites := projectInvites db |}.

(** [WorkspaceProps] as the middleware fetches it: the project with the
    caller's membership rows and the project's domains. *)
Record WorkspaceUser := { role : string }.

Record WorkspaceDomain := {
  wd_id : string;
  wd_slug : string;
  wd_primary : bool;
}.

Record Workspace := {
  id : string;
  slug : string;
  plan : string;
  usage : Z;
  usageLimit : Z;
  linksUsage : Z;
  linksLimit : Z;
  users : list WorkspaceUser;
  domains : list WorkspaceDomain;
}.

Record Request := {
  (** [req.headers.get("Authorization")] *)
  authorization : Js.Str;
  (** [getSearchParams(req.url)] *)
  searchParams : gmap string string;
  (** [new URL(req.url || "", API_DOMAIN).pathname] *)
  pathname : string;
}.

(** The options of [withWorkspace]; an option left out is [undefined],
    hence falsy, except [requiredPlan] and [requiredScopes], which have
    defaults. *)
Record Config := {
  requiredPlan : list string;
  needNotExceededClicks : bool;
  needNotExceededLinks : bool;
  allowAnonymous : bool;
  skipLinkChecks : bool;
  domainChecks : bool;
  betaFeature : bool;
  requiredScopes : list Scope;
  skipScopeChecks : bool;
}.

Definition allPlans : list string :=
  ["free"; "pro"; "business"; "business plus"; "business max";
   "business extra"; "enterprise"].

Definition defaultConfig : Config :=
  {| requiredPlan := allPlans;
     needNotExceededClicks := false; needNotExceededLinks := false;
     allowAnonymous := false; skipLinkChecks := false;
     domainChecks := false; betaFeature := false;
     requiredScopes := []; skipScopeChecks := false |}.

(** The argument object of the route handler.  On the anonymous path only
    [req], [params], [searchParams] and [headers] are passed. *)
Record HandlerArgs := {
  a_req : Request;
  a_params : gmap string string;
  a_searchParams : gmap string string;
  a_headers : Headers;
  a_session : option Session;
  a_workspace : option Workspace;
  a_domain : Js.Str;
  a_link : option LinkRow;
  a_scopes : option (list Scope);
}.

(** A route handler: it may read and write the database, and it returns a
    response or throws. *)
Definition Handler := HandlerArgs -> Db -> (Exn + Response) * Db.

Inductive LimitType := clicks | linksType.

Record RatelimitResult := {
  success : bool;
  limit : Z;
  reset : Z;
  remaining : Z;
}.

(** The collaborators that are imported from outside the two files. *)
Record Env := {
  hashToken : string -> string;
  (** [ratelimit(n, "1 m").limit(apiKey)] *)
  ratelimit : Z -> string -> RatelimitResult;
  getSession : option Session;
  isBetaTester : string -> bool;
  (** [new Date()] *)
  now : Z;
  isDubDomain : string -> bool;
  DUB_WORKSPACE_ID : string;
  roleScopesMapping : string -> list Scope;
  (** [throwIfNoAccess]: [Some e] when it throws [e]. *)
  throwIfNoAccess : list Scope -> list Scope -> string -> option Exn;
  exceededLimitError : string -> Z -> LimitType -> string;
  (** [DomainSchema.parse] *)
  DomainSchema_parse : DomainRow -> Exn + Json;
}.

(* ===================================================================== *)
(** ** The database queries of the two files *)
(* ===================================================================== *)

Module prisma.

Definition mkToken (r : TokenRow) : Token := PlainToken (t_user r).

Definition mkRestrictedToken (r : RestrictedTokenRow) : Token :=
  RestrictedToken (rt_scopes r) (rt_rateLimit r) (rt_projectId r) (rt_user r).

(** [prisma.token.findUnique({ where: { hashedKey }, select })] *)
Definition token_findUnique (hashedKey : string) (db : Db) : option Token :=
  mkToken <$> List.find (fun r => String.eqb (t_hashedKey r) hashedKey) (tokens db).

(** [prisma.restrictedToken.findUnique({ where: { hashedKey }, select })] *)
Definition restrictedToken_findUnique (hashedKey : string) (db : Db) : option Token :=
  mkRestrictedToken <$>
    List.find (fun r => String.eqb (rt_hashedKey r) hashedKey) (restrictedTokens db).

Definition setLastUsed (t : Z) (r : TokenRow) : TokenRow :=
  {| t_hashedKey := t_hashedKey r; t_user := t_user r; t_lastUsed := Some t |}.

Definition setRestrictedLastUsed (t : Z) (r : RestrictedTokenRow) : RestrictedTokenRow :=
  {| rt_hashedKey := rt_hashedKey r; rt_scopes := rt_scopes r;
     rt_rateLimit := rt_rateLimit r; rt_projectId := rt_projectId r;
     rt_user := rt_user r; rt_lastUsed := Some t |}.

(** [prisma.token.update({ where: { hashedKey }, data: { lastUsed } })]:
    the row with that hashed key (a unique key) is updated. *)
Definition token_update (hashedKey : string) (lastUsed : Z) (db : Db) : Db :=
  set_tokens
    ((fun r => if String.eqb (t_hashedKey r) hashedKey then setLastUsed lastUsed r else r)
       <$> tokens db) db.

(** [prisma.restrictedToken.update({ where: { hashedKey }, data: { lastUsed } })] *)
Definition restrictedToken_update (hashedKey : string) (lastUsed : Z) (db : Db) : Db :=
  set_restrictedTokens
    ((fun r => if String.eqb (rt_hashedKey r) hashedKey
               then setRestrictedLastUsed lastUsed r else r)
       <$> restrictedTokens db) db.

(** A filter that is [undefined] constrains nothing. *)
Definition matches (filter : Js.Str) (x : string) : bool :=
  match filter with
  | Some v => String.eqb x v
  | None => true
  end.

Definition mkWorkspace (userId : string) (db : Db) (p : ProjectRow) : Workspace :=
  {| id := p_id p; slug := p_slug p; plan := p_plan p;
     usage := p_usage p; usageLimit := p_usageLimit p;
     linksUsage := p_linksUsage p; linksLimit := p_linksLimit p;
     users :=
       (fun r => {| role := pu_role r |}) <$>
         List.filter (fun r => String.eqb (pu_projectId r) (p_id p)
                               && String.eqb (pu_userId r) userId)
                     (projectUsers db);
     domains :=
       (fun d => {| wd_id := d_id d; wd_slug := d_slug d; wd_primary := d_primary d |}) <$>
         List.filter (fun d => String.eqb (d_projectId d) (p_id p)) (domainRows db) |}.

(** [prisma.project.findUnique({ where: { id: workspaceId || undefined,
    slug: workspaceSlug || undefined }, include: { users, domains } })].
    The client refuses a [where] with no unique field at all. *)
Definition project_findUnique (workspaceId workspaceSlug : Js.Str) (userId : string)
    (db : Db) : Exn + option Workspace :=
  match Js.orUndefined workspaceId, Js.orUndefined workspaceSlug with
  | None, None => inl (LibraryError "PrismaClientValidationError")
  | i, s =>
      inr (mkWorkspace userId db <$>
             List.find (fun p => matches i (p_id p) && matches s (p_slug p)) (projects db))
  end.

Inductive LinkWhere :=
| ById (linkId : string)
| ByProjectExternal (projectId externalId : string)
| ByDomainKey (domain key : string).

Definition nullableIs (v : Js.Str) (x : string) : bool :=
  match v with
  | Some y => String.eqb y x
  | None => false
  end.

(** [prisma.link.findUnique({ where })] *)
Definition link_findUnique (w : LinkWhere) (db : Db) : option LinkRow :=
  match w with
  | ById i => List.find (fun l => String.eqb (l_id l) i) (links db)
  | ByProjectExternal p e =>
      List.find (fun l => nullableIs (l_projectId l) p && nullableIs (l_externalId l) e)
                (links db)
  | ByDomainKey d k =>
      List.find (fun l => String.eqb (l_domain l) d && String.eqb (l_key l) k) (links db)
  end.

(** [prisma.projectInvite.findUnique({ where: { email_projectId } })] *)
Definition projectInvite_findUnique (email projectId : string) (db : Db) : option InviteRow :=
  List.find (fun i => String.eqb (i_email i) email && String.eqb (i_projectId i) projectId)
            (projectInvites db).

Definition setPrimary (b : bool) (d : DomainRow) : DomainRow :=
  {| d_id := d_id d; d_slug := d_slug d; d_primary := b; d_projectId := d_projectId d |}.

(** What the two statements of the route do to one row. *)
Definition promote (slug : string) (d : DomainRow) : DomainRow :=
  if String.eqb (d_slug d) slug then setPrimary true d else d.

Definition demote (projectId : string) (notSlug : Js.Str) (d : DomainRow) : DomainRow :=
  if String.eqb (d_projectId d) projectId && d_primary d
     && negb (nullableIs notSlug (d_slug d))
  then setPrimary false d else d.

(** [prisma.domain.update({ where: { slug }, data: { primary: true } })]:
    the row with that slug (a unique key) is updated and returned; the
    call throws when [slug] is [undefined] or no row has it. *)
Definition domain_update (slug : Js.Str) (db : Db) : (Exn + DomainRow) * Db :=
  match slug with
  | None => (inl (LibraryError "PrismaClientValidationError"), db)
  | Some s =>
      match List.find (fun d => String.eqb (d_slug d) s) (domainRows db) with
      | None => (inl (LibraryError "RecordNotFound"), db)
      | Some d =>
          (inr (setPrimary true d),
           set_domainRows (promote s <$> domainRows db) db)
      end
  end.

(** [prisma.domain.updateMany({ where: { projectId, primary: true,
    slug: { not } }, data: { primary: false } })] *)
Definition domain_updateMany (projectId : string) (notSlug : Js.Str) (db : Db) : Db :=
  set_domainRows (demote projectId notSlug <$> domainRows db) db.

End prisma.

(* ===================================================================== *)
(** ** The monad of the [try] block *)
(* ===================================================================== *)

(** What the middleware does to the outside world, in the order it does it
    (the oldest event first). *)
Inductive Event :=
| EHashToken (apiKey : string)
| ETokenFindUnique (restricted : bool) (hashedKey : string)
| ERatelimit (n : Z) (apiKey : string)
| ETokenLastUsed (restricted : bool) (hashedKey : string)
| EGetSession
| EProjectFindUnique (workspaceId workspaceSlug : Js.Str) (userId : string)
| ELinkFindUnique (w : prisma.LinkWhere)
| EIsBetaTester (workspaceId : string)
| EProjectInviteFindUnique (email projectId : string)
| EHandler (args : HandlerArgs).

(** The arguments of the handler calls in a log. *)
Definition invocations (log : list Event) : list HandlerArgs :=
  omap (fun e => match e with EHandler a => Some a | _ => None end) log.

Record St := {
  st_db : Db;
  (** the [let headers = {}] of the request closure *)
  st_headers : Headers;
  st_log : list Event;
}.

(** The two ways out of the [try] block other than falling off its end. *)
Inductive Exit :=
| Throw (e : Exn)
| Return (r : Response).

Definition M (A : Type) : Type := St -> (Exit + A) * St.

Definition ret {A} (a : A) : M A := fun st => (inr a, st).

Definition bind {A B} (m : M A) (k : A -> M B) : M B :=
  fun st =>
    match m st with
    | (inl x, st') => (inl x, st')
    | (inr a, st') => k a st'
    end.

Notation "x <- m ;; k" := (bind m (fun x => k))
  (at level 100, m at next level, right associativity).
Notation "m ;;; k" := (bind m (fun _ => k))
  (at level 100, right associativity).

Definition throw {A} (e : Exn) : M A := fun st => (inl (Throw e), st).
Definition returnEarly {A} (r : Response) : M A := fun st => (inl (Return r), st).

Definition emit (e : Event) : M unit :=
  fun st => (inr tt, {| st_db := st_db st; st_headers := st_headers st;
                        st_log := st_log st ++ [e] |}).

Definition getDb : M Db := fun st => (inr (st_db st), st).
Definition getHeaders : M Headers := fun st => (inr (st_headers st), st).

Definition setHeaders (h : Headers) : M unit :=
  fun st => (inr tt, {| st_db := st_db st; st_headers := h; st_log := st_log st |}).

Definition setDb (db : Db) : M unit :=
  fun st => (inr tt, {| st_db := db; st_headers := st_headers st; st_log := st_log st |}).

Definition liftExn {A} (r : Exn + A) : M A :=
  match r with
  | inl e => throw e
  | inr a => ret a
  end.

(** [await handler(args)] *)
Definition invoke (handler : Handler) (args : HandlerArgs) : M Response :=
  emit (EHandler args) ;;;
  db <- getDb ;;
  let '(r, db') := handler args db in
  setDb db' ;;;
  liftExn r.

(* ===================================================================== *)
(** ** [withWorkspace] *)
(* ===================================================================== *)

(** The values the block computes from the request before it looks
    anything up. *)
Record Pre := {
  apiKey : Js.Str;
  domain : Js.Str;
  key : Js.Str;
  linkId : Js.Str;
  isRestrictedToken : bool;
  idOrSlug : Js.Str;
}.

(** What the checks after workspace resolution read and update. *)
Record Ctx := {
  c_pre : Pre;
  c_workspaceId : Js.Str;
  c_token : option Token;
  c_session : Session;
  c_workspace : Workspace;
  c_link : option LinkRow;
  c_scopes : list Scope;
}.

Definition set_link (l : option LinkRow) (c : Ctx) : Ctx :=
  {| c_pre := c_pre c; c_workspaceId := c_workspaceId c; c_token := c_token c;
     c_session := c_session c; c_workspace := c_workspace c;
     c_link := l; c_scopes := c_scopes c |}.

Definition set_scopes (s : list Scope) (c : Ctx) : Ctx :=
  {| c_pre := c_pre c; c_workspaceId := c_workspaceId c; c_token := c_token c;
     c_session := c_session c; c_workspace := c_workspace c;
     c_link := c_link c; c_scopes := s |}.

Section Middleware.

Variable handler : Handler.
Variable cfg : Config.
Variable env : Env.
Variable req : Request.
(** [params] after its default [{}] has been applied *)
Variable params : gmap string string.

(** Lines 89-99: the API key of the [Authorization] header. *)
Definition extractApiKey (authorizationHeader : Js.Str) : Exn + Js.Str :=
  match Js.whenTruthy authorizationHeader with
  | Some h =>
      if negb (Js.includes "Bearer " h) then
        inl (DubApiError bad_request
               "Misconfigured authorization header. Did you forget to add 'Bearer '? Learn more: https://d.to/auth")
      else inr (Some (Js.replace "Bearer " "" h))
  | None => inr None
  end.

(** Line 101: [params?.domain || searchParams.domain]. *)
Definition requestDomain : Js.Str :=
  Js.or (params !! "domain") (searchParams req !! "domain").

(** Lines 103-107. *)
Definition requestLinkId : Js.Str :=
  Js.orUndefined
    (Js.or (Js.or (params !! "linkId") (searchParams req !! "linkId"))
           (searchParams req !! "externalId")).

(** Lines 116-120: the workspace id or slug that the request names. *)
Definition requestIdOrSlug : Js.Str :=
  Js.or (Js.or (Js.or (params !! "idOrSlug") (searchParams req !! "workspaceId"))
               (params !! "slug"))
        (searchParams req !! "projectSlug").

(** Lines 89-120. *)
Definition preamble : Exn + Pre :=
  match extractApiKey (authorization req) with
  | inl e => inl e
  | inr k =>
      inr {| apiKey := k;
             domain := requestDomain;
             key := searchParams req !! "key";
             linkId := requestLinkId;
             isRestrictedToken :=
               match k with
               | Some k' => Js.startsWith "dub_" k'
               | None => false
               end;
             idOrSlug := requestIdOrSlug |}
  end.

Definition anonymousArgs (h : Headers) : HandlerArgs :=
  {| a_req := req; a_params := params; a_searchParams := searchParams req;
     a_headers := h; a_session := None; a_workspace := None;
     a_domain := None; a_link := None; a_scopes := None |}.

(** Lines 122-141: no workspace id or slug, and not a restricted token. *)
Definition requireWorkspace (pre : Pre) : M unit :=
  if negb (Js.truthy (idOrSlug pre)) && negb (isRestrictedToken pre) then
    if allowAnonymous cfg && negb (Js.truthy (apiKey pre)) then
      h <- getHeaders ;;
      r <- invoke handler (anonymousArgs h) ;;
      returnEarly r
    else
      throw (DubApiError not_found
               "Workspace id not found. Did you forget to include a `workspaceId` query parameter? Learn more: https://d.to/id")
  else ret tt.

(** Lines 143-149: [(workspaceId, workspaceSlug)]. *)
Definition workspaceRef (pre : Pre) : Js.Str * Js.Str :=
  match Js.whenTruthy (idOrSlug pre) with
  | Some s =>
      if Js.startsWith "ws_" s then (Some (Js.replace "ws_" "" s), None)
      else (None, Some s)
  | None => (None, None)
  end.

(** [token?.rateLimit || 600] *)
Definition rateLimitOf (t : Token) : Z :=
  match t with
  | RestrictedToken _ (Some n) _ _ => if Z.eqb n 0 then 600 else n
  | _ => 600
  end.

Definition rateLimitHeaders (r : RatelimitResult) : Headers :=
  [("Retry-After", pretty (reset r));
   ("X-RateLimit-Limit", pretty (limit r));
   ("X-RateLimit-Remaining", pretty (remaining r));
   ("X-RateLimit-Reset", pretty (reset r))].

(** [name || ""] *)
Definition orEmpty (v : Js.Str) : string :=
  match Js.or v (Some "") with
  | Some s => s
  | None => ""
  end.

Definition sessionOfToken (u : TokenUser) : Session :=
  {| user := Some {| su_id := tu_id u; su_name := orEmpty (tu_name u);
                     su_email := orEmpty (tu_email u);
                     su_isMachine := tu_isMachine u |} |}.

(** [session?.user?.id] *)
Definition sessionUserId (s : option Session) : Js.Str :=
  match s with
  | Some s' => su_id <$> user s'
  | None => None
  end.

(** Lines 174-178: the table is chosen by the prefix of the key. *)
Definition findToken (restricted : bool) (hashedKey : string) (db : Db) : option Token :=
  if restricted then prisma.restrictedToken_findUnique hashedKey db
  else prisma.token_findUnique hashedKey db.

(** Lines 213-231: the update of [lastUsed], in the table of the key.  It
    is issued here and not awaited ([waitUntil]); it is taken to apply
    when it is issued, before the queries that follow. *)
Definition updateLastUsed (restricted : bool) (hashedKey : string) (db : Db) : Db :=
  if restricted then prisma.restrictedToken_update hashedKey (now env) db
  else prisma.token_update hashedKey (now env) db.

(** Lines 151-250: the session, the token and the workspace id, which a
    restricted token overrides. *)
Definition authenticate (pre : Pre) (workspaceId : Js.Str)
    : M (Session * option Token * Js.Str) :=
  match Js.whenTruthy (apiKey pre) with
  | Some k =>
      emit (EHashToken k) ;;;
      let hashedKey := hashToken env k in
      emit (ETokenFindUnique (isRestrictedToken pre) hashedKey) ;;;
      db <- getDb ;;
      match findToken (isRestrictedToken pre) hashedKey db with
      | Some t =>
          match token_user t with
          | Some u =>
              emit (ERatelimit (rateLimitOf t) k) ;;;
              let r := ratelimit env (rateLimitOf t) k in
              setHeaders (rateLimitHeaders r) ;;;
              if negb (success r) then
                throw (DubApiError rate_limit_exceeded "Too many requests.")
              else
                let workspaceId' :=
                  if isRestrictedToken pre then
                    match t with
                    | RestrictedToken _ _ projectId _ => Some projectId
                    | PlainToken _ => None
                    end
                  else workspaceId in
                emit (ETokenLastUsed (isRestrictedToken pre) hashedKey) ;;;
                db' <- getDb ;;
                setDb (updateLastUsed (isRestrictedToken pre) hashedKey db') ;;;
                ret (sessionOfToken u, Some t, workspaceId')
          | None => throw (DubApiError unauthorized "Unauthorized: Invalid API key.")
          end
      | None => throw (DubApiError unauthorized "Unauthorized: Invalid API key.")
      end
  | None =>
      emit EGetSession ;;;
      match getSession env with
      | Some s =>
          if Js.truthy (sessionUserId (Some s)) then ret (s, None, workspaceId)
          else throw (DubApiError unauthorized "Unauthorized: Login required.")
      | None => throw (DubApiError unauthorized "Unauthorized: Login required.")
      end
  end.

(** Lines 276-298: which link, if any, is looked up next to the workspace. *)
Definition linkQuery (pre : Pre) (workspaceId : Js.Str) : option prisma.LinkWhere :=
  match Js.whenTruthy (linkId pre) with
  | Some l =>
      match (if Js.startsWith "ext_" l then Js.whenTruthy workspaceId else None) with
      | Some w => Some (prisma.ByProjectExternal w (Js.replace "ext_" "" l))
      | None => Some (prisma.ById l)
      end
  | None =>
      match Js.whenTruthy (domain pre), Js.whenTruthy (key pre) with
      | Some d, Some k => Some (prisma.ByDomainKey d k)
      | _, _ => None
      end
  end.

(** Lines 252-299: both queries are issued, then awaited together. *)
Definition fetch (pre : Pre) (session : Session) (workspaceId workspaceSlug : Js.Str)
    : M (option Workspace * option LinkRow) :=
  match user session with
  | Some u =>
      emit (EProjectFindUnique (Js.orUndefined workspaceId)
              (Js.orUndefined workspaceSlug) (su_id u)) ;;;
      match linkQuery pre workspaceId with
      | Some q => emit (ELinkFindUnique q)
      | None => ret tt
      end ;;;
      db <- getDb ;;
      w <- liftExn (prisma.project_findUnique workspaceId workspaceSlug (su_id u) db) ;;
      ret (w, linkQuery pre workspaceId ≫= fun q => prisma.link_findUnique q db)
  | None => throw (LibraryError "TypeError")
  end.

(** Lines 88-307: up to and including the check that the workspace
    exists and lists the caller. *)
Definition resolved : M Ctx :=
  pre <- liftExn preamble ;;
  requireWorkspace pre ;;;
  a <- authenticate pre (fst (workspaceRef pre)) ;;
  let '(session, token, workspaceId) := a in
  f <- fetch pre session workspaceId (snd (workspaceRef pre)) ;;
  match fst f with
  | Some w =>
      if Nat.eqb (length (users w)) 0 then
        throw (DubApiError not_found "Workspace not found.")
      else
        ret {| c_pre := pre; c_workspaceId := workspaceId; c_token := token;
               c_session := session; c_workspace := w; c_link := snd f;
               c_scopes := [] |}
  | None => throw (DubApiError not_found "Workspace not found.")
  end.

(** Lines 309-314: the scopes of the token, or of the caller's role. *)
Definition findScopes (token : option Token) (w : Workspace) : Exn + list Scope :=
  match token with
  | Some (RestrictedToken scopes _ _ _) =>
      match scopes with
      | Some s => inr (Js.splitSpaces s)
      | None => inr []
      end
  | _ =>
      match users w with
      | u :: _ => inr (roleScopesMapping env (role u))
      | [] => inl (LibraryError "TypeError")
      end
  end.

(** Lines 309-323. *)
Definition checkScopes (c : Ctx) : M Ctx :=
  scopes <- liftExn (findScopes (c_token c) (c_workspace c)) ;;
  if negb (skipScopeChecks cfg) then
    match throwIfNoAccess env scopes (requiredScopes cfg) (id (c_workspace c)) with
    | Some e => throw e
    | None => ret (set_scopes scopes c)
    end
  else ret (set_scopes scopes c).

(** Lines 325-334. *)
Definition checkBeta (c : Ctx) : M Ctx :=
  if betaFeature cfg then
    emit (EIsBetaTester (id (c_workspace c))) ;;;
    if negb (isBetaTester env (id (c_workspace c))) then
      throw (DubApiError forbidden "Unauthorized: Beta feature.")
    else ret c
  else ret c.

(** Lines 336-347: the link is looked up again by external id when the
    workspace was given by slug. *)
Definition refetchLink (c : Ctx) : M Ctx :=
  match Js.whenTruthy (linkId (c_pre c)) with
  | Some l =>
      if Js.startsWith "ext_" l
         && negb (Js.is_Some_b (c_link c))
         && negb (Js.truthy (c_workspaceId c))
      then
        let q := prisma.ByProjectExternal (id (c_workspace c)) (Js.replace "ext_" "" l) in
        emit (ELinkFindUnique q) ;;;
        db <- getDb ;;
        ret (set_link (prisma.link_findUnique q db) c)
      else ret c
  | None => ret c
  end.

(** [workspace.domains.find((d) => d.slug === domain)] *)
Definition findDomain (w : Workspace) (d : string) : option WorkspaceDomain :=
  List.find (fun x => String.eqb (wd_slug x) d) (domains w).

(** Lines 349-366. *)
Definition checkDomain (c : Ctx) : M Ctx :=
  match Js.whenTruthy (domain (c_pre c)) with
  | Some d =>
      if isDubDomain env d then
        if domainChecks cfg
           && negb (String.eqb (id (c_workspace c)) (DUB_WORKSPACE_ID env))
        then throw (DubApiError forbidden "Domain does not belong to workspace.")
        else ret c
      else if negb (Js.is_Some_b (findDomain (c_workspace c) d)) then
        throw (DubApiError forbidden "Domain does not belong to workspace.")
      else ret c
  | None => ret c
  end.

(** Lines 368-397. *)
Definition checkInvite (c : Ctx) : M Ctx :=
  if Nat.eqb (length (users (c_workspace c))) 0 then
    match user (c_session c) with
    | Some u =>
        emit (EProjectInviteFindUnique (su_email u) (id (c_workspace c))) ;;;
        db <- getDb ;;
        match prisma.projectInvite_findUnique (su_email u) (id (c_workspace c)) db with
        | None => throw (DubApiError not_found "Workspace not found.")
        | Some i =>
            if i_expires i <? now env then
              throw (DubApiError invite_expired "Workspace invite expired.")
            else throw (DubApiError invite_pending "Workspace invite pending.")
        end
    | None => throw (LibraryError "TypeError")
    end
  else ret c.

(** Lines 399-409. *)
Definition checkClicks (c : Ctx) : M Ctx :=
  let w := c_workspace c in
  if needNotExceededClicks cfg && (usage w >? usageLimit w) then
    throw (DubApiError forbidden (exceededLimitError env (plan w) (usageLimit w) clicks))
  else ret c.

(** Lines 411-425. *)
Definition checkLinks (c : Ctx) : M Ctx :=
  let w := c_workspace c in
  if needNotExceededLinks cfg
     && (linksUsage w >? linksLimit w)
     && (String.eqb (plan w) "free" || String.eqb (plan w) "pro")
  then
    throw (DubApiError forbidden (exceededLimitError env (plan w) (linksLimit w) linksType))
  else ret c.

(** Lines 427-433: [requiredPlan.includes(workspace.plan)]. *)
Definition checkPlan (c : Ctx) : M Ctx :=
  if negb (existsb (String.eqb (plan (c_workspace c))) (requiredPlan cfg)) then
    throw (DubApiError forbidden "Unauthorized: Need higher plan.")
  else ret c.

(** Lines 435-446. *)
Definition checkAnalytics (c : Ctx) : M Ctx :=
  if String.eqb (plan (c_workspace c)) "free"
     && Js.truthy (apiKey (c_pre c))
     && Js.includes "/analytics" (pathname req)
  then throw (DubApiError forbidden "Analytics API is only available on paid plans.")
  else ret c.

(** [key !== "_root"] *)
Definition notRoot (k : Js.Str) : bool :=
  match k with
  | Some s => negb (String.eqb s "_root")
  | None => true
  end.

(** Lines 448-457. *)
Definition checkLink (c : Ctx) : M Ctx :=
  let pre := c_pre c in
  if (Js.truthy (linkId pre)
      || (Js.truthy (domain pre) && Js.truthy (key pre) && notRoot (key pre)))
     && negb (skipLinkChecks cfg)
  then
    match c_link c with
    | Some l =>
        if negb (prisma.nullableIs (l_projectId l) (id (c_workspace c))) then
          throw (DubApiError not_found "Link not found.")
        else ret c
    | None => throw (DubApiError not_found "Link not found.")
    end
  else ret c.

Definition fullArgs (c : Ctx) (h : Headers) : HandlerArgs :=
  {| a_req := req; a_params := params; a_searchParams := searchParams req;
     a_headers := h; a_session := Some (c_session c);
     a_workspace := Some (c_workspace c); a_domain := domain (c_pre c);
     a_link := c_link c; a_scopes := Some (c_scopes c) |}.

(** The block as far as each check, in the order of the source. *)
Definition scopesChecked : M Ctx := c <- resolved ;; checkScopes c.
Definition betaChecked : M Ctx := c <- scopesChecked ;; checkBeta c.
Definition linkRefetched : M Ctx := c <- betaChecked ;; refetchLink c.
Definition domainChecked : M Ctx := c <- linkRefetched ;; checkDomain c.
Definition inviteChecked : M Ctx := c <- domainChecked ;; checkInvite c.
Definition clicksChecked : M Ctx := c <- inviteChecked ;; checkClicks c.
Definition linksChecked : M Ctx := c <- clicksChecked ;; checkLinks c.
Definition planChecked : M Ctx := c <- linksChecked ;; checkPlan c.
Definition analyticsChecked : M Ctx := c <- planChecked ;; checkAnalytics c.
Definition linkChecked : M Ctx := c <- analyticsChecked ;; checkLink c.

(** The whole [try] block, lines 88-469. *)
Definition tryBlock : M Response :=
  c <- linkChecked ;;
  h <- getHeaders ;;
  invoke handler (fullArgs c h).

Definition initial (db : Db) : St :=
  {| st_db := db; st_headers := []; st_log := [] |}.

(** The request handler that [withWorkspace(handler, options)] returns:
    the response, and the state the request leaves behind.  The [catch]
    turns a thrown error into [handleAndReturnErrorResponse(error,
    headers)], with the headers as they are by then. *)
Definition withWorkspace (db : Db) : Response * St :=
  match tryBlock (initial db) with
  | (inr r, st) => (r, st)
  | (inl (Return r), st) => (r, st)
  | (inl (Throw e), st) => (ErrorResponse e (st_headers st), st)
  end.

End Middleware.

(* ===================================================================== *)
(** ** [POST /api/domains/[domain]/primary] *)
(* ===================================================================== *)

Module primary.

(** The two updates of the handler, which [Promise.all] issues together:
    the named domain becomes primary, the workspace's other primary
    domains stop being so.  The second runs whether or not the first
    finds its row. *)
Definition updates (projectId : string) (domain : Js.Str) (db : Db)
    : (Exn + DomainRow) * Db :=
  let '(r, db1) := prisma.domain_update domain db in
  (r, prisma.domain_updateMany projectId domain db1).

(** The same two updates when the database runs them in the other order. *)
Definition updatesSwapped (projectId : string) (domain : Js.Str) (db : Db)
    : (Exn + DomainRow) * Db :=
  prisma.domain_update domain (prisma.domain_updateMany projectId domain db).

Definition handler (env : Env) : Handler :=
  fun args db =>
    match a_workspace args with
    | Some workspace =>
        match updates (id workspace) (a_domain args) db with
        | (inr domainRecord, db') =>
            match DomainSchema_parse env domainRecord with
            | inr body => (inr (JsonResponse body (a_headers args)), db')
            | inl e => (inl e, db')
            end
        | (inl e, db') => (inl e, db')
        end
    | None => (inl (LibraryError "TypeError"), db)
    end.

Definition options : Config :=
  {| requiredPlan := allPlans;
     needNotExceededClicks := false; needNotExceededLinks := false;
     allowAnonymous := false; skipLinkChecks := false;
     domainChecks := true; betaFeature := false;
     requiredScopes := ["domains.write"]; skipScopeChecks := false |}.

Definition POST (env : Env) (req : Request) (params : option (gmap string string))
    (db : Db) : Response * St :=
  withWorkspace (handler env) options env req (default ∅ params) db.

End primary.

(* ===================================================================== *)
(** ** A small deployment to run the definitions on *)
(* ===================================================================== *)

Module Sample.

Definition grants (scopes required : list Scope) : bool :=
  forallb (fun r => existsb (String.eqb r) scopes) required.

Definition alice : SessionUser :=
  {| su_id := "u1"; su_name := "Alice"; su_email := "alice@acme.co";
     su_isMachine := false |}.

Definition aliceRow : TokenUser :=
  {| tu_id := "u1"; tu_name := Some "Alice"; tu_email := None;
     tu_isMachine := false |}.

Definition env : Env :=
  {| hashToken := fun k => "sha256:" ++ k;
     ratelimit := fun n _ => {| success := true; limit := n; reset := 60;
                                remaining := n - 1 |};
     getSession := Some {| user := Some alice |};
     isBetaTester := fun _ => false;
     now := 1000;
     isDubDomain := fun d => String.eqb d "dub.sh";
     DUB_WORKSPACE_ID := "dub";
     roleScopesMapping := fun r =>
       if String.eqb r "owner" then ["domains.read"; "domains.write"; "links.write"]
       else ["domains.read"];
     throwIfNoAccess := fun scopes required _ =>
       if grants scopes required then None
       else Some (DubApiError forbidden "Missing required scopes.");
     exceededLimitError := fun _ _ t =>
       match t with
       | clicks => "Clicks limit exceeded."
       | linksType => "Links limit exceeded."
       end;
     DomainSchema_parse := fun d =>
       inr (JObj [("id", JStr (d_id d)); ("slug", JStr (d_slug d));
                  ("primary", JBool (d_primary d))]) |}.

(** The same deployment with nobody logged in. *)
Definition envLoggedOut : Env :=
  {| hashToken := hashToken env; ratelimit := ratelimit env;
     getSession := None;
     isBetaTester := isBetaTester env; now := now env;
     isDubDomain := isDubDomain env; DUB_WORKSPACE_ID := DUB_WORKSPACE_ID env;
     roleScopesMapping := roleScopesMapping env;
     throwIfNoAccess := throwIfNoAccess env;
     exceededLimitError := exceededLimitError env;
     DomainSchema_parse := DomainSchema_parse env |}.

Definition db : Db :=
  {| tokens := [ {| t_hashedKey := "sha256:abc"; t_user := Some aliceRow;
                    t_lastUsed := None |} ];
     restrictedTokens :=
       [ {| rt_hashedKey := "sha256:dub_r1"; rt_scopes := Some "links.read domains.read";
            rt_rateLimit := None; rt_projectId := "p1"; rt_user := Some aliceRow;
            rt_lastUsed := None |} ];
     projects :=
       [ {| p_id := "p1"; p_slug := "acme"; p_plan := "business";
            p_usage := 100; p_usageLimit := 100;
            p_linksUsage := 2000; p_linksLimit := 1000 |};
         {| p_id := "p2"; p_slug := "solo"; p_plan := "free";
            p_usage := 101; p_usageLimit := 100;
            p_linksUsage := 26; p_linksLimit := 25 |} ];
     projectUsers :=
       [ {| pu_projectId := "p1"; pu_userId := "u1"; pu_role := "owner" |};
         {| pu_projectId := "p2"; pu_userId := "u1"; pu_role := "member" |} ];
     domainRows :=
       [ {| d_id := "d1"; d_slug := "acme.co"; d_primary := true; d_projectId := "p1" |};
         {| d_id := "d2"; d_slug := "acme.link"; d_primary := false; d_projectId := "p1" |};
         {| d_id := "d3"; d_slug := "solo.io"; d_primary := true; d_projectId := "p2" |} ];
     links := [];
     projectInvites := [] |}.

Definition request (auth : Js.Str) (query : list (string * string)) (path : string)
    : Request :=
  {| authorization := auth; searchParams := list_to_map query; pathname := path |}.

(** A handler that only answers. *)
Definition ok : Handler := fun _ db => (inr (JsonResponse JNull []), db).

Definition withOptions (clicksNeeded linksNeeded anonymous : bool) : Config :=
  {| requiredPlan := allPlans;
     needNotExceededClicks := clicksNeeded; needNotExceededLinks := linksNeeded;
     allowAnonymous := anonymous; skipLinkChecks := false;
     domainChecks := false; betaFeature := false;
     requiredScopes := []; skipScopeChecks := false |}.

(** A beta feature that also checks domains. *)
Definition betaOptions : Config :=
  {| requiredPlan := allPlans;
     needNotExceededClicks := false; needNotExceededLinks := false;
     allowAnonymous := false; skipLinkChecks := false;
     domainChecks := true; betaFeature := true;
     requiredScopes := []; skipScopeChecks := false |}.

(** The sample database with one more token, whose user is stored under
    the empty id and owns the workspace [acme]. *)
Definition dbWithBlankUser : Db :=
  {| tokens :=
       tokens db ++
       [ {| t_hashedKey := "sha256:blank";
            t_user := Some {| tu_id := ""; tu_name := None; tu_email := None;
                              tu_isMachine := true |};
            t_lastUsed := None |} ];
     restrictedTokens := restrictedTokens db;
     projects := projects db;
     projectUsers :=
       projectUsers db ++
       [ {| pu_projectId := "p1"; pu_userId := ""; pu_role := "owner" |} ];
     domainRows := domainRows db;
     links := links db;
     projectInvites := projectInvites db |}.

(** Alice, logged in in the browser, names the workspace and a domain. *)
Definition browserRequest (workspaceId : string) : Request :=
  request None [("workspaceId", workspaceId)] "/api/domains".

Definition named (domain : string) : gmap string string := {[ "domain" := domain ]}.

End Sample.

(** A second deployment, for the properties of the later sections. *)
Module Deployment.

(** The sample database with two links, one of each workspace. *)
Definition db : Db :=
  {| tokens := tokens Sample.db;
     restrictedTokens := restrictedTokens Sample.db;
     projects := projects Sample.db;
     projectUsers := projectUsers Sample.db;
     domainRows := domainRows Sample.db;
     links :=
       [ {| l_id := "l1"; l_domain := "acme.co"; l_key := "promo";
            l_projectId := Some "p1"; l_externalId := Some "x1" |};
         {| l_id := "l2"; l_domain := "solo.io"; l_key := "hello";
            l_projectId := Some "p2"; l_externalId := None |} ];
     projectInvites := projectInvites Sample.db |}.

(** The sample database with the dub workspace, which Alice owns; its
    default domain "dub.sh" has no row of its own. *)
Definition dbWithDub : Db :=
  {| tokens := tokens Sample.db;
     restrictedTokens := restrictedTokens Sample.db;
     projects :=
       projects Sample.db ++
       [ {| p_id := "dub"; p_slug := "dub"; p_plan := "enterprise";
            p_usage := 0; p_usageLimit := 1000;
            p_linksUsage := 0; p_linksLimit := 1000 |} ];
     projectUsers :=
       projectUsers Sample.db ++
       [ {| pu_projectId := "dub"; pu_userId := "u1"; pu_role := "owner" |} ];
     domainRows :=
       domainRows Sample.db ++
       [ {| d_id := "d4"; d_slug := "dub.co"; d_primary := true; d_projectId := "dub" |} ];
     links := links Sample.db;
     projectInvites := projectInvites Sample.db |}.

(** The sample database with two more restricted keys of the workspace
    [acme], both Alice's: one with the scopes "links.read domains.write",
    one whose scopes column is null. *)
Definition dbWithKeys : Db :=
  {| tokens := tokens Sample.db;
     restrictedTokens :=
       restrictedTokens Sample.db ++
       [ {| rt_hashedKey := "sha256:dub_w1";
            rt_scopes := Some "links.read domains.write";
            rt_rateLimit := None; rt_projectId := "p1";
            rt_user := Some Sample.aliceRow; rt_lastUsed := None |};
         {| rt_hashedKey := "sha256:dub_n1"; rt_scopes := None;
            rt_rateLimit := None; rt_projectId := "p1";
            rt_user := Some Sample.aliceRow; rt_lastUsed := None |} ];
     projects := projects Sample.db;
     projectUsers := projectUsers Sample.db;
     domainRows := domainRows Sample.db;
     links := links Sample.db;
     projectInvites := projectInvites Sample.db |}.

(** The sample deployment with a rate limiter that lets nothing through. *)
Definition envLimited : Env :=
  {| hashToken := hashToken Sample.env;
     ratelimit := fun n _ => {| success := false; limit := n; reset := 60;
                                remaining := 0 |};
     getSession := getSession Sample.env;
     isBetaTester := isBetaTester Sample.env; now := now Sample.env;
     isDubDomain := isDubDomain Sample.env;
     DUB_WORKSPACE_ID := DUB_WORKSPACE_ID Sample.env;
     roleScopesMapping := roleScopesMapping Sample.env;
     throwIfNoAccess := throwIfNoAccess Sample.env;
     exceededLimitError := exceededLimitError Sample.env;
     DomainSchema_parse := DomainSchema_parse Sample.env |}.

(** A route for enterprise workspaces only. *)
Definition enterpriseOnly : Config :=
  {| requiredPlan := ["enterprise"];
     needNotExceededClicks := false; needNotExceededLinks := false;
     allowAnonymous := false; skipLinkChecks := false;
     domainChecks := false; betaFeature := false;
     requiredScopes := []; skipScopeChecks := false |}.

(** A request with the API key [k] that names the workspace. *)
Definition keyRequest (k workspaceId path : string) : Request :=
  Sample.request (Some ("Bearer " ++ k)) [("workspaceId", workspaceId)] path.

(** Alice, logged in in the browser, names the workspace and a link. *)
Definition linkRequest (workspaceId linkId : string) : Request :=
  Sample.request None [("workspaceId", workspaceId); ("linkId", linkId)] "/api/links".

End Deployment.

(* ===================================================================== *)
(** ** What the statements below speak of *)
(* ===================================================================== *)

(** What the pair of updates makes of one row. *)
Definition rowAfter (projectId : string) (domain : Js.Str) (d : DomainRow) : DomainRow :=
  prisma.demote projectId domain
    match domain with
    | Some s => prisma.promote s d
    | None => d
    end.

(** Users are stored under a non-empty id (their primary key). *)
Definition userIdsPresent (db : Db) : Prop :=
  (forall r u, r ∈ tokens db -> t_user r = Some u -> tu_id u <> "") /\
  (forall r u, r ∈ restrictedTokens db -> rt_user r = Some u -> tu_id u <> "").

(** An error that the middleware's own [throw] statements can raise,
    other than what [throwIfNoAccess] throws: never an invite error. *)
Definition ownError (e : Exn) : Prop :=
  match e with
  | DubApiError c _ => c <> invite_expired /\ c <> invite_pending
  | LibraryError _ => True
  end.

(** A computation that neither calls the handler nor returns early nor
    writes to the database; [Q] relates its result to the database and
    [E] holds of what it throws.  The headers variable may change. *)
Definition quiet {A} (m : M A) (E : Exn -> Prop) (Q : Db -> A -> Prop) : Prop :=
  forall st x st',
    m st = (x, st') ->
    st_db st' = st_db st /\
    invocations (st_log st') = invocations (st_log st) /\
    match x with
    | inr a => Q (st_db st) a
    | inl (Throw e) => E e
    | inl (Return _) => False
    end.

(** The checks change the link and the scopes of the context only. *)
Definition sameCaller (c c' : Ctx) : Prop :=
  c_pre c' = c_pre c /\ c_workspaceId c' = c_workspaceId c /\
  c_token c' = c_token c /\ c_session c' = c_session c /\
  c_workspace c' = c_workspace c.

(** A database without what the middleware itself writes: the
    [lastUsed] of the tokens. *)
Definition forgetLastUsed (db : Db) : Db :=
  set_tokens
    ((fun r => {| t_hashedKey := t_hashedKey r; t_user := t_user r;
                  t_lastUsed := None |}) <$> tokens db)
    (set_restrictedTokens
       ((fun r => {| rt_hashedKey := rt_hashedKey r; rt_scopes := rt_scopes r;
                     rt_rateLimit := rt_rateLimit r; rt_projectId := rt_projectId r;
                     rt_user := rt_user r; rt_lastUsed := None |})
          <$> restrictedTokens db) db).

(** Two databases that differ at most in the [lastUsed] of tokens. *)
Definition sameButLastUsed (db db' : Db) : Prop :=
  forgetLastUsed db' = forgetLastUsed db.

(** How an exit from the [try] block shows in the response. *)
Definition respond (x : Exit) (st : St) : Response * St :=
  match x with
  | Throw e => (ErrorResponse e (st_headers st), st)
  | Return r => (r, st)
  end.

Section Statements.

Variable handler : Handler.
Variable cfg : Config.
Variable env : Env.
Variable req : Request.
Variable params : gmap string string.

(** What can come out of a check: one of the middleware's own errors, or
    whatever [throwIfNoAccess] threw. *)
Definition thrown (e : Exn) : Prop :=
  ownError e \/
  exists scopes workspaceId,
    throwIfNoAccess env scopes (requiredScopes cfg) workspaceId = Some e.

(** How the caller of a context was authenticated. *)
Definition authenticated (db : Db) (c : Ctx) : Prop :=
  match Js.whenTruthy (apiKey (c_pre c)) with
  | Some k =>
      exists t u,
        findToken (isRestrictedToken (c_pre c)) (hashToken env k) db = Some t /\
        token_user t = Some u /\
        c_token c = Some t /\
        c_session c = sessionOfToken u
  | None =>
      c_token c = None /\
      getSession env = Some (c_session c) /\
      Js.truthy (sessionUserId (Some (c_session c))) = true
  end.

(** What holds of a context once the workspace has been resolved. *)
Record Established (db : Db) (c : Ctx) : Prop := {
  est_pre : preamble req params = inr (c_pre c);
  est_named :
    Js.truthy (idOrSlug (c_pre c)) = true \/ isRestrictedToken (c_pre c) = true;
  est_auth : authenticated db c;
  est_workspace :
    exists u,
      user (c_session c) = Some u /\
      prisma.project_findUnique (c_workspaceId c) (snd (workspaceRef (c_pre c)))
        (su_id u) db = inr (Some (c_workspace c));
  est_member : users (c_workspace c) <> [];
}.

(** The one run that calls the handler before the checks: the anonymous
    one, which leaves with the handler's response or error. *)
Definition anonymousRun (db : Db) (x : Exit) (st' : St) : Prop :=
  allowAnonymous cfg = true /\
  (exists pre, preamble req params = inr pre /\
               Js.truthy (idOrSlug pre) = false /\
               Js.truthy (apiKey pre) = false) /\
  st_headers st' = [] /\
  st_log st' = [EHandler (anonymousArgs req params [])] /\
  st_db st' = snd (handler (anonymousArgs req params []) db) /\
  x = match fst (handler (anonymousArgs req params []) db) with
      | inl e => Throw e
      | inr r => Return r
      end.

(** What holds of the block as far as some check, run on a request from
    the start. *)
Definition prefixSpec (m : M Ctx) : Prop :=
  forall db x st',
    m (initial db) = (x, st') ->
    match x with
    | inr c =>
        sameButLastUsed db (st_db st') /\ invocations (st_log st') = [] /\
        Established db c
    | inl ex =>
        anonymousRun db ex st' \/
        (sameButLastUsed db (st_db st') /\ invocations (st_log st') = [] /\
         exists e, ex = Throw e /\ thrown e)
    end.

(** An exit from a part of the block is an exit from the whole block. *)
Definition leaves (m : M Ctx) : Prop :=
  forall db x st,
    m (initial db) = (inl x, st) ->
    withWorkspace handler cfg env req params db = respond x st.

End Statements.

(** What a request that reaches the handler has passed. *)

(** The link that the block holds after lines 252-347: the one of the
    first query, or the one found by external id in the resolved
    workspace when the first query found none and no workspace id was
    given. *)
Definition linkAfterRefetch (db : Db) (pre : Pre) (workspaceId : Js.Str) (w : Workspace)
    : option LinkRow :=
  let first := linkQuery pre workspaceId ≫= fun q => prisma.link_findUnique q db in
  match Js.whenTruthy (linkId pre) with
  | Some l =>
      if Js.startsWith "ext_" l && negb (Js.is_Some_b first)
         && negb (Js.truthy workspaceId)
      then prisma.link_findUnique
             (prisma.ByProjectExternal (id w) (Js.replace "ext_" "" l)) db
      else first
  | None => first
  end.

(** Whether lines 448-457 ask for a link of the workspace. *)
Definition linkRequired (cfg : Config) (pre : Pre) : bool :=
  (Js.truthy (linkId pre)
   || (Js.truthy (domain pre) && Js.truthy (key pre) && notRoot (key pre)))
  && negb (skipLinkChecks cfg).

(** The headers that lines 194-199 set once the token of an API key has
    been found: those of the rate limiter's answer. *)
Definition headersAfter (env : Env) (pre : Pre) (db : Db) : Headers :=
  match Js.whenTruthy (apiKey pre) with
  | Some k =>
      match findToken (isRestrictedToken pre) (hashToken env k) db with
      | Some t =>
          match token_user t with
          | Some _ => rateLimitHeaders (ratelimit env (rateLimitOf t) k)
          | None => []
          end
      | None => []
      end
  | None => []
  end.

(** The workspace id that the lookup of line 253 uses. *)
Definition lookupId (pre : Pre) (token : option Token) : Js.Str :=
  if isRestrictedToken pre then
    match token with
    | Some (RestrictedToken _ _ projectId _) => Some projectId
    | _ => None
    end
  else fst (workspaceRef pre).

(** Everything the checks of lines 309-457 have established of the
    context that the handler is called with. *)
Record Passed (cfg : Config) (env : Env) (req : Request) (db : Db) (c : Ctx) : Prop := {
  passed_scopes :
    findScopes env (c_token c) (c_workspace c) = inr (c_scopes c) /\
    (skipScopeChecks cfg = false ->
     throwIfNoAccess env (c_scopes c) (requiredScopes cfg) (id (c_workspace c)) = None);
  passed_beta :
    betaFeature cfg = true -> isBetaTester env (id (c_workspace c)) = true;
  passed_link_found :
    c_link c = linkAfterRefetch db (c_pre c) (c_workspaceId c) (c_workspace c);
  passed_domain :
    forall d, Js.whenTruthy (domain (c_pre c)) = Some d ->
      if isDubDomain env d
      then domainChecks cfg = true -> id (c_workspace c) = DUB_WORKSPACE_ID env
      else exists x, findDomain (c_workspace c) d = Some x;
  passed_clicks :
    needNotExceededClicks cfg = true ->
    usage (c_workspace c) <= usageLimit (c_workspace c);
  passed_links :
    needNotExceededLinks cfg = true ->
    plan (c_workspace c) = "free" \/ plan (c_workspace c) = "pro" ->
    linksUsage (c_workspace c) <= linksLimit (c_workspace c);
  passed_plan : plan (c_workspace c) ∈ requiredPlan cfg;
  passed_analytics :
    plan (c_workspace c) = "free" -> Js.truthy (apiKey (c_pre c)) = true ->
    Js.includes "/analytics" (pathname req) = false;
  passed_link :
    linkRequired cfg (c_pre c) = true ->
    exists l, c_link c = Some l /\ l_projectId l = Some (id (c_workspace c));
}.

(** The tokens whose [lastUsed] a log updates (lines 213-231). *)
Definition lastUsedUpdates (log : list Event) : list (bool * string) :=
  omap (fun e => match e with ETokenLastUsed b h => Some (b, h) | _ => None end) log.

(** The token of the API key of a request, when it has a user and the
    rate limiter lets the request through: the table and the hashed key. *)
Definition acceptedKey (env : Env) (pre : Pre) (db : Db) : option (bool * string) :=
  match Js.whenTruthy (apiKey pre) with
  | Some k =>
      match findToken (isRestrictedToken pre) (hashToken env k) db with
      | Some t =>
          match token_user t with
          | Some _ =>
              if success (ratelimit env (rateLimitOf t) k)
              then Some (isRestrictedToken pre, hashToken env k)
              else None
          | None => None
          end
      | None => None
      end
  | None => None
  end.

(** The database as authentication leaves it: the [lastUsed] of the
    token of an accepted key is written, and nothing else. *)
Definition afterAuthentication (env : Env) (pre : Pre) (db : Db) : Db :=
  match acceptedKey env pre db with
  | Some (restricted, hashedKey) => updateLastUsed env restricted hashedKey db
  | None => db
  end.

Section FurtherStatements.

Variable env : Env.
Variable req : Request.
Variable params : gmap string string.

(** A part of the block that, entered by a request that names a
    workspace, leaves the database as authentication left it. *)
Definition writesLastUsedOnly (m : M Ctx) : Prop :=
  forall db pre x st,
    preamble req params = inr pre ->
    Js.truthy (idOrSlug pre) = true \/ isRestrictedToken pre = true ->
    m (initial db) = (x, st) ->
    st_db st = afterAuthentication env pre db.

(** A part of the block that, entered by a request that names a
    workspace, leaves the headers as authentication set them. *)
Definition keepsHeaders (m : M Ctx) : Prop :=
  forall db pre x st,
    preamble req params = inr pre ->
    Js.truthy (idOrSlug pre) = true \/ isRestrictedToken pre = true ->
    m (initial db) = (x, st) ->
    st_headers st = headersAfter env pre db.

(** A part of the block that, entered by a request that names a
    workspace, has updated the token of an accepted key and no other. *)
Definition updatesAcceptedKey (m : M Ctx) : Prop :=
  forall db pre x st,
    preamble req params = inr pre ->
    Js.truthy (idOrSlug pre) = true \/ isRestrictedToken pre = true ->
    m (initial db) = (x, st) ->
    lastUsedUpdates (st_log st) = option_list (acceptedKey env pre db).

End FurtherStatements.

(* ===================================================================== *)
(** ** The two updates of the route, row by row *)
(* ===================================================================== *)

Section DomainRows.

Import prisma.

Lemma find_fmap_stable {A} (p : A -> bool) (f : A -> A) (l : list A) :
  (forall x, p (f x) = p x) -> List.find p (f <$> l) = f <$> List.find p l.
Proof.
  intros Hp. induction l as [|x l IH]; csimpl; [done|].
  rewrite Hp. by destruct (p x).
Qed.

Lemma promote_slug s d : d_slug (promote s d) = d_slug d.
Proof. unfold promote. by destruct (String.eqb _ _). Qed.

Lemma demote_slug p n d : d_slug (demote p n d) = d_slug d.
Proof. unfold demote. by destruct (_ && _). Qed.

Lemma rowAfter_slug p n d : d_slug (rowAfter p n d) = d_slug d.
Proof.
  unfold rowAfter. rewrite demote_slug. destruct n; [apply promote_slug|done].
Qed.

(** A slug that no row has: promoting it changes nothing. *)
Lemma promote_absent s (l : list DomainRow) :
  List.find (fun d => String.eqb (d_slug d) s) l = None -> promote s <$> l = l.
Proof.
  induction l as [|x l IH]; csimpl; [done|].
  unfold promote at 1. destruct (String.eqb (d_slug x) s); [done|].
  intros H. by rewrite IH.
Qed.

Lemma updates_rows projectId domain db :
  snd (primary.updates projectId domain db) =
  set_domainRows (rowAfter projectId domain <$> domainRows db) db.
Proof.
  unfold primary.updates, domain_update, domain_updateMany, rowAfter.
  destruct domain as [s|]; simpl.
  - destruct (List.find _ _) eqn:E; simpl.
    + by rewrite <- list_fmap_compose.
    + rewrite <- (promote_absent s (domainRows db)) at 1 by done.
      by rewrite <- list_fmap_compose.
  - done.
Qed.

Lemma updates_result projectId domain db :
  fst (primary.updates projectId domain db) =
  match domain with
  | Some s =>
      match List.find (fun d => String.eqb (d_slug d) s) (domainRows db) with
      | Some d => inr (setPrimary true d)
      | None => inl (LibraryError "RecordNotFound")
      end
  | None => inl (LibraryError "PrismaClientValidationError")
  end.
Proof.
  unfold primary.updates, domain_update.
  destruct domain as [s|]; [|done]. by destruct (List.find _ _).
Qed.

(** Decides the string comparisons of a goal about one row. *)
Ltac by_row d :=
  destruct d as [? ? [] ?];
  unfold rowAfter, demote, promote, nullableIs, setPrimary; cbn;
  repeat match goal with
         | |- context [String.eqb ?a ?b] =>
             is_var a; is_var b; destruct (String.eqb_spec a b); cbn; subst
         end;
  congruence.

Lemma rowAfter_idem projectId domain d :
  rowAfter projectId domain (rowAfter projectId domain d) = rowAfter projectId domain d.
Proof. destruct domain; by_row d. Qed.

(** The two statements touch different rows, so the order in which the
    database runs them does not matter. *)
Lemma updates_commute projectId domain db :
  primary.updatesSwapped projectId domain db = primary.updates projectId domain db.
Proof.
  apply injective_projections.
  - rewrite updates_result.
    unfold primary.updatesSwapped, domain_update, domain_updateMany.
    destruct domain as [s|]; [|done]. simpl.
    rewrite find_fmap_stable by (intros; by rewrite demote_slug).
    destruct (List.find _ _) as [d|]; [|done]. simpl. f_equal. by_row d.
  - rewrite updates_rows.
    unfold primary.updatesSwapped, domain_update, domain_updateMany, rowAfter.
    destruct domain as [s|]; [|done]. simpl.
    rewrite find_fmap_stable by (intros; by rewrite demote_slug).
    destruct (List.find _ _) as [d|] eqn:E; simpl.
    + unfold set_domainRows. simpl. f_equal.
      rewrite <- !list_fmap_compose. apply list_fmap_ext. intros _ x _. simpl.
      by_row x.
    + unfold set_domainRows. simpl. f_equal.
      rewrite <- (promote_absent s (domainRows db)) at 1 by done.
      by rewrite <- list_fmap_compose.
Qed.

End DomainRows.

(* ===================================================================== *)
(** ** Reasoning about the block *)
(* ===================================================================== *)

Lemma bind_ok {A B} (m : M A) (k : A -> M B) st a st' :
  m st = (inr a, st') -> bind m k st = k a st'.
Proof. intros H. unfold bind. by rewrite H. Qed.

Lemma bind_exit {A B} (m : M A) (k : A -> M B) st x st' :
  m st = (inl x, st') -> bind m k st = (inl x, st').
Proof. intros H. unfold bind. by rewrite H. Qed.

Lemma bind_inv {A B} (m : M A) (k : A -> M B) st y st'' :
  bind m k st = (y, st'') ->
  (exists x, m st = (inl x, st'') /\ y = inl x) \/
  (exists a st', m st = (inr a, st') /\ k a st' = (y, st'')).
Proof.
  unfold bind. destruct (m st) as [[x|a] st'] eqn:E; intros H.
  - left. exists x. by inversion H.
  - right. by exists a, st'.
Qed.

Lemma invocations_app l1 l2 :
  invocations (l1 ++ l2) = (invocations l1 ++ invocations l2)%list.
Proof. apply omap_app. Qed.

Lemma invocations_snoc_quiet l e :
  (forall a, e <> EHandler a) -> invocations (l ++ [e]) = invocations l.
Proof.
  intros H. rewrite invocations_app. destruct e; simpl; try apply app_nil_r.
  by destruct (H args).
Qed.

(** *** The column that the middleware writes *)

Lemma sameButLastUsed_refl db : sameButLastUsed db db.
Proof. done. Qed.

Lemma updateLastUsed_same env restricted hashedKey db :
  sameButLastUsed db (updateLastUsed env restricted hashedKey db).
Proof.
  unfold sameButLastUsed, updateLastUsed, forgetLastUsed,
    prisma.token_update, prisma.restrictedToken_update,
    set_tokens, set_restrictedTokens.
  destruct restricted; cbn; f_equal; rewrite <- list_fmap_compose;
    apply list_fmap_ext; intros i r _; cbn;
    by destruct (String.eqb _ hashedKey).
Qed.

(** The tables that the queries of the middleware read after
    authentication are not written. *)
Lemma same_tables db db' :
  sameButLastUsed db db' ->
  projects db' = projects db /\ projectUsers db' = projectUsers db /\
  domainRows db' = domainRows db /\ links db' = links db /\
  projectInvites db' = projectInvites db.
Proof.
  intros H. split_and!.
  - exact (f_equal projects H).
  - exact (f_equal projectUsers H).
  - exact (f_equal domainRows H).
  - exact (f_equal links H).
  - exact (f_equal projectInvites H).
Qed.

Lemma project_findUnique_same workspaceId workspaceSlug userId db db' :
  sameButLastUsed db db' ->
  prisma.project_findUnique workspaceId workspaceSlug userId db'
  = prisma.project_findUnique workspaceId workspaceSlug userId db.
Proof.
  intros H. apply same_tables in H as (Hp & Hu & Hd & _).
  unfold prisma.project_findUnique, prisma.mkWorkspace. by rewrite Hp, Hu, Hd.
Qed.

Lemma link_findUnique_same q db db' :
  sameButLastUsed db db' -> prisma.link_findUnique q db' = prisma.link_findUnique q db.
Proof.
  intros H. apply same_tables in H as (_ & _ & _ & Hl & _).
  unfold prisma.link_findUnique. by rewrite Hl.
Qed.

Arguments updateLastUsed : simpl never.
Arguments rateLimitOf : simpl never.
Arguments rateLimitHeaders : simpl never.

(** Runs a computation of the monad that a hypothesis equates to its
    result, one case at a time, the innermost test first. *)
Ltac innermost_match H :=
  match type of H with
  | context [match ?x with _ => _ end] =>
      lazymatch x with
      | context [match _ with _ => _ end] => fail
      | _ => destruct x eqn:?
      end
  end.

Ltac run_in H :=
  repeat (unfold bind, emit, ret, throw, returnEarly, getDb, getHeaders,
            setHeaders, setDb, liftExn in H;
          simpl in H;
          try innermost_match H);
  simplify_eq.

Ltac quiet_log :=
  simpl; rewrite ?invocations_snoc_quiet by (intros ?; discriminate); simpl.

Section Specs.

Variable handler : Handler.
Variable cfg : Config.
Variable env : Env.
Variable req : Request.
Variable params : gmap string string.

Lemma sameCaller_refl c : sameCaller c c.
Proof. by repeat split. Qed.

Lemma Established_sameCaller db c c' :
  Established env req params db c -> sameCaller c c' -> Established env req params db c'.
Proof.
  intros [H1 H2 H3 H4 H5] (E1&E2&E3&E4&E5).
  split; unfold authenticated in *; rewrite ?E1, ?E2, ?E3, ?E4, ?E5; done.
Qed.

Lemma ownError_thrown e : ownError e -> (thrown cfg env) e.
Proof. by left. Qed.

Ltac stage H :=
  run_in H; (split; [done|]); (split; [by quiet_log|]);
  try apply sameCaller_refl; try (apply ownError_thrown; by simpl);
  try by repeat split.

Lemma checkScopes_quiet c :
  quiet (checkScopes cfg env c) (thrown cfg env) (fun _ => sameCaller c).
Proof.
  intros st x st' H. unfold checkScopes, findScopes in H. stage H.
  all: right; eauto.
Qed.

Lemma checkBeta_quiet c : quiet (checkBeta cfg env c) (thrown cfg env) (fun _ => sameCaller c).
Proof. intros st x st' H. unfold checkBeta in H. stage H. Qed.

Lemma refetchLink_quiet c : quiet (refetchLink c) (thrown cfg env) (fun _ => sameCaller c).
Proof. intros st x st' H. unfold refetchLink in H. stage H. Qed.

Lemma checkDomain_quiet c : quiet (checkDomain cfg env c) (thrown cfg env) (fun _ => sameCaller c).
Proof. intros st x st' H. unfold checkDomain in H. stage H. Qed.

(** The pending-invite block does nothing for a caller who is listed in
    the workspace. *)
Lemma checkInvite_member c st :
  users (c_workspace c) <> [] -> checkInvite env c st = (inr c, st).
Proof.
  intros H. unfold checkInvite. by destruct (users (c_workspace c)).
Qed.

Lemma checkClicks_quiet c : quiet (checkClicks cfg env c) (thrown cfg env) (fun _ => sameCaller c).
Proof. intros st x st' H. unfold checkClicks in H. stage H. Qed.

Lemma checkLinks_quiet c : quiet (checkLinks cfg env c) (thrown cfg env) (fun _ => sameCaller c).
Proof. intros st x st' H. unfold checkLinks in H. stage H. Qed.

Lemma checkPlan_quiet c : quiet (checkPlan cfg c) (thrown cfg env) (fun _ => sameCaller c).
Proof. intros st x st' H. unfold checkPlan in H. stage H. Qed.

Lemma checkAnalytics_quiet c : quiet (checkAnalytics req c) (thrown cfg env) (fun _ => sameCaller c).
Proof. intros st x st' H. unfold checkAnalytics in H. stage H. Qed.

Lemma checkLink_quiet c : quiet (checkLink cfg c) (thrown cfg env) (fun _ => sameCaller c).
Proof. intros st x st' H. unfold checkLink in H. stage H. Qed.

Lemma preamble_thrown e : preamble req params = inl e -> ownError e.
Proof.
  unfold preamble, extractApiKey. intros H.
  repeat (case_match; simplify_eq). by simpl.
Qed.

Lemma restricted_has_key pre :
  preamble req params = inr pre -> isRestrictedToken pre = true ->
  Js.truthy (apiKey pre) = true.
Proof.
  unfold preamble. intros H. destruct (extractApiKey _); simplify_eq. simpl.
  destruct s as [[|a k]|]; done.
Qed.

Lemma findToken_restricted b h db t :
  findToken b h db = Some t ->
  match t with
  | RestrictedToken _ _ _ _ => b = true
  | PlainToken _ => b = false
  end.
Proof.
  unfold findToken, prisma.restrictedToken_findUnique, prisma.token_findUnique.
  destruct b; intros H; apply fmap_Some in H as (r & _ & ->); done.
Qed.

Lemma authenticate_spec pre workspaceId st x st' :
  authenticate env pre workspaceId st = (x, st') ->
  sameButLastUsed (st_db st) (st_db st') /\
  invocations (st_log st') = invocations (st_log st) /\
  match x with
  | inr (session, token, _) =>
      (exists u, user session = Some u) /\
      match Js.whenTruthy (apiKey pre) with
      | Some k =>
          exists t u,
            findToken (isRestrictedToken pre) (hashToken env k) (st_db st) = Some t /\
            token_user t = Some u /\ token = Some t /\ session = sessionOfToken u
      | None =>
          token = None /\ getSession env = Some session /\
          Js.truthy (sessionUserId (Some session)) = true
      end
  | inl (Throw e) => ownError e
  | inl (Return _) => False
  end.
Proof.
  intros H. unfold authenticate in H.
  destruct (Js.whenTruthy (apiKey pre)) as [k|]; run_in H;
    (split; [simpl; first [apply sameButLastUsed_refl|apply updateLastUsed_same]|]);
    (split; [by quiet_log|]); try by simpl.
  all: try (split; [by eexists|by eauto 10]).
  match goal with s : Session |- _ => destruct s as [[u|]]; [|done] end.
  split; [by eexists|done].
Qed.

Lemma fetch_quiet pre session workspaceId workspaceSlug :
  quiet (fetch pre session workspaceId workspaceSlug) ownError
    (fun db f =>
       exists u, user session = Some u /\
         prisma.project_findUnique workspaceId workspaceSlug (su_id u) db = inr (fst f)).
Proof.
  intros st x st' H. unfold fetch in H. run_in H;
    (split; [done|]); (split; [by quiet_log|]); try by simpl.
  all: try by eauto.
  all: unfold prisma.project_findUnique in *; repeat (case_match; simplify_eq); done.
Qed.

Lemma requireWorkspace_cases pre st x st' :
  requireWorkspace handler cfg req params pre st = (x, st') ->
  (x = inr tt /\ st' = st /\
   (Js.truthy (idOrSlug pre) = true \/ isRestrictedToken pre = true)) \/
  (exists e, x = inl (Throw e) /\ ownError e /\ st' = st) \/
  (allowAnonymous cfg = true /\
   Js.truthy (idOrSlug pre) = false /\ Js.truthy (apiKey pre) = false /\
   st_headers st' = st_headers st /\
   st_log st' = (st_log st ++ [EHandler (anonymousArgs req params (st_headers st))])%list /\
   st_db st' = snd (handler (anonymousArgs req params (st_headers st)) (st_db st)) /\
   x = inl match fst (handler (anonymousArgs req params (st_headers st)) (st_db st)) with
           | inl e => Throw e
           | inr r => Return r
           end).
Proof.
  unfold requireWorkspace, invoke. intros H.
  destruct (Js.truthy (idOrSlug pre)) eqn:Hid, (isRestrictedToken pre) eqn:Hr,
    (allowAnonymous cfg) eqn:Ha, (Js.truthy (apiKey pre)) eqn:Hk;
    simpl in H; run_in H; auto.
  all: try (right; left; eexists; split; [done|]; split; [by simpl|done]).
  all: right; right; by repeat split.
Qed.

Lemma resolved_spec : prefixSpec handler cfg env req params (resolved handler cfg env req params).
Proof.
  intros db x st' H. unfold resolved in H.
  destruct (preamble req params) as [e|pre] eqn:Hpre.
  { run_in H. right. repeat split; try done.
    eexists; split; [done|]. apply ownError_thrown. by eapply preamble_thrown. }
  simpl in H. unfold liftExn in H. rewrite (bind_ok _ _ _ pre (initial db)) in H by done.
  destruct (bind_inv _ _ _ _ _ H) as [(ex & Hg & ->)|([] & st1 & Hg & H1)];
    apply requireWorkspace_cases in Hg as [(Hx & -> & Hnamed)|[(e & Hx & He & ->)|Hanon]];
    simplify_eq.
  - right. repeat split; try done. eexists; split; [done|by apply ownError_thrown].
  - left. destruct Hanon as (?&?&?&?&?&?&?). simplify_eq.
    repeat split; try done. eauto.
  - clear H.
    destruct (bind_inv _ _ _ _ _ H1) as [(ex & Ha & ->)|([[session token] wid] & st2 & Ha & H2)];
      apply authenticate_spec in Ha as (Hdb & Hlog & Ha); simpl in Hdb, Hlog.
    { right. destruct ex as [e|r]; [|done]. split; [exact Hdb|]. split; [done|].
      eexists; split; [done|by apply ownError_thrown]. }
    clear H1.
    destruct (bind_inv _ _ _ _ _ H2) as [(ex & Hf & ->)|(f & st3 & Hf & H3)];
      apply fetch_quiet in Hf as (Hdb' & Hlog' & Hf).
    { right. destruct ex as [e|r]; [|done]. split; [by rewrite Hdb'|].
      split; [congruence|]. eexists; split; [done|by apply ownError_thrown]. }
    clear H2. simpl in Hf, Ha.
    destruct Ha as (Hu & Ha). destruct Hf as (u & Hu' & Hf).
    rewrite (project_findUnique_same _ _ _ _ _ Hdb) in Hf.
    assert (Hsame : sameButLastUsed db (st_db st3)) by by rewrite Hdb'.
    run_in H3.
    all: try (right; split; [done|]; split; [congruence|];
              eexists; split; [done|apply ownError_thrown; by simpl]).
    split; [done|]. split; [congruence|]. split; simpl; try done.
    + eauto.
    + intros E. match goal with E' : Nat.eqb _ _ = false |- _ => by rewrite E in E' end.
  - destruct Hanon as (?&?&?&?&?&?&?). done.
Qed.

Lemma checkInvite_quiet c :
  users (c_workspace c) <> [] -> quiet (checkInvite env c) (thrown cfg env) (fun _ => sameCaller c).
Proof.
  intros Hm st x st' H. rewrite checkInvite_member in H by done.
  simplify_eq. repeat split; done.
Qed.

Lemma prefix_step (m : M Ctx) (f : Ctx -> M Ctx) :
  prefixSpec handler cfg env req params m ->
  (forall c, users (c_workspace c) <> [] -> quiet (f c) (thrown cfg env) (fun _ => sameCaller c)) ->
  prefixSpec handler cfg env req params (c <- m ;; f c).
Proof.
  intros Hm Hf db y st'' H.
  destruct (bind_inv _ _ _ _ _ H) as [(x & Hx & ->)|(c & st' & Hc & Hfc)].
  - apply (Hm _ _ _ Hx).
  - destruct (Hm _ _ _ Hc) as (Hdb & Hlog & Hest).
    destruct (Hf c (est_member _ _ _ _ _ Hest) _ _ _ Hfc) as (Hdb' & Hlog' & Hy).
    destruct y as [[e|r]|c'].
    + right. split; [by rewrite Hdb'|]. split; [congruence|]. eauto.
    + done.
    + split; [by rewrite Hdb'|]. split; [congruence|]. by eapply Established_sameCaller.
Qed.

Abbreviation block m := (m handler cfg env req params) (only parsing).

Lemma scopesChecked_spec : prefixSpec handler cfg env req params (block scopesChecked).
Proof. apply prefix_step; [apply resolved_spec|]. intros; apply checkScopes_quiet. Qed.

Lemma betaChecked_spec : prefixSpec handler cfg env req params (block betaChecked).
Proof. apply prefix_step; [apply scopesChecked_spec|]. intros; apply checkBeta_quiet. Qed.

Lemma linkRefetched_spec : prefixSpec handler cfg env req params (block linkRefetched).
Proof. apply prefix_step; [apply betaChecked_spec|]. intros; apply refetchLink_quiet. Qed.

Lemma domainChecked_spec : prefixSpec handler cfg env req params (block domainChecked).
Proof. apply prefix_step; [apply linkRefetched_spec|]. intros; apply checkDomain_quiet. Qed.

Lemma inviteChecked_spec : prefixSpec handler cfg env req params (block inviteChecked).
Proof. apply prefix_step; [apply domainChecked_spec|]. apply checkInvite_quiet. Qed.

Lemma clicksChecked_spec : prefixSpec handler cfg env req params (block clicksChecked).
Proof. apply prefix_step; [apply inviteChecked_spec|]. intros; apply checkClicks_quiet. Qed.

Lemma linksChecked_spec : prefixSpec handler cfg env req params (block linksChecked).
Proof. apply prefix_step; [apply clicksChecked_spec|]. intros; apply checkLinks_quiet. Qed.

Lemma planChecked_spec : prefixSpec handler cfg env req params (block planChecked).
Proof. apply prefix_step; [apply linksChecked_spec|]. intros; apply checkPlan_quiet. Qed.

Lemma analyticsChecked_spec : prefixSpec handler cfg env req params (block analyticsChecked).
Proof. apply prefix_step; [apply planChecked_spec|]. intros; apply checkAnalytics_quiet. Qed.

Lemma linkChecked_spec : prefixSpec handler cfg env req params (block linkChecked).
Proof. apply prefix_step; [apply analyticsChecked_spec|]. intros; apply checkLink_quiet. Qed.

(** *** How an exit from the checks shows in the response *)

Lemma leaves_step (m : M Ctx) (f : Ctx -> M Ctx) :
  leaves handler cfg env req params (c <- m ;; f c) -> leaves handler cfg env req params m.
Proof. intros H db x st Hm. apply H. by apply bind_exit. Qed.

Lemma leaves_linkChecked : leaves handler cfg env req params (block linkChecked).
Proof.
  intros db x st H. unfold withWorkspace, tryBlock.
  rewrite (bind_exit _ _ _ _ _ H). by destruct x.
Qed.

Lemma leaves_analyticsChecked : leaves handler cfg env req params (block analyticsChecked).
Proof. exact (leaves_step _ _ leaves_linkChecked). Qed.

Lemma leaves_planChecked : leaves handler cfg env req params (block planChecked).
Proof. exact (leaves_step _ _ leaves_analyticsChecked). Qed.

Lemma leaves_linksChecked : leaves handler cfg env req params (block linksChecked).
Proof. exact (leaves_step _ _ leaves_planChecked). Qed.

Lemma leaves_clicksChecked : leaves handler cfg env req params (block clicksChecked).
Proof. exact (leaves_step _ _ leaves_linksChecked). Qed.

Lemma leaves_inviteChecked : leaves handler cfg env req params (block inviteChecked).
Proof. exact (leaves_step _ _ leaves_clicksChecked). Qed.

Lemma leaves_domainChecked : leaves handler cfg env req params (block domainChecked).
Proof. exact (leaves_step _ _ leaves_inviteChecked). Qed.

Lemma leaves_linkRefetched : leaves handler cfg env req params (block linkRefetched).
Proof. exact (leaves_step _ _ leaves_domainChecked). Qed.

Lemma leaves_betaChecked : leaves handler cfg env req params (block betaChecked).
Proof. exact (leaves_step _ _ leaves_linkRefetched). Qed.

Lemma leaves_scopesChecked : leaves handler cfg env req params (block scopesChecked).
Proof. exact (leaves_step _ _ leaves_betaChecked). Qed.

Lemma leaves_resolved : leaves handler cfg env req params (block resolved).
Proof. exact (leaves_step _ _ leaves_scopesChecked). Qed.

(** A request that passes every check reaches the handler, once. *)
Lemma withWorkspace_passed db c st :
  block linkChecked (initial db) = (inr c, st) ->
  withWorkspace handler cfg env req params db =
    let args := fullArgs req params c (st_headers st) in
    let st' := {| st_db := snd (handler args (st_db st));
                  st_headers := st_headers st;
                  st_log := st_log st ++ [EHandler args] |} in
    (match fst (handler args (st_db st)) with
     | inl e => ErrorResponse e (st_headers st)
     | inr r => r
     end, st').
Proof.
  intros H. unfold withWorkspace, tryBlock.
  rewrite (bind_ok _ _ _ _ _ H). unfold invoke, bind, getHeaders, emit, getDb. simpl.
  destruct (handler _ _) as [[e|r] db']; done.
Qed.

End Specs.

(* ===================================================================== *)
(** ** The primary-domain endpoint *)
(* ===================================================================== *)

(** C9: the database update of the primary-domain endpoint is idempotent.
    For every database, workspace id and domain, running the pair of
    updates (the named domain's flag set to true, the flag of the
    workspace's other primary domains set to false) a second time leaves
    the database as the first run left it, whichever of the two statements
    the database runs first. *)
Theorem primary_updates_idempotent (projectId : string) (domain : Js.Str) (db : Db) :
  snd (primary.updates projectId domain (snd (primary.updates projectId domain db)))
  = snd (primary.updates projectId domain db)
  /\
  snd (primary.updatesSwapped projectId domain
         (snd (primary.updatesSwapped projectId domain db)))
  = snd (primary.updatesSwapped projectId domain db).
Proof.
  rewrite !updates_commute.
  enough (snd (primary.updates projectId domain
                 (snd (primary.updates projectId domain db)))
          = snd (primary.updates projectId domain db)) by done.
  rewrite !updates_rows. unfold set_domainRows. simpl. f_equal.
  rewrite <- list_fmap_compose. apply list_fmap_ext. intros _ d _. simpl.
  apply rowAfter_idem.
Qed.

Lemma rowAfter_named projectId s d :
  d_slug d = s -> rowAfter projectId (Some s) d = prisma.setPrimary true d.
Proof.
  intros <-. destruct d as [? ? [] ?].
  all: unfold rowAfter, prisma.demote, prisma.promote, prisma.nullableIs,
         prisma.setPrimary; cbn.
  all: rewrite String.eqb_refl; cbn; rewrite ?String.eqb_refl, ?andb_false_r; done.
Qed.

Lemma rowAfter_other projectId s d :
  d_projectId d = projectId -> d_slug d <> s -> d_primary d = true ->
  rowAfter projectId (Some s) d = prisma.setPrimary false d.
Proof.
  intros <- Hs Hp. destruct d as [? ? ? ?]. simpl in *. subst.
  unfold rowAfter, prisma.demote, prisma.promote, prisma.nullableIs,
    prisma.setPrimary; cbn.
  destruct (String.eqb_spec d_slug0 s); [done|]. cbn.
  rewrite String.eqb_refl. cbn.
  destruct (String.eqb_spec s d_slug0); [by subst|done].
Qed.

Lemma find_some_slug s (l : list DomainRow) r :
  List.find (fun d => String.eqb (d_slug d) s) l = Some r -> r ∈ l /\ d_slug r = s.
Proof.
  intros H. apply find_some in H as [Hin Heq].
  split; [by apply list_elem_of_In|]. by apply String.eqb_eq.
Qed.

(** A row that is neither named nor of the workspace stays as it is. *)
Lemma rowAfter_foreign projectId domain d :
  d_projectId d <> projectId -> domain <> Some (d_slug d) ->
  rowAfter projectId domain d = d.
Proof.
  intros Hp Hs. unfold rowAfter, prisma.demote, prisma.promote.
  destruct domain as [s|].
  - destruct (String.eqb_spec (d_slug d) s); [by subst|].
    by destruct (String.eqb_spec (d_projectId d) projectId).
  - by destruct (String.eqb_spec (d_projectId d) projectId).
Qed.

(** The columns of a row after the two updates: only the flag changes;
    it is set on the named rows and cleared on the other rows of the
    workspace. *)
Lemma rowAfter_columns projectId s d :
  d_id (rowAfter projectId (Some s) d) = d_id d /\
  d_slug (rowAfter projectId (Some s) d) = d_slug d /\
  d_projectId (rowAfter projectId (Some s) d) = d_projectId d /\
  d_primary (rowAfter projectId (Some s) d)
  = if String.eqb (d_slug d) s then true
    else if String.eqb (d_projectId d) projectId then false
    else d_primary d.
Proof.
  destruct d as [i sl pr pid].
  unfold rowAfter, prisma.demote, prisma.promote, prisma.nullableIs, prisma.setPrimary.
  cbn. destruct (String.eqb_spec sl s) as [->|Hne]; cbn.
  - rewrite String.eqb_refl, andb_false_r. done.
  - destruct (String.eqb_spec s sl) as [->|_]; [done|].
    destruct (String.eqb pid projectId), pr; done.
Qed.

(** C1: a successful [POST /api/domains/[domain]/primary] (one answered
    with the handler's JSON response) was made for a named domain [d] by a
    member of a workspace [w].  In the database afterwards every row of
    the named domain has its primary flag [true]; every other row of [w]
    has it [false], in particular every one that had it [true] before;
    every row keeps its place, its id, its slug and its workspace, and a
    row that is neither named nor a row of [w] is unchanged; and the body
    of the response is what [DomainSchema] makes of the updated row of the
    named domain: the row of that slug, with its flag [true]. *)
Theorem POST_sets_primary (env : Env) (req : Request)
    (params : option (gmap string string)) (db : Db)
    (body : Json) (h : Headers) (st : St) :
  primary.POST env req params db = (JsonResponse body h, st) ->
  exists (d : string) (c : Ctx) (r r' : DomainRow),
    let w := c_workspace c in
    Established env req (default ∅ params) db c /\
    domain (c_pre c) = Some d /\
    invocations (st_log st) = [fullArgs req (default ∅ params) c h] /\
    (forall x, x ∈ domainRows (st_db st) -> d_slug x = d -> d_primary x = true) /\
    (forall x, x ∈ domainRows (st_db st) ->
       d_projectId x = id w -> d_slug x <> d -> d_primary x = false) /\
    (forall i x, domainRows db !! i = Some x ->
       d_projectId x = id w -> d_slug x <> d -> d_primary x = true ->
       exists y, domainRows (st_db st) !! i = Some y /\ d_primary y = false /\
                 d_id y = d_id x /\ d_slug y = d_slug x /\
                 d_projectId y = d_projectId x) /\
    length (domainRows (st_db st)) = length (domainRows db) /\
    (forall i x, domainRows db !! i = Some x ->
       exists y, domainRows (st_db st) !! i = Some y /\
                 d_id y = d_id x /\ d_slug y = d_slug x /\
                 d_projectId y = d_projectId x /\
                 (d_slug x <> d -> d_projectId x <> id w -> y = x)) /\
    r ∈ domainRows db /\ d_slug r = d /\
    r' ∈ domainRows (st_db st) /\
    d_id r' = d_id r /\ d_slug r' = d /\ d_projectId r' = d_projectId r /\
    d_primary r' = true /\
    DomainSchema_parse env r' = inr body.
Proof.
  unfold primary.POST. set (ps := default ∅ params). intros H.
  destruct (linkChecked (primary.handler env) primary.options env req ps (initial db))
    as [[x|c] st1] eqn:E.
  { rewrite (leaves_linkChecked _ _ _ _ _ _ _ _ E) in H.
    destruct (linkChecked_spec _ _ _ _ _ _ _ _ E) as [(Ha & _)|(_ & _ & e & -> & _)];
      [done|]. simpl in H. by simplify_eq. }
  destruct (linkChecked_spec _ _ _ _ _ _ _ _ E) as (Hdb & Hlog & Hest).
  apply same_tables in Hdb as (_ & _ & Hdom & _).
  rewrite (withWorkspace_passed _ _ _ _ _ _ _ _ E) in H. simpl in H.
  unfold primary.handler in H. simpl in H.
  pose proof (updates_rows (id (c_workspace c)) (domain (c_pre c)) (st_db st1)) as Hrows.
  pose proof (updates_result (id (c_workspace c)) (domain (c_pre c)) (st_db st1)) as Hres.
  rewrite Hdom in Hrows, Hres.
  destruct (primary.updates _ _ _) as [[e|row] db'] eqn:Hu; simpl in *; [by simplify_eq|].
  destruct (DomainSchema_parse env row) as [e|body'] eqn:Hparse; simpl in H; simplify_eq.
  destruct (domain (c_pre c)) as [d|] eqn:Hd; [|done].
  destruct (List.find _ _) as [r|] eqn:Hfind; simplify_eq.
  apply find_some_slug in Hfind as [Hin Hslug].
  set (pid := id (c_workspace c)).
  exists d, c, r, (rowAfter pid (Some d) r). simpl. fold pid.
  assert (Hnamed : rowAfter pid (Some d) r = prisma.setPrimary true r)
    by by apply rowAfter_named.
  split_and!; try done.
  - by rewrite invocations_app, Hlog.
  - intros x Hx Hxs. apply list_elem_of_fmap in Hx as (y & -> & Hy).
    destruct (rowAfter_columns pid d y) as (_ & Hs & _ & ->).
    rewrite Hs in Hxs. by rewrite Hxs, String.eqb_refl.
  - intros x Hx Hp Hxs. apply list_elem_of_fmap in Hx as (y & -> & Hy).
    destruct (rowAfter_columns pid d y) as (_ & Hs & Hpid & ->).
    rewrite Hs in Hxs. rewrite Hpid in Hp.
    destruct (String.eqb_spec (d_slug y) d); [done|]. by rewrite Hp, String.eqb_refl.
  - intros i x Hi Hp Hs Hpr. exists (rowAfter pid (Some d) x).
    rewrite list_lookup_fmap, Hi.
    destruct (rowAfter_columns pid d x) as (? & ? & ? & ->).
    destruct (String.eqb_spec (d_slug x) d); [done|]. rewrite Hp, String.eqb_refl.
    split_and!; try done. congruence.
  - by rewrite length_fmap.
  - intros i x Hi. exists (rowAfter pid (Some d) x).
    rewrite list_lookup_fmap, Hi.
    destruct (rowAfter_columns pid d x) as (? & ? & ? & _).
    split_and!; try done. intros Hs Hp. apply rowAfter_foreign; congruence.
  - by apply list_elem_of_fmap_2.
  - by rewrite Hnamed.
  - by rewrite Hnamed.
  - by rewrite Hnamed.
  - by rewrite Hnamed.
  - by rewrite Hnamed.
Qed.

(* ===================================================================== *)
(** ** The middleware *)
(* ===================================================================== *)

(** A check that throws right after a part of the block that passed: the
    request is answered with that error, and the handler was not called. *)
Lemma rejected_by (handler : Handler) (cfg : Config) (env : Env) (req : Request)
    (params : gmap string string) (m : M Ctx) (f : Ctx -> M Ctx)
    (db : Db) (c : Ctx) (st : St) (e : Exn) :
  leaves handler cfg env req params (c <- m ;; f c) ->
  prefixSpec handler cfg env req params m ->
  m (initial db) = (inr c, st) ->
  f c st = (inl (Throw e), st) ->
  withWorkspace handler cfg env req params db = (ErrorResponse e (st_headers st), st)
  /\ invocations (st_log st) = [].
Proof.
  intros Hl Hm Hc Hf. split.
  - apply (Hl db (Throw e) st). by rewrite (bind_ok _ _ _ _ _ Hc).
  - by destruct (Hm _ _ _ Hc) as (_ & ? & _).
Qed.

(** C6, as the code has it: a request whose [Authorization] header is
    present with a non-empty value (what [if (authorizationHeader)] tests)
    but does not contain ["Bearer "] is answered with a [bad_request]
    error; nothing else happens: no call to the database or to any
    service, no header set, no call of the route handler. *)
Theorem misconfigured_authorization_rejected (handler : Handler) (cfg : Config)
    (env : Env) (req : Request) (params : gmap string string) (db : Db) (h : string) :
  authorization req = Some h ->
  h <> "" ->
  Js.includes "Bearer " h = false ->
  withWorkspace handler cfg env req params db =
    (ErrorResponse
       (DubApiError bad_request
          "Misconfigured authorization header. Did you forget to add 'Bearer '? Learn more: https://d.to/auth")
       [],
     {| st_db := db; st_headers := []; st_log := [] |}).
Proof.
  intros Hh Hne Hinc.
  apply (leaves_resolved handler cfg env req params db (Throw _) (initial db)).
  unfold resolved, preamble, extractApiKey. rewrite Hh. simpl.
  destruct (String.eqb_spec h ""); [done|]. by rewrite Hinc.
Qed.

(** C10: on a route configured with [allowAnonymous], a request that
    carries neither a workspace id or slug nor an API key (the
    [Authorization] header gives none, or an empty one) makes the
    middleware call the route handler at once, with [req], [params],
    [searchParams] and the still empty [headers] only; the response is the
    handler's (or the error it throws), and the call of the handler is the
    only thing the middleware does. *)
Theorem anonymous_request_reaches_handler (handler : Handler) (cfg : Config)
    (env : Env) (req : Request) (params : gmap string string) (db : Db) (k : Js.Str) :
  allowAnonymous cfg = true ->
  Js.truthy (requestIdOrSlug req params) = false ->
  extractApiKey (authorization req) = inr k ->
  Js.truthy k = false ->
  let args :=
    {| a_req := req; a_params := params; a_searchParams := searchParams req;
       a_headers := []; a_session := None; a_workspace := None;
       a_domain := None; a_link := None; a_scopes := None |} in
  withWorkspace handler cfg env req params db =
    (match fst (handler args db) with
     | inr response => response
     | inl e => ErrorResponse e []
     end,
     {| st_db := snd (handler args db); st_headers := []; st_log := [EHandler args] |}).
Proof.
  intros Ha Hid Hk Hkey args.
  assert (Hpre : exists pre,
            preamble req params = inr pre /\ Js.truthy (idOrSlug pre) = false
            /\ Js.truthy (apiKey pre) = false /\ isRestrictedToken pre = false).
  { unfold preamble. rewrite Hk. eexists. split; [done|]. simpl. split_and!; try done.
    by destruct k as [[|? ?]|]. }
  destruct Hpre as (pre & Hpre & Hid' & Hkey' & Hr).
  assert (Hrun :
    resolved handler cfg env req params (initial db) =
      (inl match fst (handler args db) with
           | inl e => Throw e
           | inr r => Return r
           end,
       {| st_db := snd (handler args db); st_headers := [];
          st_log := [EHandler args] |})).
  { unfold resolved. rewrite Hpre. unfold liftExn.
    rewrite (bind_ok _ _ _ pre (initial db)) by done. apply bind_exit.
    unfold requireWorkspace. rewrite Hid', Hr, Ha, Hkey'. simpl.
    unfold invoke, bind, ret, getHeaders, emit, getDb, setDb, returnEarly. simpl.
    change (anonymousArgs req params []) with args.
    by destruct (handler args db) as [[e|r] db']. }
  rewrite (leaves_resolved _ _ _ _ _ _ _ _ Hrun).
  by destruct (handler args db) as [[e|r] db'].
Qed.

(** C4, as the code has it: on a route configured with
    [needNotExceededClicks], a request that has come as far as the clicks
    check (every earlier check has passed) is rejected there, with the
    forbidden exceeded-limit error for clicks and without the handler being
    called, exactly when the usage of the workspace is strictly greater than
    its usage limit; a workspace whose usage equals (or is below) its limit
    passes the check. *)
Theorem clicks_limit_check (handler : Handler) (cfg : Config) (env : Env)
    (req : Request) (params : gmap string string) (db : Db) (c : Ctx) (st : St) :
  needNotExceededClicks cfg = true ->
  inviteChecked handler cfg env req params (initial db) = (inr c, st) ->
  let w := c_workspace c in
  let exceeded :=
    DubApiError forbidden (exceededLimitError env (plan w) (usageLimit w) clicks) in
  (usage w > usageLimit w ->
     withWorkspace handler cfg env req params db =
       (ErrorResponse exceeded (st_headers st), st)
     /\ invocations (st_log st) = [])
  /\ (usage w <= usageLimit w ->
        clicksChecked handler cfg env req params (initial db) = (inr c, st))
  /\ (clicksChecked handler cfg env req params (initial db) = (inl (Throw exceeded), st)
      <-> usage w > usageLimit w).
Proof.
  intros Hcfg Hc w exceeded.
  assert (Hrun : clicksChecked handler cfg env req params (initial db)
                 = (if usage w >? usageLimit w then inl (Throw exceeded) else inr c, st)).
  { unfold clicksChecked. rewrite (bind_ok _ _ _ _ _ Hc).
    unfold checkClicks. rewrite Hcfg. simpl. fold w.
    by destruct (usage w >? usageLimit w). }
  destruct (Z.gtb_spec (usage w) (usageLimit w)) as [Hgt|Hle]; split_and!.
  - intros _. eapply rejected_by; [apply leaves_clicksChecked|apply inviteChecked_spec|done|].
    unfold checkClicks. rewrite Hcfg. simpl. fold w.
    destruct (Z.gtb_spec (usage w) (usageLimit w)); [done|lia].
  - lia.
  - split; [lia|done].
  - lia.
  - done.
  - rewrite Hrun. split; [done|lia].
Qed.

(** C5, as the code has it: on a route configured with
    [needNotExceededLinks], a request that has come as far as the links
    check with a workspace whose links usage is strictly greater than its
    links limit is rejected there, with the forbidden exceeded-limit error
    for links and without the handler being called, when the plan of the
    workspace is ["free"] or ["pro"]; on any other plan it passes the
    check. *)
Theorem links_limit_check (handler : Handler) (cfg : Config) (env : Env)
    (req : Request) (params : gmap string string) (db : Db) (c : Ctx) (st : St) :
  needNotExceededLinks cfg = true ->
  clicksChecked handler cfg env req params (initial db) = (inr c, st) ->
  let w := c_workspace c in
  linksUsage w > linksLimit w ->
  (plan w = "free" \/ plan w = "pro" ->
     withWorkspace handler cfg env req params db =
       (ErrorResponse
          (DubApiError forbidden (exceededLimitError env (plan w) (linksLimit w) linksType))
          (st_headers st), st)
     /\ invocations (st_log st) = [])
  /\ (plan w <> "free" -> plan w <> "pro" ->
        linksChecked handler cfg env req params (initial db) = (inr c, st)).
Proof.
  intros Hcfg Hc w Hgt.
  assert (Hb : (linksUsage w >? linksLimit w) = true).
  { destruct (Z.gtb_spec (linksUsage w) (linksLimit w)); [done|lia]. }
  split.
  - intros Hplan.
    eapply rejected_by; [apply leaves_linksChecked|apply clicksChecked_spec|done|].
    unfold checkLinks. rewrite Hcfg. fold w. rewrite Hb.
    by destruct Hplan as [-> | ->].
  - intros Hfree Hpro. unfold linksChecked. rewrite (bind_ok _ _ _ _ _ Hc).
    unfold checkLinks. rewrite Hcfg. fold w. rewrite Hb.
    destruct (String.eqb_spec (plan w) "free"); [done|].
    destruct (String.eqb_spec (plan w) "pro"); done.
Qed.

Lemma findDomain_None (w : Workspace) (d : string) :
  findDomain w d = None <-> d ∉ wd_slug <$> domains w.
Proof.
  unfold findDomain. induction (domains w) as [|x l IH]; csimpl.
  - split; [|done]. intros _ H. by apply elem_of_nil in H.
  - rewrite not_elem_of_cons. destruct (String.eqb_spec (wd_slug x) d) as [->|Hne].
    + split; [done|]. by intros [? _].
    + rewrite IH. split; [by split|by intros [_ ?]].
Qed.

(** C3, as the code has it: a request that supplies a non-empty domain
    and has come as far as the domain check (its workspace is resolved,
    the scope check and the beta-feature check have passed) is rejected
    there, with the forbidden error "Domain does not belong to workspace."
    and without the handler being called, when the domain is a custom
    (non-dub) domain that is not among the domains of the resolved
    workspace, and when the domain is a dub domain, the route enables
    [domainChecks] and the workspace is not the dub workspace; for a dub
    domain on such a route the dub workspace passes the check.  A request
    without a domain, or with an empty one (which [if (domain)] takes for
    none), passes the check unexamined. *)
Theorem domain_check (handler : Handler) (cfg : Config) (env : Env)
    (req : Request) (params : gmap string string) (db : Db) (c : Ctx) (st : St)
    (d : string) :
  linkRefetched handler cfg env req params (initial db) = (inr c, st) ->
  let w := c_workspace c in
  let rejected :=
    withWorkspace handler cfg env req params db =
      (ErrorResponse (DubApiError forbidden "Domain does not belong to workspace.")
         (st_headers st), st)
    /\ invocations (st_log st) = [] in
  (domain (c_pre c) = Some d -> d <> "" ->
     (isDubDomain env d = false -> d ∉ wd_slug <$> domains w -> rejected)
     /\ (isDubDomain env d = true -> domainChecks cfg = true ->
         id w <> DUB_WORKSPACE_ID env -> rejected)
     /\ (isDubDomain env d = true -> domainChecks cfg = true ->
         id w = DUB_WORKSPACE_ID env ->
         domainChecked handler cfg env req params (initial db) = (inr c, st)))
  /\ (domain (c_pre c) = None \/ domain (c_pre c) = Some "" ->
      domainChecked handler cfg env req params (initial db) = (inr c, st)).
Proof.
  intros Hc w rejected. split.
  - intros Hsome Hne.
    assert (Hd : Js.whenTruthy (domain (c_pre c)) = Some d).
    { rewrite Hsome. simpl. by destruct (String.eqb_spec d ""). }
    split_and!.
    + intros Hdub Hnot. apply findDomain_None in Hnot.
      eapply rejected_by; [apply leaves_domainChecked|apply linkRefetched_spec|done|].
      unfold checkDomain. rewrite Hd, Hdub. fold w. by rewrite Hnot.
    + intros Hdub Hcfg Hw.
      eapply rejected_by; [apply leaves_domainChecked|apply linkRefetched_spec|done|].
      unfold checkDomain. rewrite Hd, Hdub, Hcfg. fold w.
      by destruct (String.eqb_spec (id w) (DUB_WORKSPACE_ID env)).
    + intros Hdub Hcfg Hw. unfold domainChecked. rewrite (bind_ok _ _ _ _ _ Hc).
      unfold checkDomain. rewrite Hd, Hdub, Hcfg. fold w.
      by destruct (String.eqb_spec (id w) (DUB_WORKSPACE_ID env)).
  - intros Hnone. unfold domainChecked. rewrite (bind_ok _ _ _ _ _ Hc).
    unfold checkDomain. by destruct Hnone as [-> | ->].
Qed.

(** [s.split(" ")] cuts [s] at every space: joined by single spaces the
    pieces give [s] back, and no piece holds a space. *)
Lemma splitSpaces_nonempty (s : string) : Js.splitSpaces s <> [].
Proof.
  destruct s as [|c s]; simpl; [done|].
  destruct (Ascii.eqb c " "%char); [done|]. by destruct (Js.splitSpaces s).
Qed.

Lemma concat_splitSpaces (s : string) : String.concat " " (Js.splitSpaces s) = s.
Proof.
  induction s as [|c s IH]; [done|]. simpl.
  pose proof (splitSpaces_nonempty s) as Hne.
  destruct (Js.splitSpaces s) as [|h t]; [done|].
  destruct (Ascii.eqb_spec c " "%char) as [->|_].
  - simpl in *. by rewrite IH.
  - simpl in *. rewrite <- IH. by destruct t.
Qed.

Lemma splitSpaces_no_space (s x : string) :
  x ∈ Js.splitSpaces s -> Js.includes " " x = false.
Proof.
  revert x. induction s as [|c s IH]; intros x Hx.
  - apply list_elem_of_singleton in Hx. by subst.
  - simpl in Hx. pose proof (splitSpaces_nonempty s) as Hne.
    destruct (Js.splitSpaces s) as [|h t]; [done|].
    destruct (Ascii.eqb_spec c " "%char) as [->|Hc].
    + apply elem_of_cons in Hx as [->|Hx]; [done|by apply IH].
    + apply elem_of_cons in Hx as [->|Hx].
      * cbn [Js.includes Js.startsWith]. rewrite (IH h) by by left.
        destruct (Ascii.eqb_spec " "%char c); [by subst|done].
      * apply IH. by right.
Qed.

(** C2, as the code has it: on a route where scope checks are not
    skipped, a request whose workspace has been resolved has scopes, found
    as follows.  A restricted API token (the kind that carries a [scopes]
    column, used exactly when the key starts with ["dub_"]) gives the
    pieces of its scopes string cut at the spaces (joined by single spaces
    they give the string back, and no piece holds a space), and no scope
    at all when the column is null; any other caller gets the scopes that
    [roleScopesMapping] gives the role of the caller in the workspace.  If
    [throwIfNoAccess] throws for these scopes, the required scopes of the
    route and the workspace, the request is answered with that error and
    the handler is not called; if it does not, the request passes the
    check with these scopes. *)
Theorem scope_check (handler : Handler) (cfg : Config) (env : Env)
    (req : Request) (params : gmap string string) (db : Db) (c : Ctx) (st : St) :
  skipScopeChecks cfg = false ->
  resolved handler cfg env req params (initial db) = (inr c, st) ->
  let w := c_workspace c in
  exists scopes : list Scope,
    findScopes env (c_token c) w = inr scopes
    /\ match c_token c with
       | Some (RestrictedToken (Some s) _ _ _) =>
           scopes = Js.splitSpaces s /\
           String.concat " " scopes = s /\
           (forall x, x ∈ scopes -> Js.includes " " x = false)
       | Some (RestrictedToken None _ _ _) => scopes = []
       | _ => exists u, head (users w) = Some u /\ scopes = roleScopesMapping env (role u)
       end
    /\ ((exists s r p u, c_token c = Some (RestrictedToken s r p u))
        <-> isRestrictedToken (c_pre c) = true)
    /\ (forall e,
          throwIfNoAccess env scopes (requiredScopes cfg) (id w) = Some e ->
          withWorkspace handler cfg env req params db = (ErrorResponse e (st_headers st), st)
          /\ invocations (st_log st) = [])
    /\ (throwIfNoAccess env scopes (requiredScopes cfg) (id w) = None ->
        scopesChecked handler cfg env req params (initial db)
        = (inr (set_scopes scopes c), st)).
Proof.
  intros Hcfg Hc w.
  destruct (resolved_spec _ _ _ _ _ _ _ _ Hc) as (_ & _ & [Hpre _ Hauth _ Hmem]).
  fold w in Hmem.
  assert (Hkind : (exists s r p u, c_token c = Some (RestrictedToken s r p u))
                  <-> isRestrictedToken (c_pre c) = true).
  { unfold authenticated in Hauth. split.
    - intros (s & r & p & u & Ht).
      destruct (Js.whenTruthy (apiKey (c_pre c))) as [k|].
      + destruct Hauth as (t & tu & Hfind & _ & Ht' & _).
        apply findToken_restricted in Hfind. rewrite Ht in Ht'. by simplify_eq.
      + destruct Hauth as (Hnone & _). by rewrite Hnone in Ht.
    - intros Hr. pose proof (restricted_has_key _ _ _ Hpre Hr) as Hk.
      destruct (apiKey (c_pre c)) as [k|] eqn:Ek; [|done]. simpl in Hk, Hauth.
      destruct (String.eqb k ""); [done|].
      destruct Hauth as (t & tu & Hfind & _ & Ht' & _).
      apply findToken_restricted in Hfind. rewrite Hr in Hfind.
      destruct t; [done|]. eauto. }
  assert (Hscopes : exists scopes, findScopes env (c_token c) w = inr scopes).
  { unfold findScopes. destruct (users w); [done|].
    repeat case_match; eauto. }
  destruct Hscopes as (scopes & Hscopes). exists scopes. split_and!; try done.
  - unfold findScopes in Hscopes. destruct (users w) as [|u us]; [done|].
    repeat case_match; simplify_eq; eauto.
    split_and!; [done|apply concat_splitSpaces|apply splitSpaces_no_space].
  - intros e He.
    eapply rejected_by; [apply leaves_scopesChecked|apply resolved_spec|done|].
    unfold checkScopes. fold w. rewrite Hscopes. simpl.
    unfold bind, ret. rewrite Hcfg. simpl. by rewrite He.
  - intros Hok. unfold scopesChecked. rewrite (bind_ok _ _ _ _ _ Hc).
    unfold checkScopes. fold w. rewrite Hscopes. simpl.
    unfold bind, ret. rewrite Hcfg. simpl. by rewrite Hok.
Qed.

Lemma findToken_user_id (db : Db) (b : bool) (h : string) (t : Token) (u : TokenUser) :
  userIdsPresent db -> findToken b h db = Some t -> token_user t = Some u ->
  tu_id u <> "".
Proof.
  intros [Hp Hr] Hfind Hu.
  unfold findToken, prisma.restrictedToken_findUnique, prisma.token_findUnique in Hfind.
  destruct b; apply fmap_Some in Hfind as (r & Hfind & ->);
    apply find_some in Hfind as [Hin _]; apply list_elem_of_In in Hin; eauto.
Qed.

Lemma requireWorkspace_passes (handler : Handler) (cfg : Config) (req : Request)
    (params : gmap string string) (pre : Pre) (st : St) :
  Js.truthy (idOrSlug pre) = true \/ isRestrictedToken pre = true ->
  requireWorkspace handler cfg req params pre st = (inr tt, st).
Proof.
  unfold requireWorkspace. intros [-> | ->]; [done|]. by rewrite andb_false_r.
Qed.

(** The log of a request that was answered without a call of the handler,
    or with the single call of the anonymous path or after the checks. *)
Lemma withWorkspace_invocations (handler : Handler) (cfg : Config) (env : Env)
    (req : Request) (params : gmap string string) (db : Db) :
  let out := withWorkspace handler cfg env req params db in
  (invocations (st_log (snd out)) = [] /\
   exists e, fst out = ErrorResponse e (st_headers (snd out)) /\ thrown cfg env e)
  \/ (invocations (st_log (snd out)) = [anonymousArgs req params []])
  \/ (exists c st,
        linkChecked handler cfg env req params (initial db) = (inr c, st) /\
        Established env req params db c /\
        invocations (st_log (snd out)) = [fullArgs req params c (st_headers st)]).
Proof.
  destruct (linkChecked handler cfg env req params (initial db)) as [[x|c] st] eqn:E.
  - simpl. rewrite (leaves_linkChecked _ _ _ _ _ _ _ _ E).
    destruct (linkChecked_spec _ _ _ _ _ _ _ _ E)
      as [(_ & _ & _ & Hlog & _)|(_ & Hlog & e & -> & He)].
    + right; left. destruct x; simpl; by rewrite Hlog.
    + left. simpl. eauto.
  - right; right. exists c, st.
    destruct (linkChecked_spec _ _ _ _ _ _ _ _ E) as (_ & Hlog & Hest).
    split_and!; try done. simpl. rewrite (withWorkspace_passed _ _ _ _ _ _ _ _ E).
    simpl. by rewrite invocations_app, Hlog.
Qed.

(** C7, as the code has it: the two ways to authenticate give the handler
    one kind of caller.
    Whenever the handler is called with a session, the user of the session
    is built from the user of the token that the API key designates (name
    and email being the empty string when absent) if the request carries
    an API key, and is the user of the browser session otherwise, with a
    non-empty id (for a token user: as stored users have).  On the
    authenticated path (a workspace id or slug, or a restricted key, is
    given), an API key that designates no token, or a token without a user,
    is answered with the unauthorized error "Invalid API key", and a
    missing or empty browser session with "Login required"; in both cases
    nothing follows the failed lookup. *)
Theorem caller_identity (handler : Handler) (cfg : Config) (env : Env)
    (req : Request) (params : gmap string string) (db : Db) :
  (forall args,
     args ∈ invocations (st_log (snd (withWorkspace handler cfg env req params db))) ->
     a_session args <> None ->
     exists pre u,
       preamble req params = inr pre /\
       a_session args = Some {| user := Some u |} /\
       match Js.whenTruthy (apiKey pre) with
       | Some k =>
           exists t tu,
             findToken (isRestrictedToken pre) (hashToken env k) db = Some t /\
             token_user t = Some tu /\
             u = {| su_id := tu_id tu; su_name := orEmpty (tu_name tu);
                    su_email := orEmpty (tu_email tu);
                    su_isMachine := tu_isMachine tu |} /\
             (userIdsPresent db -> su_id u <> "")
       | None =>
           getSession env = Some {| user := Some u |} /\ su_id u <> ""
       end)
  /\ (forall pre k,
        preamble req params = inr pre ->
        Js.truthy (idOrSlug pre) = true \/ isRestrictedToken pre = true ->
        Js.whenTruthy (apiKey pre) = Some k ->
        findToken (isRestrictedToken pre) (hashToken env k) db ≫= token_user = None ->
        withWorkspace handler cfg env req params db =
          (ErrorResponse (DubApiError unauthorized "Unauthorized: Invalid API key.") [],
           {| st_db := db; st_headers := [];
              st_log := [EHashToken k;
                         ETokenFindUnique (isRestrictedToken pre) (hashToken env k)] |}))
  /\ (forall pre,
        preamble req params = inr pre ->
        Js.truthy (idOrSlug pre) = true \/ isRestrictedToken pre = true ->
        Js.whenTruthy (apiKey pre) = None ->
        Js.truthy (sessionUserId (getSession env)) = false ->
        withWorkspace handler cfg env req params db =
          (ErrorResponse (DubApiError unauthorized "Unauthorized: Login required.") [],
           {| st_db := db; st_headers := []; st_log := [EGetSession] |})).
Proof.
  split_and!.
  - intros args Hin Hsession.
    destruct (withWorkspace_invocations handler cfg env req params db)
      as [(Hlog & _)|[Hlog|(c & st & _ & Hest & Hlog)]];
      simpl in Hlog; rewrite Hlog in Hin.
    + by apply elem_of_nil in Hin.
    + apply list_elem_of_singleton in Hin. by subst.
    + apply list_elem_of_singleton in Hin. subst args. simpl.
      destruct Hest as [Hpre _ Hauth (u & Hu & _) _].
      exists (c_pre c), u. split; [done|].
      destruct (c_session c) as [su] eqn:Es. simpl in Hu. subst su.
      split; [done|]. unfold authenticated in Hauth.
      destruct (Js.whenTruthy (apiKey (c_pre c))) as [k|].
      * destruct Hauth as (t & tu & Hfind & Htu & _ & Hs). exists t, tu.
        rewrite Es in Hs. unfold sessionOfToken in Hs. simplify_eq.
        split_and!; try done. simpl. intros Hids. by eapply findToken_user_id.
      * destruct Hauth as (_ & Hget & Hid). rewrite Es in Hget, Hid.
        split; [done|]. simpl in Hid. by destruct (String.eqb_spec (su_id u) "").
  - intros pre k Hpre Hnamed Hk Hnone.
    apply (leaves_resolved handler cfg env req params db (Throw _)
             {| st_db := db; st_headers := [];
                st_log := [EHashToken k;
                           ETokenFindUnique (isRestrictedToken pre) (hashToken env k)] |}).
    unfold resolved. rewrite Hpre. unfold liftExn.
    rewrite (bind_ok _ _ _ pre (initial db)) by done.
    rewrite (bind_ok _ _ _ tt (initial db)) by by apply requireWorkspace_passes.
    apply bind_exit. unfold authenticate. rewrite Hk.
    unfold bind, emit, getDb, throw. simpl.
    destruct (findToken _ _ _) as [t|]; [|done]. simpl in Hnone. by rewrite Hnone.
  - intros pre Hpre Hnamed Hk Hnone.
    apply (leaves_resolved handler cfg env req params db (Throw _)
             {| st_db := db; st_headers := []; st_log := [EGetSession] |}).
    unfold resolved. rewrite Hpre. unfold liftExn.
    rewrite (bind_ok _ _ _ pre (initial db)) by done.
    rewrite (bind_ok _ _ _ tt (initial db)) by by apply requireWorkspace_passes.
    apply bind_exit. unfold authenticate. rewrite Hk.
    unfold bind, emit, throw. simpl.
    destruct (getSession env) as [s|]; [|done]. simpl in Hnone. by rewrite Hnone.
Qed.

(** C8: the pending-invite branch is dead code.  A request that reaches
    it has a workspace that lists the caller, so the branch looks up no
    invite and throws nothing; a workspace that was fetched with an empty
    list of users for the caller has been answered before with the
    not_found error "Workspace not found."; and a response that carries an
    [invite_expired] or [invite_pending] error was not made by the
    middleware: the handler was called, or [throwIfNoAccess] threw it. *)
Theorem pending_invite_branch_unreachable (handler : Handler) (cfg : Config)
    (env : Env) (req : Request) (params : gmap string string) (db : Db) :
  (forall c st,
     domainChecked handler cfg env req params (initial db) = (inr c, st) ->
     users (c_workspace c) <> [] /\ checkInvite env c st = (inr c, st))
  /\ (forall pre session token workspaceId st2 w l st3,
        preamble req params = inr pre ->
        requireWorkspace handler cfg req params pre (initial db) = (inr tt, initial db) ->
        authenticate env pre (fst (workspaceRef pre)) (initial db)
          = (inr (session, token, workspaceId), st2) ->
        fetch pre session workspaceId (snd (workspaceRef pre)) st2
          = (inr (Some w, l), st3) ->
        users w = [] ->
        withWorkspace handler cfg env req params db =
          (ErrorResponse (DubApiError not_found "Workspace not found.") (st_headers st3),
           st3))
  /\ (forall code message h st,
        withWorkspace handler cfg env req params db
          = (ErrorResponse (DubApiError code message) h, st) ->
        code = invite_expired \/ code = invite_pending ->
        invocations (st_log st) <> [] \/
        exists scopes workspaceId,
          throwIfNoAccess env scopes (requiredScopes cfg) workspaceId
            = Some (DubApiError code message)).
Proof.
  split_and!.
  - intros c st Hc.
    destruct (domainChecked_spec _ _ _ _ _ _ _ _ Hc) as (_ & _ & Hest).
    pose proof (est_member _ _ _ _ _ Hest) as Hm. split; [done|].
    by apply checkInvite_member.
  - intros pre session token wid st2 w l st3 Hpre Hnamed Hauth Hfetch Husers.
    apply (leaves_resolved handler cfg env req params db (Throw _) st3).
    unfold resolved. rewrite Hpre. unfold liftExn.
    rewrite (bind_ok _ _ _ pre (initial db)) by done.
    rewrite (bind_ok _ _ _ _ _ Hnamed), (bind_ok _ _ _ _ _ Hauth).
    rewrite (bind_ok _ _ _ _ _ Hfetch). simpl. by rewrite Husers.
  - intros code message h st Hout Hcode.
    destruct (withWorkspace_invocations handler cfg env req params db)
      as [(_ & e & He & Hthrown)|[Hlog|(c & st' & _ & _ & Hlog)]];
      rewrite Hout in *; simpl in *.
    + simplify_eq. destruct Hthrown as [Hown|?]; [|by right].
      simpl in Hown. destruct Hown, Hcode; by subst.
    + left. by rewrite Hlog.
    + left. by rewrite Hlog.
Qed.

(* ===================================================================== *)
(** ** The statements at work on the sample deployment *)
(* ===================================================================== *)

(** Alice makes [acme.link] the primary domain of her workspace. *)
Lemma POST_sets_primary_witness :
  let out :=
    primary.POST Sample.env (Sample.browserRequest "ws_p1")
      (Some (Sample.named "acme.link")) Sample.db in
  fst out
  = JsonResponse
      (JObj [("id", JStr "d2"); ("slug", JStr "acme.link"); ("primary", JBool true)]) []
  /\ exists x y,
       domainRows (st_db (snd out)) !! 0%nat = Some x /\
       d_slug x = "acme.co" /\ d_primary x = false /\
       domainRows (st_db (snd out)) !! 1%nat = Some y /\
       d_slug y = "acme.link" /\ d_primary y = true.
Proof.
  cbv zeta. split; [vm_compute; reflexivity|].
  destruct (POST_sets_primary Sample.env (Sample.browserRequest "ws_p1")
              (Some (Sample.named "acme.link")) Sample.db
              (JObj [("id", JStr "d2"); ("slug", JStr "acme.link"); ("primary", JBool true)])
              []
              (snd (primary.POST Sample.env (Sample.browserRequest "ws_p1")
                      (Some (Sample.named "acme.link")) Sample.db)))
    as (d & c & r & r' & _ & Hd & Hinv & Hnamed & Hothers & _).
  { vm_compute. reflexivity. }
  assert (Hargs : exists args w,
            invocations
              (st_log (snd (primary.POST Sample.env (Sample.browserRequest "ws_p1")
                              (Some (Sample.named "acme.link")) Sample.db)))
            = [args]
            /\ a_workspace args = Some w /\ id w = "p1"
            /\ a_domain args = Some "acme.link")
    by (eexists _, _; split_and!; vm_compute; reflexivity).
  destruct Hargs as (args & w & Hargs & Hw & Hid & Hdom).
  rewrite Hargs in Hinv. injection Hinv as ->.
  cbn [fullArgs a_workspace a_domain] in Hw, Hdom. injection Hw as <-.
  rewrite Hd in Hdom. injection Hdom as ->.
  assert (Hx : exists x,
            domainRows (st_db (snd (primary.POST Sample.env (Sample.browserRequest "ws_p1")
                                      (Some (Sample.named "acme.link")) Sample.db)))
              !! 0%nat = Some x
            /\ d_slug x = "acme.co" /\ d_projectId x = "p1")
    by (eexists; split_and!; vm_compute; reflexivity).
  assert (Hy : exists y,
            domainRows (st_db (snd (primary.POST Sample.env (Sample.browserRequest "ws_p1")
                                      (Some (Sample.named "acme.link")) Sample.db)))
              !! 1%nat = Some y
            /\ d_slug y = "acme.link")
    by (eexists; split_and!; vm_compute; reflexivity).
  destruct Hx as (x & Hx & Hxs & Hxp). destruct Hy as (y & Hy & Hys).
  exists x, y. split; [exact Hx|]. split; [exact Hxs|].
  split; [|split; [exact Hy|split; [exact Hys|]]].
  - apply Hothers; [by apply list_elem_of_lookup_2 in Hx|by rewrite Hid|].
    rewrite Hxs. discriminate.
  - apply Hnamed; [by apply list_elem_of_lookup_2 in Hy|exact Hys].
Defined.

(** A restricted key whose scopes lack [domains.write] is turned away from
    the primary-domain endpoint. *)
Lemma scope_check_witness :
  (exists c st,
     resolved (primary.handler Sample.env) primary.options Sample.env
       (Sample.request (Some "Bearer dub_r1") [] "/api/domains/acme.link/primary")
       (Sample.named "acme.link") (initial Sample.db) = (inr c, st)
     /\ withWorkspace (primary.handler Sample.env) primary.options Sample.env
          (Sample.request (Some "Bearer dub_r1") [] "/api/domains/acme.link/primary")
          (Sample.named "acme.link") Sample.db
        = (ErrorResponse (DubApiError forbidden "Missing required scopes.")
             (st_headers st), st)
     /\ invocations (st_log st) = [])
  /\ (exists c st,
        resolved (primary.handler Sample.env) primary.options Sample.env
          (Sample.request (Some "Bearer dub_w1") [] "/api/domains/acme.link/primary")
          (Sample.named "acme.link") (initial Deployment.dbWithKeys) = (inr c, st)
        /\ findScopes Sample.env (c_token c) (c_workspace c)
           = inr ["links.read"; "domains.write"]
        /\ scopesChecked (primary.handler Sample.env) primary.options Sample.env
             (Sample.request (Some "Bearer dub_w1") [] "/api/domains/acme.link/primary")
             (Sample.named "acme.link") (initial Deployment.dbWithKeys)
           = (inr (set_scopes ["links.read"; "domains.write"] c), st)).
Proof.
  split.
  - assert (H : exists c st,
              resolved (primary.handler Sample.env) primary.options Sample.env
                (Sample.request (Some "Bearer dub_r1") [] "/api/domains/acme.link/primary")
                (Sample.named "acme.link") (initial Sample.db) = (inr c, st))
      by (eexists _, _; vm_compute; reflexivity).
    destruct H as (c & st & H). exists c, st. split; [exact H|].
    destruct (scope_check (primary.handler Sample.env) primary.options Sample.env
                _ _ _ c st eq_refl H) as (scopes & Hs & _ & _ & Hrej & _).
    apply Hrej. clear Hrej.
    pose proof H as H'. vm_compute in H'. injection H' as <- <-.
    vm_compute in Hs. injection Hs as <-. vm_compute. reflexivity.
  - assert (H : exists c st,
              resolved (primary.handler Sample.env) primary.options Sample.env
                (Sample.request (Some "Bearer dub_w1") [] "/api/domains/acme.link/primary")
                (Sample.named "acme.link") (initial Deployment.dbWithKeys) = (inr c, st))
      by (eexists _, _; vm_compute; reflexivity).
    destruct H as (c & st & H). exists c, st. split; [exact H|].
    destruct (scope_check (primary.handler Sample.env) primary.options Sample.env
                _ _ _ c st eq_refl H) as (scopes & Hs & _ & _ & _ & Hpass).
    assert (Hscopes : scopes = ["links.read"; "domains.write"]).
    { pose proof H as H'. vm_compute in H'. injection H' as <- <-.
      vm_compute in Hs. by injection Hs as <-. }
    subst scopes. split; [exact Hs|]. apply Hpass.
    pose proof H as H'. vm_compute in H'. injection H' as <- <-.
    vm_compute. reflexivity.
Defined.

(** Alice names a domain of another workspace. *)
Lemma domain_check_witness :
  (exists c st,
     linkRefetched (primary.handler Sample.env) primary.options Sample.env
       (Sample.browserRequest "ws_p1") (Sample.named "solo.io") (initial Sample.db)
     = (inr c, st)
     /\ withWorkspace (primary.handler Sample.env) primary.options Sample.env
          (Sample.browserRequest "ws_p1") (Sample.named "solo.io") Sample.db
        = (ErrorResponse (DubApiError forbidden "Domain does not belong to workspace.")
             (st_headers st), st)
     /\ invocations (st_log st) = [])
  /\ (exists c st,
        linkRefetched (primary.handler Sample.env) primary.options Sample.env
          (Sample.request None [("workspaceId", "ws_p1"); ("domain", "")]
             "/api/domains") ∅ (initial Sample.db)
        = (inr c, st)
        /\ domain (c_pre c) = Some ""
        /\ domainChecked (primary.handler Sample.env) primary.options Sample.env
             (Sample.request None [("workspaceId", "ws_p1"); ("domain", "")]
             "/api/domains") ∅ (initial Sample.db)
           = (inr c, st)).
Proof.
  split.
  - assert (H : exists c st,
              linkRefetched (primary.handler Sample.env) primary.options Sample.env
                (Sample.browserRequest "ws_p1") (Sample.named "solo.io")
                (initial Sample.db)
              = (inr c, st))
      by (eexists _, _; vm_compute; reflexivity).
    destruct H as (c & st & H). exists c, st. split; [exact H|].
    pose proof H as H'. vm_compute in H'. injection H' as <- <-.
    refine (proj1 (proj1 (domain_check (primary.handler Sample.env) primary.options
                            Sample.env _ _ _ _ _ "solo.io" H)
                     eq_refl ltac:(discriminate)) eq_refl _).
    vm_compute. intros Hin.
    repeat (apply elem_of_cons in Hin as [Hin|Hin]; [discriminate|]).
    by apply elem_of_nil in Hin.
  - assert (H : exists c st,
              linkRefetched (primary.handler Sample.env) primary.options Sample.env
                (Sample.request None [("workspaceId", "ws_p1"); ("domain", "")]
             "/api/domains") ∅ (initial Sample.db)
              = (inr c, st)
              /\ domain (c_pre c) = Some "")
      by (eexists _, _; split; vm_compute; reflexivity).
    destruct H as (c & st & H & Hd). exists c, st.
    split; [exact H|]. split; [exact Hd|].
    exact (proj2 (domain_check (primary.handler Sample.env) primary.options
                    Sample.env _ _ _ c st "" H) (or_intror Hd)).
Defined.

(** The workspace [solo] has used 101 clicks of 100. *)
Lemma clicks_limit_check_witness :
  exists c st,
    inviteChecked Sample.ok (Sample.withOptions true false false) Sample.env
      (Sample.browserRequest "ws_p2") ∅ (initial Sample.db) = (inr c, st)
    /\ withWorkspace Sample.ok (Sample.withOptions true false false) Sample.env
         (Sample.browserRequest "ws_p2") ∅ Sample.db
       = (ErrorResponse (DubApiError forbidden "Clicks limit exceeded.") (st_headers st), st)
    /\ invocations (st_log st) = [].
Proof.
  assert (H : exists c st,
            inviteChecked Sample.ok (Sample.withOptions true false false) Sample.env
              (Sample.browserRequest "ws_p2") ∅ (initial Sample.db) = (inr c, st))
    by (eexists _, _; vm_compute; reflexivity).
  destruct H as (c & st & H). exists c, st. split; [exact H|].
  pose proof H as H'. vm_compute in H'. injection H' as <- <-.
  refine (proj1 (clicks_limit_check Sample.ok (Sample.withOptions true false false)
                   Sample.env _ _ _ _ _ eq_refl H) _).
  vm_compute. reflexivity.
Defined.

(** The workspace [solo], on the free plan, holds 26 links of 25. *)
Lemma links_limit_check_witness :
  exists c st,
    clicksChecked Sample.ok (Sample.withOptions false true false) Sample.env
      (Sample.browserRequest "ws_p2") ∅ (initial Sample.db) = (inr c, st)
    /\ withWorkspace Sample.ok (Sample.withOptions false true false) Sample.env
         (Sample.browserRequest "ws_p2") ∅ Sample.db
       = (ErrorResponse (DubApiError forbidden "Links limit exceeded.") (st_headers st), st)
    /\ invocations (st_log st) = [].
Proof.
  assert (H : exists c st,
            clicksChecked Sample.ok (Sample.withOptions false true false) Sample.env
              (Sample.browserRequest "ws_p2") ∅ (initial Sample.db) = (inr c, st))
    by (eexists _, _; vm_compute; reflexivity).
  destruct H as (c & st & H). exists c, st. split; [exact H|].
  pose proof H as H'. vm_compute in H'. injection H' as <- <-.
  refine (proj1 (links_limit_check Sample.ok (Sample.withOptions false true false)
                   Sample.env _ _ _ _ _ eq_refl H _) (or_introl eq_refl)).
  vm_compute. reflexivity.
Defined.

(** C5 as the specification states it fails: the workspace [acme], on the
    business plan, holds 2000 links of 1000, and its request to a route
    configured with [needNotExceededLinks] reaches the handler.  And the
    workspace [solo], on the free plan with 26 links of 25, is answered by
    the domain check, which comes before the links check, when its request
    names a domain of another workspace. *)
Lemma links_limit_ignores_paid_plans :
  let cfg := Sample.withOptions false true false in
  let out :=
    withWorkspace Sample.ok cfg Sample.env (Sample.browserRequest "ws_p1") ∅ Sample.db in
  needNotExceededLinks cfg = true
  /\ (exists c st,
        clicksChecked Sample.ok cfg Sample.env (Sample.browserRequest "ws_p1") ∅
          (initial Sample.db) = (inr c, st)
        /\ plan (c_workspace c) = "business"
        /\ linksUsage (c_workspace c) = 2000 /\ linksLimit (c_workspace c) = 1000
        /\ linksUsage (c_workspace c) > linksLimit (c_workspace c))
  /\ fst out = JsonResponse JNull []
  /\ length (invocations (st_log (snd out))) = 1%nat
  /\ (exists c st,
        resolved Sample.ok cfg Sample.env (Sample.browserRequest "ws_p2")
          (Sample.named "acme.co") (initial Sample.db) = (inr c, st)
        /\ plan (c_workspace c) = "free"
        /\ linksUsage (c_workspace c) > linksLimit (c_workspace c))
  /\ fst (withWorkspace Sample.ok cfg Sample.env (Sample.browserRequest "ws_p2")
            (Sample.named "acme.co") Sample.db)
     = ErrorResponse (DubApiError forbidden "Domain does not belong to workspace.") [].
Proof.
  split_and!; try (vm_compute; reflexivity).
  - eexists _, _. split; [vm_compute; reflexivity|]. by vm_compute.
  - eexists _, _. split; [vm_compute; reflexivity|]. by vm_compute.
Qed.

(** A header without ["Bearer "]. *)
Lemma misconfigured_authorization_rejected_witness :
  withWorkspace Sample.ok defaultConfig Sample.env
    (Sample.request (Some "Token abc") [("workspaceId", "ws_p1")] "/api/links") ∅ Sample.db
  = (ErrorResponse
       (DubApiError bad_request
          "Misconfigured authorization header. Did you forget to add 'Bearer '? Learn more: https://d.to/auth")
       [],
     {| st_db := Sample.db; st_headers := []; st_log := [] |}).
Proof.
  apply (misconfigured_authorization_rejected Sample.ok defaultConfig Sample.env
           (Sample.request (Some "Token abc") [("workspaceId", "ws_p1")] "/api/links")
           ∅ Sample.db "Token abc");
    [reflexivity|discriminate|reflexivity].
Defined.

(** Nobody is logged in, and a key that no token has. *)
Lemma caller_identity_witness :
  withWorkspace Sample.ok defaultConfig Sample.envLoggedOut
    (Sample.browserRequest "ws_p1") ∅ Sample.db
  = (ErrorResponse (DubApiError unauthorized "Unauthorized: Login required.") [],
     {| st_db := Sample.db; st_headers := []; st_log := [EGetSession] |})
  /\ fst (withWorkspace Sample.ok defaultConfig Sample.env
            (Sample.request (Some "Bearer nope") [("workspaceId", "ws_p1")] "/api/links")
            ∅ Sample.db)
     = ErrorResponse (DubApiError unauthorized "Unauthorized: Invalid API key.") [].
Proof.
  split.
  - refine (proj2 (proj2 (caller_identity Sample.ok defaultConfig Sample.envLoggedOut
                            (Sample.browserRequest "ws_p1") ∅ Sample.db))
              _ _ _ _ _);
      [vm_compute; reflexivity|left; vm_compute; reflexivity|reflexivity|reflexivity].
  - erewrite (proj1 (proj2 (caller_identity Sample.ok defaultConfig Sample.env
                (Sample.request (Some "Bearer nope") [("workspaceId", "ws_p1")] "/api/links")
                ∅ Sample.db)) _ "nope");
      [reflexivity|vm_compute; reflexivity|left; vm_compute; reflexivity
      |reflexivity|vm_compute; reflexivity].
Defined.

(** Alice is listed in her workspace: the invite block does nothing. *)
Lemma pending_invite_branch_unreachable_witness :
  exists c st,
    domainChecked Sample.ok defaultConfig Sample.env (Sample.browserRequest "ws_p1") ∅
      (initial Sample.db) = (inr c, st)
    /\ users (c_workspace c) <> []
    /\ checkInvite Sample.env c st = (inr c, st).
Proof.
  assert (H : exists c st,
            domainChecked Sample.ok defaultConfig Sample.env
              (Sample.browserRequest "ws_p1") ∅ (initial Sample.db) = (inr c, st))
    by (eexists _, _; vm_compute; reflexivity).
  destruct H as (c & st & H). exists c, st. split; [exact H|].
  exact (proj1 (pending_invite_branch_unreachable Sample.ok defaultConfig Sample.env
                  (Sample.browserRequest "ws_p1") ∅ Sample.db) c st H).
Defined.

(** A request without workspace and key, to a route that allows it. *)
Lemma anonymous_request_reaches_handler_witness :
  let req := Sample.request None [("domain", "dub.sh")] "/api/links" in
  withWorkspace Sample.ok (Sample.withOptions true true true) Sample.envLoggedOut req ∅
    Sample.db
  = (JsonResponse JNull [],
     {| st_db := Sample.db; st_headers := [];
        st_log := [EHandler {| a_req := req; a_params := ∅;
                               a_searchParams := searchParams req;
                               a_headers := []; a_session := None;
                               a_workspace := None; a_domain := None;
                               a_link := None; a_scopes := None |}] |}).
Proof.
  refine (anonymous_request_reaches_handler Sample.ok (Sample.withOptions true true true)
            Sample.envLoggedOut (Sample.request None [("domain", "dub.sh")] "/api/links")
            ∅ Sample.db None eq_refl _ eq_refl eq_refl).
  vm_compute. reflexivity.
Defined.

(** C3 as the specification states it fails: Alice names a domain of
    another workspace, a custom domain that is not among the domains of
    her resolved workspace, but the request is answered by a check that
    comes before the domain check: by the beta-feature check on a beta
    route, and by the scope check when a restricted key without
    [domains.write] calls the primary-domain endpoint.  And a request
    whose domain parameter is empty (no dub domain, and no domain of
    [acme]) is not refused at all: it reaches the handler, with that
    domain. *)
Lemma domain_check_is_neither_first_nor_for_empty_domains :
  (exists c st,
     resolved Sample.ok Sample.betaOptions Sample.env (Sample.browserRequest "ws_p1")
       (Sample.named "solo.io") (initial Sample.db) = (inr c, st)
     /\ Js.whenTruthy (domain (c_pre c)) = Some "solo.io"
     /\ isDubDomain Sample.env "solo.io" = false
     /\ findDomain (c_workspace c) "solo.io" = None)
  /\ fst (withWorkspace Sample.ok Sample.betaOptions Sample.env
            (Sample.browserRequest "ws_p1") (Sample.named "solo.io") Sample.db)
     = ErrorResponse (DubApiError forbidden "Unauthorized: Beta feature.") []
  /\ fst (primary.POST Sample.env
            (Sample.request (Some "Bearer dub_r1") [] "/api/domains/solo.io/primary")
            (Some (Sample.named "solo.io")) Sample.db)
     = ErrorResponse (DubApiError forbidden "Missing required scopes.")
         [("Retry-After", "60"); ("X-RateLimit-Limit", "600");
          ("X-RateLimit-Remaining", "599"); ("X-RateLimit-Reset", "60")]
  /\ (exists args w,
        invocations
          (st_log (snd (withWorkspace Sample.ok primary.options Sample.env
                          (Sample.request None [("workspaceId", "ws_p1"); ("domain", "")]
                             "/api/domains")
                          ∅ Sample.db)))
        = [args]
        /\ a_domain args = Some "" /\ a_workspace args = Some w
        /\ isDubDomain Sample.env "" = false
        /\ findDomain w "" = None)
  /\ fst (withWorkspace Sample.ok primary.options Sample.env
            (Sample.request None [("workspaceId", "ws_p1"); ("domain", "")]
               "/api/domains")
            ∅ Sample.db)
     = JsonResponse JNull [].
Proof.
  split_and!; [|vm_compute; reflexivity|vm_compute; reflexivity| |vm_compute; reflexivity].
  - eexists _, _. split; [vm_compute; reflexivity|]. by vm_compute.
  - eexists _, _. split_and!; vm_compute; reflexivity.
Qed.

(** C2 as the specification states it fails: a restricted key whose
    scopes column is null has no scope at all, not the scopes of the role
    of its user.  Alice owns the workspace [acme], and the role of an
    owner grants "domains.write", but with the key [dub_n1] she is
    refused. *)
Lemma restricted_key_without_scopes_has_none :
  (exists c st u,
     resolved (primary.handler Sample.env) primary.options Sample.env
       (Sample.request (Some "Bearer dub_n1") [] "/api/domains/acme.link/primary")
       (Sample.named "acme.link") (initial Deployment.dbWithKeys) = (inr c, st)
     /\ c_token c = Some (RestrictedToken None None "p1" (Some Sample.aliceRow))
     /\ findScopes Sample.env (c_token c) (c_workspace c) = inr []
     /\ head (users (c_workspace c)) = Some u
     /\ throwIfNoAccess Sample.env (roleScopesMapping Sample.env (role u))
          (requiredScopes primary.options) (id (c_workspace c)) = None)
  /\ fst (primary.POST Sample.env
            (Sample.request (Some "Bearer dub_n1") [] "/api/domains/acme.link/primary")
            (Some (Sample.named "acme.link")) Deployment.dbWithKeys)
     = ErrorResponse (DubApiError forbidden "Missing required scopes.")
         [("Retry-After", "60"); ("X-RateLimit-Limit", "600");
          ("X-RateLimit-Remaining", "599"); ("X-RateLimit-Reset", "60")]
  /\ invocations
       (st_log (snd (primary.POST Sample.env
                       (Sample.request (Some "Bearer dub_n1") []
                          "/api/domains/acme.link/primary")
                       (Some (Sample.named "acme.link")) Deployment.dbWithKeys)))
     = [].
Proof.
  split_and!; [|vm_compute; reflexivity|vm_compute; reflexivity].
  eexists _, _, _. split_and!; vm_compute; reflexivity.
Qed.

(** C4 as the specification states it fails: the workspace [solo] has used
    101 clicks of 100 and the route is configured with
    [needNotExceededClicks], but the request names a domain of another
    workspace and is answered by the domain check, which comes first. *)
Lemma clicks_check_comes_after_domain_check :
  let cfg := Sample.withOptions true false false in
  needNotExceededClicks cfg = true
  /\ (exists c st,
        resolved Sample.ok cfg Sample.env (Sample.browserRequest "ws_p2")
          (Sample.named "acme.co") (initial Sample.db) = (inr c, st)
        /\ usage (c_workspace c) = 101 /\ usageLimit (c_workspace c) = 100
        /\ usage (c_workspace c) > usageLimit (c_workspace c))
  /\ fst (withWorkspace Sample.ok cfg Sample.env (Sample.browserRequest "ws_p2")
            (Sample.named "acme.co") Sample.db)
     = ErrorResponse (DubApiError forbidden "Domain does not belong to workspace.") [].
Proof.
  split_and!; [reflexivity| |vm_compute; reflexivity].
  eexists _, _. split; [vm_compute; reflexivity|]. by vm_compute.
Qed.

(** C6 as the specification states it fails: an [Authorization] header
    that is present with the empty value does not contain ["Bearer "],
    yet the request is treated as one without a header: the workspace is
    resolved for the browser session and the handler is called. *)
Lemma empty_authorization_header_is_ignored :
  let req := Sample.request (Some "") [("workspaceId", "ws_p1")] "/api/links" in
  let out := withWorkspace Sample.ok defaultConfig Sample.env req ∅ Sample.db in
  authorization req = Some ""
  /\ Js.includes "Bearer " "" = false
  /\ fst out = JsonResponse JNull []
  /\ (exists args,
        st_log (snd out)
        = [EGetSession; EProjectFindUnique (Some "p1") None "u1"; EHandler args]).
Proof.
  split_and!; [reflexivity|reflexivity|vm_compute; reflexivity|].
  eexists. vm_compute. reflexivity.
Qed.

(** C7 as the specification states it fails.  Without a workspace id or
    slug, a key that no token has and a missing browser session are both
    answered with the not_found error of the check that comes first, and
    on a route that allows anonymous requests the missing session reaches
    the handler.  And the id of a token's user is not tested: a user stored
    under the empty id reaches the handler with that id. *)
Lemma unauthorized_errors_need_a_workspace :
  let missing :=
    DubApiError not_found
      "Workspace id not found. Did you forget to include a `workspaceId` query parameter? Learn more: https://d.to/id" in
  findToken false (hashToken Sample.env "nope") Sample.db = None
  /\ fst (withWorkspace Sample.ok defaultConfig Sample.env
            (Sample.request (Some "Bearer nope") [] "/api/links") ∅ Sample.db)
     = ErrorResponse missing []
  /\ getSession Sample.envLoggedOut = None
  /\ fst (withWorkspace Sample.ok defaultConfig Sample.envLoggedOut
            (Sample.request None [] "/api/links") ∅ Sample.db)
     = ErrorResponse missing []
  /\ fst (withWorkspace Sample.ok (Sample.withOptions false false true)
            Sample.envLoggedOut (Sample.request None [] "/api/links") ∅ Sample.db)
     = JsonResponse JNull []
  /\ (exists args u,
        invocations
          (st_log (snd (withWorkspace Sample.ok defaultConfig Sample.env
                          (Sample.request (Some "Bearer blank")
                             [("workspaceId", "ws_p1")] "/api/links")
                          ∅ Sample.dbWithBlankUser)))
        = [args]
        /\ a_session args = Some {| user := Some u |} /\ su_id u = "").
Proof.
  split_and!; try (vm_compute; reflexivity).
  eexists _, _. split_and!; vm_compute; reflexivity.
Qed.

(* ===================================================================== *)
(** ** What a request that reaches the handler has passed *)
(* ===================================================================== *)

Section Passing.

Variable handler : Handler.
Variable cfg : Config.
Variable env : Env.
Variable req : Request.
Variable params : gmap string string.

Lemma checkScopes_pass c st c' st' :
  checkScopes cfg env c st = (inr c', st') ->
  st' = st /\
  exists scopes,
    findScopes env (c_token c) (c_workspace c) = inr scopes /\
    c' = set_scopes scopes c /\
    (skipScopeChecks cfg = false ->
     throwIfNoAccess env scopes (requiredScopes cfg) (id (c_workspace c)) = None).
Proof.
  unfold checkScopes. destruct (findScopes _ _ _) as [e|scopes]; intros H; run_in H.
  all: split; [done|]; exists scopes; split_and!; try done.
  intros Hs. by rewrite Hs in *.
Qed.

Lemma checkBeta_pass c st c' st' :
  checkBeta cfg env c st = (inr c', st') ->
  c' = c /\ st_db st' = st_db st /\ st_headers st' = st_headers st /\
  (betaFeature cfg = true -> isBetaTester env (id (c_workspace c)) = true).
Proof.
  unfold checkBeta. intros H. run_in H; split_and!; try done.
  intros _. by destruct (isBetaTester _ _).
Qed.

Lemma refetchLink_pass c st c' st' :
  refetchLink c st = (inr c', st') ->
  st_db st' = st_db st /\ st_headers st' = st_headers st /\
  c' = set_link
         match Js.whenTruthy (linkId (c_pre c)) with
         | Some l =>
             if Js.startsWith "ext_" l && negb (Js.is_Some_b (c_link c))
                && negb (Js.truthy (c_workspaceId c))
             then prisma.link_findUnique
                    (prisma.ByProjectExternal (id (c_workspace c))
                       (Js.replace "ext_" "" l)) (st_db st)
             else c_link c
         | None => c_link c
         end c.
Proof.
  unfold refetchLink. intros H.
  destruct (Js.whenTruthy _) as [l|]; [destruct (_ && _)|]; run_in H;
    split_and!; try done.
  all: match goal with |- ?x = set_link _ ?x => by destruct x end.
Qed.

Lemma checkDomain_pass c st c' st' :
  checkDomain cfg env c st = (inr c', st') ->
  c' = c /\ st' = st /\
  forall d, Js.whenTruthy (domain (c_pre c)) = Some d ->
    if isDubDomain env d
    then domainChecks cfg = true -> id (c_workspace c) = DUB_WORKSPACE_ID env
    else exists x, findDomain (c_workspace c) d = Some x.
Proof.
  unfold checkDomain. intros H.
  destruct (Js.whenTruthy _) as [d|]; [|run_in H; by split_and!].
  destruct (isDubDomain env d) eqn:Hdub.
  - destruct (domainChecks cfg) eqn:Hc; simpl in H.
    + destruct (String.eqb_spec (id (c_workspace c)) (DUB_WORKSPACE_ID env));
        simpl in H; run_in H.
      split_and!; try done. intros ? [= <-]. by rewrite Hdub.
    + run_in H. split_and!; try done. intros ? [= <-]. by rewrite Hdub.
  - destruct (findDomain _ _) as [x|] eqn:Hf; simpl in H; run_in H.
    split_and!; try done. intros ? [= <-]. rewrite Hdub. eauto.
Qed.

Lemma checkInvite_pass c st c' st' :
  checkInvite env c st = (inr c', st') -> c' = c /\ st' = st.
Proof. unfold checkInvite. intros H. by run_in H. Qed.

Lemma checkClicks_pass c st c' st' :
  checkClicks cfg env c st = (inr c', st') ->
  c' = c /\ st' = st /\
  (needNotExceededClicks cfg = true ->
   usage (c_workspace c) <= usageLimit (c_workspace c)).
Proof.
  unfold checkClicks. intros H.
  destruct (needNotExceededClicks cfg); simpl in H;
    [destruct (Z.gtb_spec (usage (c_workspace c)) (usageLimit (c_workspace c)))|];
    run_in H; by split_and!.
Qed.

Lemma checkLinks_pass c st c' st' :
  checkLinks cfg env c st = (inr c', st') ->
  c' = c /\ st' = st /\
  (needNotExceededLinks cfg = true ->
   plan (c_workspace c) = "free" \/ plan (c_workspace c) = "pro" ->
   linksUsage (c_workspace c) <= linksLimit (c_workspace c)).
Proof.
  unfold checkLinks. intros H.
  destruct (needNotExceededLinks cfg); simpl in H; [|run_in H; by split_and!].
  destruct (Z.gtb_spec (linksUsage (c_workspace c)) (linksLimit (c_workspace c)));
    simpl in H; [|run_in H; by split_and!].
  destruct (String.eqb_spec (plan (c_workspace c)) "free"); simpl in H; [run_in H|].
  destruct (String.eqb_spec (plan (c_workspace c)) "pro"); simpl in H; run_in H.
  split_and!; try done. by intros _ [?|?].
Qed.

Lemma includes_plan (p : string) (l : list string) :
  existsb (String.eqb p) l = true <-> p ∈ l.
Proof.
  rewrite existsb_exists. split.
  - intros (x & Hin & Heq). apply String.eqb_eq in Heq. subst.
    by apply list_elem_of_In.
  - intros Hin. exists p. split; [by apply list_elem_of_In|apply String.eqb_refl].
Qed.

Lemma checkPlan_pass c st c' st' :
  checkPlan cfg c st = (inr c', st') ->
  c' = c /\ st' = st /\ plan (c_workspace c) ∈ requiredPlan cfg.
Proof.
  unfold checkPlan. intros H.
  destruct (existsb _ _) eqn:E; simpl in H; run_in H.
  split_and!; try done. by apply includes_plan.
Qed.

Lemma checkAnalytics_pass c st c' st' :
  checkAnalytics req c st = (inr c', st') ->
  c' = c /\ st' = st /\
  (plan (c_workspace c) = "free" -> Js.truthy (apiKey (c_pre c)) = true ->
   Js.includes "/analytics" (pathname req) = false).
Proof.
  unfold checkAnalytics. intros H.
  destruct (String.eqb_spec (plan (c_workspace c)) "free"); simpl in H;
    [|run_in H; by split_and!].
  destruct (Js.truthy (apiKey (c_pre c))); simpl in H; [|run_in H; by split_and!].
  destruct (Js.includes _ _); simpl in H; run_in H. by split_and!.
Qed.

Lemma checkLink_pass c st c' st' :
  checkLink cfg c st = (inr c', st') ->
  c' = c /\ st' = st /\
  (linkRequired cfg (c_pre c) = true ->
   exists l, c_link c = Some l /\ l_projectId l = Some (id (c_workspace c))).
Proof.
  unfold checkLink, linkRequired. intros H.
  destruct (_ && negb (skipLinkChecks cfg)); simpl in H; [|run_in H; by split_and!].
  destruct (c_link c) as [l|]; [|run_in H].
  destruct (l_projectId l) as [p|] eqn:Hp; simpl in H; [|run_in H].
  destruct (String.eqb_spec p (id (c_workspace c))); simpl in H; run_in H.
  split_and!; try done. intros _. exists l. by subst.
Qed.

End Passing.

Section Resolution.

Variable handler : Handler.
Variable cfg : Config.
Variable env : Env.
Variable req : Request.
Variable params : gmap string string.

Lemma authenticate_result pre workspaceId st session token workspaceId' st' :
  authenticate env pre workspaceId st = (inr (session, token, workspaceId'), st') ->
  sameButLastUsed (st_db st) (st_db st') /\
  match Js.whenTruthy (apiKey pre) with
  | Some k =>
      workspaceId' =
        (if isRestrictedToken pre then
           match token with
           | Some (RestrictedToken _ _ projectId _) => Some projectId
           | _ => None
           end
         else workspaceId) /\
      st_headers st' = headersAfter env pre (st_db st)
  | None => workspaceId' = workspaceId /\ st_headers st' = st_headers st
  end.
Proof.
  unfold authenticate, headersAfter. intros H.
  destruct (Js.whenTruthy (apiKey pre)) as [k|]; run_in H; split;
    try (simpl; first [apply sameButLastUsed_refl|apply updateLastUsed_same]).
  all: simpl; rewrite ?Heqo, ?Heqo0; try done.
  all: match goal with t : Token |- _ => by destruct (isRestrictedToken pre), t end.
Qed.

Lemma fetch_result pre session workspaceId workspaceSlug st f st' :
  fetch pre session workspaceId workspaceSlug st = (inr f, st') ->
  st_db st' = st_db st /\ st_headers st' = st_headers st /\
  snd f = linkQuery pre workspaceId ≫= fun q => prisma.link_findUnique q (st_db st).
Proof.
  unfold fetch. intros H. run_in H; by split_and!.
Qed.

(** What lines 88-307 leave in the context and in the headers. *)
Lemma resolved_facts db c st :
  resolved handler cfg env req params (initial db) = (inr c, st) ->
  c_workspaceId c = lookupId (c_pre c) (c_token c) /\
  c_link c
  = (linkQuery (c_pre c) (c_workspaceId c) ≫= fun q => prisma.link_findUnique q db) /\
  c_scopes c = [] /\
  st_headers st = headersAfter env (c_pre c) db.
Proof.
  intros H. pose proof (resolved_spec _ _ _ _ _ _ _ _ H) as (_ & _ & Hest).
  unfold resolved in H.
  destruct (preamble req params) as [e|pre] eqn:Hpre; [by run_in H|].
  simpl in H. unfold liftExn in H. rewrite (bind_ok _ _ _ pre (initial db)) in H by done.
  destruct (bind_inv _ _ _ _ _ H) as [(ex & _ & [=])|([] & st1 & Hg & H1)].
  apply requireWorkspace_cases in Hg as [(_ & -> & _)|[(e & [=] & _)|(_&_&_&_&_&_&[=])]].
  clear H.
  destruct (bind_inv _ _ _ _ _ H1)
    as [(ex & _ & [=])|([[session token] wid] & st2 & Ha & H2)].
  clear H1. apply authenticate_result in Ha as (Hdb & Ha). simpl in Hdb, Ha.
  destruct (bind_inv _ _ _ _ _ H2) as [(ex & _ & [=])|(f & st3 & Hf & H3)].
  clear H2. apply fetch_result in Hf as (Hdb' & Hh & Hf).
  simpl in Hdb, Hf.
  assert (Hlinks : forall q, prisma.link_findUnique q (st_db st2)
                             = prisma.link_findUnique q db)
    by (intros q; by apply link_findUnique_same).
  replace (linkQuery pre wid ≫= fun q => prisma.link_findUnique q (st_db st2))
    with (linkQuery pre wid ≫= fun q => prisma.link_findUnique q db) in Hf
    by (destruct (linkQuery pre wid); simpl; by rewrite ?Hlinks).
  run_in H3. simpl. split_and!; try done.
  - unfold lookupId. destruct (Js.whenTruthy (apiKey pre)) as [k|] eqn:Hk.
    + by destruct Ha as [-> _].
    + destruct Ha as [-> _]. destruct (isRestrictedToken pre) eqn:Hr; [|done].
      pose proof (restricted_has_key _ _ _ Hpre Hr) as Ht.
      destruct (apiKey pre) as [k|]; [|done]. simpl in Hk, Ht.
      by destruct (String.eqb k "").
  - rewrite Hh. unfold headersAfter in *.
    destruct (Js.whenTruthy (apiKey pre)); by destruct Ha as [_ ->].
Qed.

End Resolution.

(** Splits a run that passed into the run before the last check and that
    check. *)
Ltac peel H c s Hm Hf :=
  let x := fresh in
  destruct (bind_inv _ _ _ _ _ H) as [(x & _ & [=])|(c & s & Hm & Hf)]; clear H.

Lemma linkChecked_passed (handler : Handler) (cfg : Config) (env : Env)
    (req : Request) (params : gmap string string) (db : Db) (c : Ctx) (st : St) :
  linkChecked handler cfg env req params (initial db) = (inr c, st) ->
  Passed cfg env req db c /\
  c_workspaceId c = lookupId (c_pre c) (c_token c) /\
  st_headers st = headersAfter env (c_pre c) db.
Proof.
  intros H. unfold linkChecked in H. peel H c9 s9 H9 K9.
  unfold analyticsChecked in H9. peel H9 c8 s8 H8 K8.
  unfold planChecked in H8. peel H8 c7 s7 H7 K7.
  unfold linksChecked in H7. peel H7 c6 s6 H6 K6.
  unfold clicksChecked in H6. peel H6 c5 s5 H5 K5.
  unfold inviteChecked in H5. peel H5 c4 s4 H4 K4.
  unfold domainChecked in H4. peel H4 c3 s3 H3 K3.
  unfold linkRefetched in H3. peel H3 c2 s2 H2 K2.
  pose proof (betaChecked_spec _ _ _ _ _ _ _ _ H2) as (Hdb2 & _ & _).
  unfold betaChecked in H2. peel H2 c1 s1 H1 K1.
  unfold scopesChecked in H1. peel H1 c0 s0 H0 K0.
  apply resolved_facts in H0 as (Hid & Hlink & _ & Hh).
  apply checkScopes_pass in K0 as (-> & scopes & Hscopes & -> & Hgrant).
  apply checkBeta_pass in K1 as (-> & _ & Hh1 & Hbeta).
  apply refetchLink_pass in K2 as (_ & Hh2 & ->).
  apply checkDomain_pass in K3 as (-> & -> & Hdomain).
  apply checkInvite_pass in K4 as (-> & ->).
  apply checkClicks_pass in K5 as (-> & -> & Hclicks).
  apply checkLinks_pass in K6 as (-> & -> & Hlinks).
  apply checkPlan_pass in K7 as (-> & -> & Hplan).
  apply checkAnalytics_pass in K8 as (-> & -> & Hanalytics).
  apply checkLink_pass in K9 as (-> & -> & Hlink').
  simpl in *. split_and!; [split| |]; simpl; try done.
  - unfold linkAfterRefetch. destruct (same_tables _ _ Hdb2) as (_ & _ & _ & Hl & _).
    rewrite <- Hlink. unfold prisma.link_findUnique. by rewrite Hl.
  - congruence.
Qed.

(** A call of the handler with a workspace is the call after the checks. *)
Lemma authorised_call (handler : Handler) (cfg : Config) (env : Env)
    (req : Request) (params : gmap string string) (db : Db)
    (args : HandlerArgs) (w : Workspace) :
  args ∈ invocations (st_log (snd (withWorkspace handler cfg env req params db))) ->
  a_workspace args = Some w ->
  exists c st,
    linkChecked handler cfg env req params (initial db) = (inr c, st) /\
    Established env req params db c /\
    args = fullArgs req params c (st_headers st) /\
    w = c_workspace c.
Proof.
  intros Hin Hw.
  destruct (withWorkspace_invocations handler cfg env req params db)
    as [(Hlog & _)|[Hlog|(c & st & Hc & Hest & Hlog)]];
    simpl in Hlog; rewrite Hlog in Hin.
  - by apply elem_of_nil in Hin.
  - apply list_elem_of_singleton in Hin. by subst.
  - apply list_elem_of_singleton in Hin. subst args. simpl in Hw.
    exists c, st. split_and!; congruence.
Qed.

(** What [prisma.project.findUnique] returns is a project of the
    database that matches the filters, with the rows that belong to it. *)
Lemma project_found (workspaceId workspaceSlug : Js.Str) (userId : string) (db : Db)
    (w : Workspace) :
  prisma.project_findUnique workspaceId workspaceSlug userId db = inr (Some w) ->
  exists p,
    p ∈ projects db /\ w = prisma.mkWorkspace userId db p /\
    prisma.matches (Js.orUndefined workspaceId) (p_id p) = true /\
    prisma.matches (Js.orUndefined workspaceSlug) (p_slug p) = true.
Proof.
  unfold prisma.project_findUnique. intros H.
  assert (Hf :
    prisma.mkWorkspace userId db <$>
      List.find (fun p => prisma.matches (Js.orUndefined workspaceId) (p_id p)
                          && prisma.matches (Js.orUndefined workspaceSlug) (p_slug p))
                (projects db) = Some w).
  { by destruct (Js.orUndefined workspaceId), (Js.orUndefined workspaceSlug);
      simplify_eq. }
  apply fmap_Some in Hf as (p & Hfind & ->).
  apply find_some in Hfind as [Hin Hm]. apply andb_prop in Hm as [? ?].
  exists p. split_and!; try done. by apply list_elem_of_In.
Qed.

(* ===================================================================== *)
(** ** Further properties of the middleware *)
(* ===================================================================== *)

(** X1 (lines 427-433): the handler is called for a workspace only when the
    plan of the workspace is one of the route's [requiredPlan]; a request
    that reaches the plan check on another plan is answered with the
    forbidden error "Unauthorized: Need higher plan." and the handler is
    not called. *)
Theorem plan_check (handler : Handler) (cfg : Config) (env : Env)
    (req : Request) (params : gmap string string) (db : Db) :
  (forall args w,
     args ∈ invocations (st_log (snd (withWorkspace handler cfg env req params db))) ->
     a_workspace args = Some w ->
     plan w ∈ requiredPlan cfg)
  /\ (forall c st,
        linksChecked handler cfg env req params (initial db) = (inr c, st) ->
        plan (c_workspace c) ∉ requiredPlan cfg ->
        withWorkspace handler cfg env req params db
        = (ErrorResponse (DubApiError forbidden "Unauthorized: Need higher plan.")
             (st_headers st), st)
        /\ invocations (st_log st) = []).
Proof.
  split.
  - intros args w Hin Hw.
    destruct (authorised_call _ _ _ _ _ _ _ _ Hin Hw) as (c & st & Hc & _ & _ & ->).
    destruct (linkChecked_passed _ _ _ _ _ _ _ _ Hc) as (Hp & _). apply Hp.
  - intros c st Hc Hplan.
    eapply rejected_by; [apply leaves_planChecked|apply linksChecked_spec|done|].
    unfold checkPlan. destruct (existsb _ _) eqn:E; [|done].
    by apply includes_plan in E.
Qed.

(** X2 (lines 435-446): the analytics API is closed to API keys of
    workspaces on the free plan.  When a request carries an API key and
    its path contains "/analytics", the handler is never called for a
    workspace on the free plan; such a request that reaches the check is
    answered with the forbidden error "Analytics API is only available on
    paid plans.". *)
Theorem analytics_check (handler : Handler) (cfg : Config) (env : Env)
    (req : Request) (params : gmap string string) (db : Db) :
  (forall pre args w,
     preamble req params = inr pre ->
     Js.truthy (apiKey pre) = true ->
     Js.includes "/analytics" (pathname req) = true ->
     args ∈ invocations (st_log (snd (withWorkspace handler cfg env req params db))) ->
     a_workspace args = Some w ->
     plan w <> "free")
  /\ (forall c st,
        planChecked handler cfg env req params (initial db) = (inr c, st) ->
        plan (c_workspace c) = "free" ->
        Js.truthy (apiKey (c_pre c)) = true ->
        Js.includes "/analytics" (pathname req) = true ->
        withWorkspace handler cfg env req params db
        = (ErrorResponse
             (DubApiError forbidden "Analytics API is only available on paid plans.")
             (st_headers st), st)
        /\ invocations (st_log st) = []).
Proof.
  split.
  - intros pre args w Hpre Hkey Hpath Hin Hw Hfree.
    destruct (authorised_call _ _ _ _ _ _ _ _ Hin Hw) as (c & st & Hc & Hest & _ & ->).
    destruct (linkChecked_passed _ _ _ _ _ _ _ _ Hc) as (Hp & _).
    pose proof (est_pre _ _ _ _ _ Hest) as Hpre'. rewrite Hpre in Hpre'.
    injection Hpre' as ->.
    by rewrite (passed_analytics _ _ _ _ _ Hp Hfree Hkey) in Hpath.
  - intros c st Hc Hfree Hkey Hpath.
    eapply rejected_by; [apply leaves_analyticsChecked|apply planChecked_spec|done|].
    unfold checkAnalytics. by rewrite Hfree, Hkey, Hpath.
Qed.

(** X3 (lines 448-457): when the request names a link (a link id, or a
    domain and a key other than "_root") and the route does not skip the
    link checks, the handler is only called with a link, and that link
    belongs to the workspace it is called with; a request that reaches the
    check without such a link is answered with the not_found error "Link
    not found.". *)
Theorem link_check (handler : Handler) (cfg : Config) (env : Env)
    (req : Request) (params : gmap string string) (db : Db) :
  (forall pre args w,
     preamble req params = inr pre ->
     linkRequired cfg pre = true ->
     args ∈ invocations (st_log (snd (withWorkspace handler cfg env req params db))) ->
     a_workspace args = Some w ->
     exists l, a_link args = Some l /\ l_projectId l = Some (id w))
  /\ (forall c st,
        analyticsChecked handler cfg env req params (initial db) = (inr c, st) ->
        linkRequired cfg (c_pre c) = true ->
        (forall l, c_link c = Some l -> l_projectId l <> Some (id (c_workspace c))) ->
        withWorkspace handler cfg env req params db
        = (ErrorResponse (DubApiError not_found "Link not found.") (st_headers st), st)
        /\ invocations (st_log st) = []).
Proof.
  split.
  - intros pre args w Hpre Hreq Hin Hw.
    destruct (authorised_call _ _ _ _ _ _ _ _ Hin Hw) as (c & st & Hc & Hest & -> & ->).
    destruct (linkChecked_passed _ _ _ _ _ _ _ _ Hc) as (Hp & _).
    pose proof (est_pre _ _ _ _ _ Hest) as Hpre'. rewrite Hpre in Hpre'.
    injection Hpre' as ->. simpl. by apply Hp.
  - intros c st Hc Hreq Hnone.
    eapply rejected_by; [apply leaves_linkChecked|apply analyticsChecked_spec|done|].
    unfold checkLink. unfold linkRequired in Hreq. rewrite Hreq.
    destruct (c_link c) as [l|]; [|done]. specialize (Hnone l eq_refl).
    destruct (l_projectId l) as [p|]; [|done]. simpl.
    destruct (String.eqb_spec p (id (c_workspace c))); [by subst|done].
Qed.

(** X4 (lines 325-334): on a route marked [betaFeature] the handler is
    only called for workspaces that [isBetaTester] accepts; a request that
    reaches the check for another workspace is answered with the forbidden
    error "Unauthorized: Beta feature.", after that one lookup and without
    the handler being called. *)
Theorem beta_check (handler : Handler) (cfg : Config) (env : Env)
    (req : Request) (params : gmap string string) (db : Db) :
  betaFeature cfg = true ->
  (forall args w,
     args ∈ invocations (st_log (snd (withWorkspace handler cfg env req params db))) ->
     a_workspace args = Some w ->
     isBetaTester env (id w) = true)
  /\ (forall c st,
        scopesChecked handler cfg env req params (initial db) = (inr c, st) ->
        isBetaTester env (id (c_workspace c)) = false ->
        withWorkspace handler cfg env req params db
        = (ErrorResponse (DubApiError forbidden "Unauthorized: Beta feature.")
             (st_headers st),
           {| st_db := st_db st; st_headers := st_headers st;
              st_log := st_log st ++ [EIsBetaTester (id (c_workspace c))] |})
        /\ invocations (st_log st) = []).
Proof.
  intros Hbeta. split.
  - intros args w Hin Hw.
    destruct (authorised_call _ _ _ _ _ _ _ _ Hin Hw) as (c & st & Hc & _ & _ & ->).
    destruct (linkChecked_passed _ _ _ _ _ _ _ _ Hc) as (Hp & _). by apply Hp.
  - intros c st Hc Hno. split.
    + apply (leaves_betaChecked handler cfg env req params db (Throw _)
               {| st_db := st_db st; st_headers := st_headers st;
                  st_log := st_log st ++ [EIsBetaTester (id (c_workspace c))] |}).
      unfold betaChecked. rewrite (bind_ok _ _ _ _ _ Hc).
      unfold checkBeta. rewrite Hbeta. unfold bind, emit. simpl. by rewrite Hno.
    + by destruct (scopesChecked_spec _ _ _ _ _ _ _ _ Hc) as (_ & ? & _).
Qed.

(** X5 (lines 399-425, 459-469): the handler is called for a workspace
    only within the limits the route asks for: with
    [needNotExceededClicks] the usage is at most the usage limit, and with
    [needNotExceededLinks] the links usage of a workspace on the free or
    pro plan is at most its links limit. *)
Theorem handler_called_within_limits (handler : Handler) (cfg : Config) (env : Env)
    (req : Request) (params : gmap string string) (db : Db)
    (args : HandlerArgs) (w : Workspace) :
  args ∈ invocations (st_log (snd (withWorkspace handler cfg env req params db))) ->
  a_workspace args = Some w ->
  (needNotExceededClicks cfg = true -> usage w <= usageLimit w)
  /\ (needNotExceededLinks cfg = true -> plan w = "free" \/ plan w = "pro" ->
      linksUsage w <= linksLimit w).
Proof.
  intros Hin Hw.
  destruct (authorised_call _ _ _ _ _ _ _ _ Hin Hw) as (c & st & Hc & _ & _ & ->).
  destruct (linkChecked_passed _ _ _ _ _ _ _ _ Hc) as (Hp & _).
  split; apply Hp.
Qed.

(** X6 (lines 309-323, 459-469): the scopes that the handler receives are
    scopes that [throwIfNoAccess] has accepted for the required scopes of
    the route and the workspace of the call, unless the route skips the
    scope checks. *)
Theorem handler_called_with_granted_scopes (handler : Handler) (cfg : Config)
    (env : Env) (req : Request) (params : gmap string string) (db : Db)
    (args : HandlerArgs) (w : Workspace) :
  args ∈ invocations (st_log (snd (withWorkspace handler cfg env req params db))) ->
  a_workspace args = Some w ->
  exists scopes,
    a_scopes args = Some scopes /\
    (skipScopeChecks cfg = false ->
     throwIfNoAccess env scopes (requiredScopes cfg) (id w) = None).
Proof.
  intros Hin Hw.
  destruct (authorised_call _ _ _ _ _ _ _ _ Hin Hw) as (c & st & Hc & _ & -> & ->).
  destruct (linkChecked_passed _ _ _ _ _ _ _ _ Hc) as (Hp & _).
  exists (c_scopes c). split; [done|]. apply Hp.
Qed.

(** *** The workspace of a call is a stored one *)

(** The workspace of an established context is a row of [project], found
    under the id and the slug of the lookup, and [projectUsers] lists the
    caller for it. *)
Lemma established_stored (env : Env) (req : Request) (params : gmap string string)
    (db : Db) (c : Ctx) :
  Established env req params db c ->
  exists u p r,
    user (c_session c) = Some u /\
    p ∈ projects db /\
    c_workspace c = prisma.mkWorkspace (su_id u) db p /\
    prisma.matches (Js.orUndefined (c_workspaceId c)) (p_id p) = true /\
    prisma.matches (Js.orUndefined (snd (workspaceRef (c_pre c)))) (p_slug p) = true /\
    r ∈ projectUsers db /\ pu_projectId r = p_id p /\ pu_userId r = su_id u.
Proof.
  intros [_ _ _ (u & Hu & Hw) Hmem].
  apply project_found in Hw as (p & Hp & Hw & Hid & Hslug).
  rewrite Hw in Hmem. simpl in Hmem.
  destruct (List.filter _ (projectUsers db)) as [|r l] eqn:Hf; [done|].
  assert (Hr : In r (List.filter
                       (fun r => String.eqb (pu_projectId r) (p_id p)
                                 && String.eqb (pu_userId r) (su_id u))
                       (projectUsers db))) by (rewrite Hf; by left).
  apply filter_In in Hr as [Hr Hb]. apply andb_true_iff in Hb as [Hb1 Hb2].
  exists u, p, r. split_and!; try done.
  - by apply list_elem_of_In.
  - by apply String.eqb_eq.
  - by apply String.eqb_eq.
Qed.

(** A domain of a workspace as the lookup returns it is a row of [domain]
    of that workspace. *)
Lemma findDomain_stored (userId : string) (db : Db) (p : ProjectRow) (d : string)
    (x : WorkspaceDomain) :
  findDomain (prisma.mkWorkspace userId db p) d = Some x ->
  exists r, r ∈ domainRows db /\ d_slug r = d /\ d_projectId r = p_id p /\
            d_id r = wd_id x /\ d_primary r = wd_primary x.
Proof.
  unfold findDomain. simpl. intros H. apply find_some in H as [Hin Hs].
  apply list_elem_of_In, list_elem_of_fmap in Hin as (r & -> & Hr).
  apply list_elem_of_In, filter_In in Hr as [Hr Hp]. simpl in Hs.
  exists r. split_and!; try done.
  - by apply list_elem_of_In.
  - by apply String.eqb_eq.
  - by apply String.eqb_eq.
Qed.

(** X7 (lines 252-307, 459-469): the handler is called only for a member
    of a stored workspace.  The workspace it receives is a row of
    [project] as the lookup of line 253 renders it for the user of the
    session it receives, and [projectUsers] holds a row for that user and
    that workspace. *)
Theorem handler_called_for_member (handler : Handler) (cfg : Config) (env : Env)
    (req : Request) (params : gmap string string) (db : Db)
    (args : HandlerArgs) (w : Workspace) :
  args ∈ invocations (st_log (snd (withWorkspace handler cfg env req params db))) ->
  a_workspace args = Some w ->
  exists u p r,
    a_session args ≫= user = Some u /\
    p ∈ projects db /\ w = prisma.mkWorkspace (su_id u) db p /\
    r ∈ projectUsers db /\ pu_projectId r = id w /\ pu_userId r = su_id u.
Proof.
  intros Hin Hw.
  destruct (authorised_call _ _ _ _ _ _ _ _ Hin Hw) as (c & st & _ & Hest & -> & ->).
  destruct (established_stored _ _ _ _ _ Hest)
    as (u & p & r & Hu & Hp & Hwp & _ & _ & Hr & Hrp & Hru).
  exists u, p, r. split_and!; try done. by rewrite Hwp.
Qed.

(** The key behind [isRestrictedToken]. *)
Lemma restricted_key (req : Request) (params : gmap string string) (pre : Pre) :
  preamble req params = inr pre -> isRestrictedToken pre = true ->
  exists k, apiKey pre = Some k /\ Js.startsWith "dub_" k = true /\
            Js.whenTruthy (apiKey pre) = Some k.
Proof.
  unfold preamble. intros H Hr. destruct (extractApiKey _) as [|[k|]]; simplify_eq.
  exists k. split_and!; try done. by destruct k.
Qed.

(** X8 (lines 114, 174-175, 208-211, 253-256): a restricted key (one that
    starts with "dub_") reaches the handler only for the workspace that
    its row of [restrictedToken] names in [projectId], whatever workspace
    id the request names. *)
Theorem restricted_key_is_bound_to_its_workspace (handler : Handler) (cfg : Config)
    (env : Env) (req : Request) (params : gmap string string) (db : Db)
    (pre : Pre) (args : HandlerArgs) (w : Workspace) :
  preamble req params = inr pre ->
  isRestrictedToken pre = true ->
  args ∈ invocations (st_log (snd (withWorkspace handler cfg env req params db))) ->
  a_workspace args = Some w ->
  exists k r,
    apiKey pre = Some k /\ Js.startsWith "dub_" k = true /\
    r ∈ restrictedTokens db /\ rt_hashedKey r = hashToken env k /\
    (rt_projectId r <> "" -> id w = rt_projectId r).
Proof.
  intros Hpre Hrestricted Hin Hw.
  destruct (authorised_call _ _ _ _ _ _ _ _ Hin Hw) as (c & st & Hc & Hest & -> & ->).
  destruct (linkChecked_passed _ _ _ _ _ _ _ _ Hc) as (_ & Hid & _).
  destruct (established_stored _ _ _ _ _ Hest)
    as (u & p & _ & _ & _ & Hwp & Hmatch & _).
  pose proof (est_pre _ _ _ _ _ Hest) as Hpre'. rewrite Hpre in Hpre'.
  injection Hpre' as ->.
  pose proof (est_auth _ _ _ _ _ Hest) as Hauth. unfold authenticated in Hauth.
  destruct (restricted_key _ _ _ Hpre Hrestricted) as (k & Hk & Hdub & Hwhen).
  rewrite Hwhen in Hauth.
  destruct Hauth as (t & tu & Hfind & _ & Htoken & _).
  rewrite Hrestricted in Hfind. unfold findToken, prisma.restrictedToken_findUnique in Hfind.
  apply fmap_Some in Hfind as (r & Hfind & ->).
  apply find_some in Hfind as [Hr Hh].
  exists k, r. split_and!; try done.
  - by apply list_elem_of_In.
  - by apply String.eqb_eq.
  - intros Hne. unfold lookupId in Hid. rewrite Hrestricted, Htoken in Hid. simpl in Hid.
    rewrite Hid in Hmatch. unfold Js.orUndefined, Js.truthy in Hmatch.
    destruct (String.eqb_spec (rt_projectId r) ""); [done|]. simpl in Hmatch.
    rewrite Hwp. simpl. by apply String.eqb_eq.
Qed.

(** X9 (lines 143-149, 253-256): with any other credential the handler is
    called for the workspace that the request names: the one whose id
    follows "ws_" when the name starts with "ws_", and the one with that
    slug otherwise. *)
Theorem handler_called_for_named_workspace (handler : Handler) (cfg : Config)
    (env : Env) (req : Request) (params : gmap string string) (db : Db)
    (pre : Pre) (args : HandlerArgs) (w : Workspace) :
  preamble req params = inr pre ->
  isRestrictedToken pre = false ->
  args ∈ invocations (st_log (snd (withWorkspace handler cfg env req params db))) ->
  a_workspace args = Some w ->
  exists s,
    idOrSlug pre = Some s /\ s <> "" /\
    if Js.startsWith "ws_" s then id w = Js.replace "ws_" "" s else slug w = s.
Proof.
  intros Hpre Hrestricted Hin Hw.
  destruct (authorised_call _ _ _ _ _ _ _ _ Hin Hw) as (c & st & Hc & Hest & -> & ->).
  destruct (linkChecked_passed _ _ _ _ _ _ _ _ Hc) as (_ & Hid & _).
  destruct (established_stored _ _ _ _ _ Hest)
    as (u & p & _ & _ & _ & Hwp & Hmid & Hmslug & _).
  pose proof (est_pre _ _ _ _ _ Hest) as Hpre'. rewrite Hpre in Hpre'.
  injection Hpre' as ->.
  destruct (est_named _ _ _ _ _ Hest) as [Hnamed|Hr]; [|congruence].
  pose proof (est_workspace _ _ _ _ _ Hest) as (u' & _ & Hfound).
  unfold lookupId in Hid. rewrite Hrestricted in Hid. rewrite Hid in Hmid, Hfound.
  unfold workspaceRef, Js.whenTruthy, Js.truthy in *.
  destruct (idOrSlug (c_pre c)) as [s|]; [|done].
  destruct (String.eqb_spec s "") as [|Hs]; [done|]. exists s. split_and!; try done.
  destruct (Js.startsWith "ws_" s); cbn [fst snd] in *.
  - unfold prisma.project_findUnique, Js.orUndefined, Js.truthy in Hfound, Hmid.
    destruct (String.eqb_spec (Js.replace "ws_" "" s) ""); cbn [negb] in *; [done|].
    rewrite Hwp. cbn [id prisma.mkWorkspace]. by apply String.eqb_eq.
  - unfold Js.orUndefined, Js.truthy in Hmslug.
    destruct (String.eqb_spec s ""); [done|]. cbn [negb] in Hmslug.
    rewrite Hwp. cbn [slug prisma.mkWorkspace]. by apply String.eqb_eq.
Qed.

(** X10 (lines 349-366, 459-469): a domain that the handler receives
    belongs to the workspace it receives.  A custom domain is the slug of
    a row of [domain] of that workspace; for a dub domain on a route with
    [domainChecks] the workspace is the dub workspace. *)
Theorem handler_called_with_own_domain (handler : Handler) (cfg : Config)
    (env : Env) (req : Request) (params : gmap string string) (db : Db)
    (args : HandlerArgs) (w : Workspace) (d : string) :
  args ∈ invocations (st_log (snd (withWorkspace handler cfg env req params db))) ->
  a_workspace args = Some w ->
  a_domain args = Some d -> d <> "" ->
  if isDubDomain env d
  then domainChecks cfg = true -> id w = DUB_WORKSPACE_ID env
  else exists r, r ∈ domainRows db /\ d_slug r = d /\ d_projectId r = id w.
Proof.
  intros Hin Hw Hd Hne.
  destruct (authorised_call _ _ _ _ _ _ _ _ Hin Hw) as (c & st & Hc & Hest & -> & ->).
  destruct (linkChecked_passed _ _ _ _ _ _ _ _ Hc) as (Hp & _).
  simpl in Hd. pose proof (passed_domain _ _ _ _ _ Hp d) as Hdom.
  rewrite Hd in Hdom. simpl in Hdom.
  destruct (String.eqb_spec d ""); [done|]. specialize (Hdom eq_refl).
  destruct (isDubDomain env d); [done|]. destruct Hdom as (x & Hx).
  destruct (established_stored _ _ _ _ _ Hest) as (u & p & _ & _ & _ & Hwp & _).
  rewrite Hwp in Hx. apply findDomain_stored in Hx as (r & Hr & Hs & Hpid & _).
  exists r. by rewrite Hwp.
Qed.

(** X11 (lines 276-298, 336-347, 459-469): a link that the handler
    receives is the stored link that the request names: the link with the
    id [linkId], or, for a [linkId] that starts with "ext_", the link of
    the workspace of the call with that external id, or, without a
    [linkId], the link with the domain and the key of the request.  An
    external id is never resolved in another workspace. *)
Theorem handler_called_with_named_link (handler : Handler) (cfg : Config)
    (env : Env) (req : Request) (params : gmap string string) (db : Db)
    (pre : Pre) (args : HandlerArgs) (w : Workspace) (l : LinkRow) :
  preamble req params = inr pre ->
  args ∈ invocations (st_log (snd (withWorkspace handler cfg env req params db))) ->
  a_workspace args = Some w ->
  a_link args = Some l ->
  l ∈ links db /\
  match Js.whenTruthy (linkId pre) with
  | Some i =>
      l_id l = i \/
      (Js.startsWith "ext_" i = true /\
       l_projectId l = Some (id w) /\ l_externalId l = Some (Js.replace "ext_" "" i))
  | None =>
      exists d k,
        Js.whenTruthy (domain pre) = Some d /\ Js.whenTruthy (key pre) = Some k /\
        l_domain l = d /\ l_key l = k
  end.
Proof.
  intros Hpre Hin Hw Hl.
  destruct (authorised_call _ _ _ _ _ _ _ _ Hin Hw) as (c & st & Hc & Hest & -> & ->).
  destruct (linkChecked_passed _ _ _ _ _ _ _ _ Hc) as (Hp & _).
  destruct (established_stored _ _ _ _ _ Hest)
    as (u & p & _ & _ & _ & Hwp & Hmid & _).
  pose proof (est_pre _ _ _ _ _ Hest) as Hpre'. rewrite Hpre in Hpre'.
  injection Hpre' as ->.
  cbn [a_link fullArgs] in Hl. rewrite (passed_link_found _ _ _ _ _ Hp) in Hl.
  assert (Hext : forall q e, prisma.link_findUnique (prisma.ByProjectExternal q e) db = Some l ->
                   l ∈ links db /\ l_projectId l = Some q /\ l_externalId l = Some e).
  { intros q e H. apply find_some in H as [H1 H2].
    apply andb_true_iff in H2 as [H2 H3]. unfold prisma.nullableIs in *.
    destruct (l_projectId l) as [q'|], (l_externalId l) as [e'|]; try done.
    apply String.eqb_eq in H2, H3. subst. split; [by apply list_elem_of_In|done]. }
  assert (Hbyid : forall i, prisma.link_findUnique (prisma.ById i) db = Some l ->
                    l ∈ links db /\ l_id l = i).
  { intros i H. apply find_some in H as [H1 H2].
    split; [by apply list_elem_of_In|by apply String.eqb_eq]. }
  assert (Hfirst :
            (linkQuery (c_pre c) (c_workspaceId c) ≫= fun q => prisma.link_findUnique q db)
            = Some l ->
            l ∈ links db /\
            match Js.whenTruthy (linkId (c_pre c)) with
            | Some i =>
                l_id l = i \/
                (Js.startsWith "ext_" i = true /\
                 l_projectId l = Some (id (c_workspace c)) /\
                 l_externalId l = Some (Js.replace "ext_" "" i))
            | None =>
                exists d k,
                  Js.whenTruthy (domain (c_pre c)) = Some d /\
                  Js.whenTruthy (key (c_pre c)) = Some k /\
                  l_domain l = d /\ l_key l = k
            end).
  { unfold linkQuery. destruct (Js.whenTruthy (linkId (c_pre c))) as [i|].
    - destruct (Js.startsWith "ext_" i) eqn:Hs.
      + destruct (Js.whenTruthy (c_workspaceId c)) as [q|] eqn:Hq; cbn [mbind option_bind].
        * intros H. apply Hext in H as (? & Hpid & ?). split; [done|]. right.
          split_and!; try done. rewrite Hpid, Hwp. cbn [id prisma.mkWorkspace].
          f_equal. unfold Js.whenTruthy in Hq. unfold Js.orUndefined, Js.truthy in Hmid.
          destruct (c_workspaceId c) as [q'|]; [|done].
          destruct (String.eqb_spec q' ""); [done|]. simplify_eq.
          cbn [negb prisma.matches] in Hmid. symmetry. by apply String.eqb_eq.
        * intros H. apply Hbyid in H as (? & ?). split; [done|by left].
      + cbn [mbind option_bind]. intros H. apply Hbyid in H as (? & ?).
        split; [done|by left].
    - destruct (Js.whenTruthy (domain (c_pre c))) as [d|],
        (Js.whenTruthy (key (c_pre c))) as [k|]; cbn [mbind option_bind]; try done.
      intros H. apply find_some in H as [H1 H2]. apply andb_true_iff in H2 as [H2 H3].
      apply String.eqb_eq in H2, H3. split; [by apply list_elem_of_In|].
      by exists d, k. }
  unfold linkAfterRefetch in Hl.
  destruct (Js.whenTruthy (linkId (c_pre c))) as [i|] eqn:Hi; [|by apply Hfirst].
  destruct (Js.startsWith "ext_" i && _ && _) eqn:Hcond; [|by apply Hfirst].
  apply andb_true_iff in Hcond as [Hcond _]. apply andb_true_iff in Hcond as [Hs _].
  apply Hext in Hl as (? & ? & ?). split; [done|]. by right.
Qed.

(** *** The headers of a response *)

Section HeadersKept.

Variable handler : Handler.
Variable cfg : Config.
Variable env : Env.
Variable req : Request.
Variable params : gmap string string.

(** The headers variable after lines 151-250, however they are left. *)
Lemma authenticate_headers pre workspaceId db x st' :
  authenticate env pre workspaceId (initial db) = (x, st') ->
  st_headers st' = headersAfter env pre db.
Proof.
  unfold authenticate, headersAfter. intros H.
  destruct (Js.whenTruthy (apiKey pre)) as [k|]; run_in H; simpl in *;
    rewrite ?Heqo, ?Heqo0; done.
Qed.

Lemma fetch_headers pre session workspaceId workspaceSlug st x st' :
  fetch pre session workspaceId workspaceSlug st = (x, st') ->
  st_headers st' = st_headers st.
Proof. unfold fetch. intros H. by run_in H. Qed.

Lemma resolved_headers : keepsHeaders env req params (resolved handler cfg env req params).
Proof.
  intros db pre x st Hpre Hnamed H. unfold resolved in H. rewrite Hpre in H.
  unfold liftExn in H. rewrite (bind_ok _ _ _ pre (initial db)) in H by done.
  rewrite (bind_ok _ _ _ tt (initial db)) in H by by apply requireWorkspace_passes.
  destruct (bind_inv _ _ _ _ _ H) as [(ex & Ha & _)|([[s t] wid] & st1 & Ha & H1)];
    clear H; apply authenticate_headers in Ha; [done|].
  destruct (bind_inv _ _ _ _ _ H1) as [(ex & Hf & _)|(f & st2 & Hf & H2)];
    clear H1; apply fetch_headers in Hf; [congruence|].
  rewrite <- Ha, <- Hf. by run_in H2.
Qed.

Lemma keepsHeaders_step (m : M Ctx) (f : Ctx -> M Ctx) :
  keepsHeaders env req params m ->
  (forall c st x st', f c st = (x, st') -> st_headers st' = st_headers st) ->
  keepsHeaders env req params (c <- m ;; f c).
Proof.
  intros Hm Hf db pre x st Hpre Hnamed H.
  destruct (bind_inv _ _ _ _ _ H) as [(ex & Ha & _)|(c & st1 & Ha & H1)].
  - by eapply Hm.
  - rewrite (Hf _ _ _ _ H1). by eapply Hm.
Qed.

Lemma linkChecked_headers : keepsHeaders env req params (linkChecked handler cfg env req params).
Proof.
  repeat (apply keepsHeaders_step); [apply resolved_headers|..];
    intros c st x st' H.
  - unfold checkScopes in H. by run_in H.
  - unfold checkBeta in H. by run_in H.
  - unfold refetchLink in H. by run_in H.
  - unfold checkDomain in H. by run_in H.
  - unfold checkInvite in H. by run_in H.
  - unfold checkClicks in H. by run_in H.
  - unfold checkLinks in H. by run_in H.
  - unfold checkPlan in H. by run_in H.
  - unfold checkAnalytics in H. by run_in H.
  - unfold checkLink in H. by run_in H.
Qed.

End HeadersKept.

(** X12 (lines 187-206): an API key whose token the rate limiter refuses
    is answered with the rate_limit_exceeded error "Too many requests.",
    which carries the limiter's headers.  The limiter is asked once, for
    the rate limit of the token (600 when it has none); the token's
    [lastUsed] is not updated, no workspace is looked up and the handler
    is not called. *)
Theorem rate_limited_request (handler : Handler) (cfg : Config) (env : Env)
    (req : Request) (params : gmap string string) (db : Db)
    (pre : Pre) (k : string) (t : Token) (u : TokenUser) :
  preamble req params = inr pre ->
  Js.truthy (idOrSlug pre) = true \/ isRestrictedToken pre = true ->
  Js.whenTruthy (apiKey pre) = Some k ->
  findToken (isRestrictedToken pre) (hashToken env k) db = Some t ->
  token_user t = Some u ->
  success (ratelimit env (rateLimitOf t) k) = false ->
  withWorkspace handler cfg env req params db
  = (ErrorResponse (DubApiError rate_limit_exceeded "Too many requests.")
       (rateLimitHeaders (ratelimit env (rateLimitOf t) k)),
     {| st_db := db;
        st_headers := rateLimitHeaders (ratelimit env (rateLimitOf t) k);
        st_log := [EHashToken k;
                   ETokenFindUnique (isRestrictedToken pre) (hashToken env k);
                   ERatelimit (rateLimitOf t) k] |}).
Proof.
  intros Hpre Hnamed Hk Hfind Hu Hno.
  apply (leaves_resolved handler cfg env req params db (Throw _)
           {| st_db := db;
              st_headers := rateLimitHeaders (ratelimit env (rateLimitOf t) k);
              st_log := [EHashToken k;
                         ETokenFindUnique (isRestrictedToken pre) (hashToken env k);
                         ERatelimit (rateLimitOf t) k] |}).
  unfold resolved. rewrite Hpre. unfold liftExn.
  rewrite (bind_ok _ _ _ pre (initial db)) by done.
  rewrite (bind_ok _ _ _ tt (initial db)) by by apply requireWorkspace_passes.
  apply bind_exit. unfold authenticate. rewrite Hk.
  unfold bind, emit, getDb, setHeaders, throw. simpl.
  rewrite Hfind, Hu. simpl. by rewrite Hno.
Qed.

(** X13 (lines 86, 194-199, 459-472): once a request names a workspace,
    what the rate limiter answered for its API key is on the headers of
    every error response of the middleware and in the headers that the
    handler receives: the four rate-limit headers when the key has a
    token with a user, and no header otherwise. *)
Theorem rate_limit_headers_follow_the_request (handler : Handler) (cfg : Config)
    (env : Env) (req : Request) (params : gmap string string) (db : Db) (pre : Pre) :
  preamble req params = inr pre ->
  Js.truthy (idOrSlug pre) = true \/ isRestrictedToken pre = true ->
  (forall e h,
     fst (withWorkspace handler cfg env req params db) = ErrorResponse e h ->
     invocations (st_log (snd (withWorkspace handler cfg env req params db))) = [] ->
     h = headersAfter env pre db)
  /\ (forall args,
        args ∈ invocations (st_log (snd (withWorkspace handler cfg env req params db))) ->
        a_headers args = headersAfter env pre db).
Proof.
  intros Hpre Hnamed.
  destruct (linkChecked handler cfg env req params (initial db)) as [[x|c] st] eqn:E.
  - pose proof (linkChecked_headers _ _ _ _ _ _ _ _ _ Hpre Hnamed E) as Hh.
    rewrite (leaves_linkChecked _ _ _ _ _ _ _ _ E).
    destruct (linkChecked_spec _ _ _ _ _ _ _ _ E)
      as [(_ & (pre' & Hpre' & Hno & Hkey) & _)|(_ & Hlog & e & -> & _)].
    { rewrite Hpre in Hpre'. injection Hpre' as <-. destruct Hnamed as [Hn|Hr].
      - congruence.
      - pose proof (restricted_has_key _ _ _ Hpre Hr). congruence. }
    simpl. split.
    + intros e' h [= <- <-] _. done.
    + intros args Hin. rewrite Hlog in Hin. by apply elem_of_nil in Hin.
  - pose proof (linkChecked_headers _ _ _ _ _ _ _ _ _ Hpre Hnamed E) as Hh.
    destruct (linkChecked_spec _ _ _ _ _ _ _ _ E) as (_ & Hlog & _).
    rewrite (withWorkspace_passed _ _ _ _ _ _ _ _ E). simpl.
    rewrite invocations_app, Hlog. simpl. split.
    + intros e h _ [=].
    + intros args Hin. apply list_elem_of_singleton in Hin. by subst.
Qed.

(** *** The database that the handler is called on *)

Section DatabaseKept.

Variable handler : Handler.
Variable cfg : Config.
Variable env : Env.
Variable req : Request.
Variable params : gmap string string.

Lemma authenticate_db pre workspaceId db x st' :
  authenticate env pre workspaceId (initial db) = (x, st') ->
  st_db st' = afterAuthentication env pre db.
Proof.
  unfold authenticate, afterAuthentication, acceptedKey. intros H.
  destruct (Js.whenTruthy (apiKey pre)) as [k|]; run_in H; simpl in *;
    rewrite ?Heqo, ?Heqo0; try done.
  all: by destruct (success _).
Qed.

Lemma fetch_db pre session workspaceId workspaceSlug st x st' :
  fetch pre session workspaceId workspaceSlug st = (x, st') ->
  st_db st' = st_db st.
Proof. unfold fetch. intros H. by run_in H. Qed.

Lemma resolved_db : writesLastUsedOnly env req params (resolved handler cfg env req params).
Proof.
  intros db pre x st Hpre Hnamed H. unfold resolved in H. rewrite Hpre in H.
  unfold liftExn in H. rewrite (bind_ok _ _ _ pre (initial db)) in H by done.
  rewrite (bind_ok _ _ _ tt (initial db)) in H by by apply requireWorkspace_passes.
  destruct (bind_inv _ _ _ _ _ H) as [(ex & Ha & _)|([[s t] wid] & st1 & Ha & H1)];
    clear H; apply authenticate_db in Ha; [done|].
  destruct (bind_inv _ _ _ _ _ H1) as [(ex & Hf & _)|(f & st2 & Hf & H2)];
    clear H1; apply fetch_db in Hf; [congruence|].
  rewrite <- Ha, <- Hf. by run_in H2.
Qed.

Lemma writesLastUsedOnly_step (m : M Ctx) (f : Ctx -> M Ctx) :
  writesLastUsedOnly env req params m ->
  (forall c st x st', f c st = (x, st') -> st_db st' = st_db st) ->
  writesLastUsedOnly env req params (c <- m ;; f c).
Proof.
  intros Hm Hf db pre x st Hpre Hnamed H.
  destruct (bind_inv _ _ _ _ _ H) as [(ex & Ha & _)|(c & st1 & Ha & H1)].
  - by eapply Hm.
  - rewrite (Hf _ _ _ _ H1). by eapply Hm.
Qed.

Lemma linkChecked_db : writesLastUsedOnly env req params (linkChecked handler cfg env req params).
Proof.
  repeat (apply writesLastUsedOnly_step); [apply resolved_db|..];
    intros c st x st' H.
  - unfold checkScopes in H. by run_in H.
  - unfold checkBeta in H. by run_in H.
  - unfold refetchLink in H. by run_in H.
  - unfold checkDomain in H. by run_in H.
  - unfold checkInvite in H. by run_in H.
  - unfold checkClicks in H. by run_in H.
  - unfold checkLinks in H. by run_in H.
  - unfold checkPlan in H. by run_in H.
  - unfold checkAnalytics in H. by run_in H.
  - unfold checkLink in H. by run_in H.
Qed.


End DatabaseKept.


(* ===================================================================== *)
(** ** Further properties of [POST /api/domains/[domain]/primary] *)
(* ===================================================================== *)

Section PrimaryRows.

Import prisma.

(** Without a named row, the rows of the workspace all lose the flag. *)
Lemma demote_clears projectId s d :
  d_slug d <> s -> d_projectId d = projectId ->
  d_primary (demote projectId (Some s) d) = false.
Proof.
  intros Hs <-. unfold demote, nullableIs. rewrite String.eqb_refl.
  destruct (String.eqb_spec s (d_slug d)); [by subst|].
  by destruct d as [? ? [] ?].
Qed.

Lemma filter_none {A} (p : A -> bool) (l : list A) :
  (forall x, x ∈ l -> p x = false) -> List.filter p l = [].
Proof.
  induction l as [|x l IH]; [done|]. intros H. simpl.
  rewrite (H x) by by left. apply IH. intros y Hy. apply H. by right.
Qed.

(** Under a unique key, the rows with the key of a row are that row. *)
Lemma filter_unique_slug (l : list DomainRow) (r : DomainRow) :
  NoDup (d_slug <$> l) -> r ∈ l ->
  List.filter (fun x => String.eqb (d_slug x) (d_slug r)) l = [r].
Proof.
  induction l as [|x l IH]; csimpl; intros Hnd Hr; [by apply elem_of_nil in Hr|].
  apply NoDup_cons in Hnd as [Hx Hnd]. apply elem_of_cons in Hr as [->|Hr].
  - rewrite String.eqb_refl. f_equal. apply filter_none. intros y Hy.
    apply String.eqb_neq. intros Hs. apply Hx. rewrite <- Hs.
    by apply list_elem_of_fmap_2.
  - destruct (String.eqb_spec (d_slug x) (d_slug r)) as [Hs|_]; [|by apply IH].
    exfalso. apply Hx. rewrite Hs. by apply list_elem_of_fmap_2.
Qed.

(** The primary rows of the workspace after the two updates are the named
    rows, when those are rows of the workspace. *)
Lemma primary_rows_after projectId s (l : list DomainRow) :
  (forall x, x ∈ l -> d_slug x = s -> d_projectId x = projectId) ->
  List.filter (fun x => String.eqb (d_projectId x) projectId && d_primary x)
              (rowAfter projectId (Some s) <$> l)
  = setPrimary true <$> List.filter (fun x => String.eqb (d_slug x) s) l.
Proof.
  induction l as [|x l IH]; csimpl; [done|]. intros H.
  rewrite IH by (intros y Hy; apply H; by right).
  destruct (String.eqb_spec (d_slug x) s) as [Hs|Hs].
  - rewrite rowAfter_named by done. cbn [setPrimary d_projectId d_primary].
    rewrite (H x) by (done || by left). by rewrite String.eqb_refl.
  - replace (rowAfter projectId (Some s) x) with (demote projectId (Some s) x)
      by (unfold rowAfter, promote; by destruct (String.eqb_spec (d_slug x) s)).
    destruct (String.eqb_spec (d_projectId (demote projectId (Some s) x)) projectId)
      as [Hp|Hp]; [|done].
    assert (Hp' : d_projectId x = projectId).
    { rewrite <- Hp. unfold demote. by destruct (_ && _). }
    by rewrite demote_clears.
Qed.

End PrimaryRows.

(** How a request to the route ends: answered by the middleware, which
    writes at most the [lastUsed] of a token, or by the handler after
    every check has passed. *)
Lemma POST_cases (env : Env) (req : Request) (params : option (gmap string string))
    (db : Db) :
  let out := primary.POST env req params db in
  (sameButLastUsed db (st_db (snd out)) /\ invocations (st_log (snd out)) = [] /\
   exists e, fst out = ErrorResponse e (st_headers (snd out)))
  \/ (exists c st,
        linkChecked (primary.handler env) primary.options env req (default ∅ params)
          (initial db) = (inr c, st) /\
        invocations (st_log (snd out)) = [fullArgs req (default ∅ params) c (st_headers st)] /\
        st_db (snd out)
        = set_domainRows
            (rowAfter (id (c_workspace c)) (domain (c_pre c)) <$> domainRows db)
            (st_db st) /\
        fst out
        = match fst (primary.updates (id (c_workspace c)) (domain (c_pre c)) db) with
          | inr row =>
              match DomainSchema_parse env row with
              | inr body => JsonResponse body (st_headers st)
              | inl e => ErrorResponse e (st_headers st)
              end
          | inl e => ErrorResponse e (st_headers st)
          end).
Proof.
  unfold primary.POST. set (ps := default ∅ params).
  destruct (linkChecked (primary.handler env) primary.options env req ps (initial db))
    as [[x|c] st] eqn:E.
  - left. rewrite (leaves_linkChecked _ _ _ _ _ _ _ _ E).
    destruct (linkChecked_spec _ _ _ _ _ _ _ _ E) as [(Ha & _)|(Hdb & Hlog & e & -> & _)];
      [done|]. simpl. eauto.
  - right. exists c, st. split; [done|].
    destruct (linkChecked_spec _ _ _ _ _ _ _ _ E) as (Hdb & Hlog & _).
    destruct (same_tables _ _ Hdb) as (_ & _ & Hdom & _).
    rewrite (withWorkspace_passed _ _ _ _ _ _ _ _ E). cbn [fst snd st_db st_log].
    rewrite invocations_app, Hlog. unfold primary.handler.
    cbn [a_workspace a_domain a_headers fullArgs].
    pose proof (updates_rows (id (c_workspace c)) (domain (c_pre c)) (st_db st)) as Hrows.
    pose proof (updates_result (id (c_workspace c)) (domain (c_pre c)) (st_db st)) as Hres.
    rewrite Hdom in Hrows, Hres.
    rewrite <- (updates_result (id (c_workspace c)) (domain (c_pre c)) db) in Hres.
    destruct (primary.updates _ _ (st_db st)) as [r' db']. cbn [fst snd] in Hrows, Hres.
    subst r' db'.
    destruct (fst (primary.updates _ _ db)) as [e|row]; simpl; [done|].
    by destruct (DomainSchema_parse env row).
Qed.

(** X15 (route.ts lines 9-32 with the domain check of lines 349-366): when
    the slugs of [domain] are unique and the request names a custom
    domain, a request that is answered with the handler's JSON response
    leaves the workspace with exactly one primary domain, the named one,
    which was a domain of the workspace before. *)
Theorem POST_leaves_one_primary (env : Env) (req : Request)
    (params : option (gmap string string)) (db : Db)
    (body : Json) (h : Headers) (st : St) :
  primary.POST env req params db = (JsonResponse body h, st) ->
  NoDup (d_slug <$> domainRows db) ->
  exists args w d r,
    invocations (st_log st) = [args] /\
    a_workspace args = Some w /\ a_domain args = Some d /\
    (d <> "" -> isDubDomain env d = false ->
     r ∈ domainRows db /\ d_slug r = d /\ d_projectId r = id w /\
     List.filter (fun x => String.eqb (d_projectId x) (id w) && d_primary x)
                 (domainRows (st_db st))
     = [prisma.setPrimary true r]).
Proof.
  intros H Hnd. pose proof (POST_cases env req params db) as Hc. rewrite H in Hc.
  cbn [fst snd] in Hc. destruct Hc as [(_ & _ & e & [=])|(c & st1 & Hc & Hlog & Hdb & Hr)].
  rewrite updates_result in Hr.
  destruct (domain (c_pre c)) as [d|] eqn:Hd; [|done].
  destruct (List.find _ _) as [r0|] eqn:Hfind; [|done].
  apply find_some_slug in Hfind as [Hr0 Hs0].
  destruct (linkChecked_passed _ _ _ _ _ _ _ _ Hc) as (Hp & _).
  destruct (linkChecked_spec _ _ _ _ _ _ _ _ Hc) as (_ & _ & Hest).
  destruct (established_stored _ _ _ _ _ Hest) as (u & p & _ & _ & _ & Hwp & _).
  exists (fullArgs req (default ∅ params) c (st_headers st1)), (c_workspace c), d, r0.
  split_and!; try done. intros Hne Hcustom.
  pose proof (passed_domain _ _ _ _ _ Hp d) as Hdom. rewrite Hd in Hdom.
  unfold Js.whenTruthy in Hdom. destruct (String.eqb_spec d ""); [done|].
  specialize (Hdom eq_refl). rewrite Hcustom in Hdom. destruct Hdom as (x & Hx).
  rewrite Hwp in Hx. apply findDomain_stored in Hx as (r & Hr1 & Hs1 & Hp1 & _).
  assert (Hsame : forall y, y ∈ domainRows db -> d_slug y = d -> y = r).
  { intros y Hy Hys.
    pose proof (filter_unique_slug _ _ Hnd Hr1) as Hf. rewrite Hs1 in Hf.
    assert (Hin : In y (List.filter (fun x => String.eqb (d_slug x) d) (domainRows db))).
    { apply filter_In. split; [by apply list_elem_of_In|by apply String.eqb_eq]. }
    rewrite Hf in Hin. by destruct Hin as [<-|[]]. }
  rewrite (Hsame r0 Hr0 Hs0) in *.
  assert (Hid : id (c_workspace c) = p_id p) by by rewrite Hwp.
  split_and!; try done; [congruence|].
  rewrite Hdb. cbn [domainRows set_domainRows].
  rewrite primary_rows_after.
  - pose proof (filter_unique_slug _ _ Hnd Hr1) as Hf. rewrite Hs1 in Hf. by rewrite Hf.
  - intros y Hy Hys. rewrite (Hsame y Hy Hys). congruence.
Qed.

(** X16 (route.ts lines 9-31): the two statements are not one
    transaction.  When no row of [domain] has the named slug, the handler
    fails with the error of [update], and yet [updateMany] has cleared the
    primary flag of every domain of the workspace: the workspace is left
    without a primary domain, all else being unchanged. *)
Theorem failed_update_still_demotes (env : Env) (args : HandlerArgs) (db : Db)
    (w : Workspace) (d : string) :
  a_workspace args = Some w ->
  a_domain args = Some d ->
  (forall r, r ∈ domainRows db -> d_slug r <> d) ->
  fst (primary.handler env args db) = inl (LibraryError "RecordNotFound")
  /\ snd (primary.handler env args db)
     = set_domainRows (prisma.demote (id w) (Some d) <$> domainRows db) db
  /\ (forall x, x ∈ domainRows (snd (primary.handler env args db)) ->
        d_projectId x = id w -> d_primary x = false).
Proof.
  intros Hw Hd Hnone.
  assert (Hfind : List.find (fun r => String.eqb (d_slug r) d) (domainRows db) = None).
  { destruct (List.find _ _) as [r|] eqn:E; [|done].
    apply find_some_slug in E as [Hr Hs]. by destruct (Hnone r Hr). }
  assert (Hrows : rowAfter (id w) (Some d) <$> domainRows db
                  = prisma.demote (id w) (Some d) <$> domainRows db).
  { apply list_fmap_ext. intros i r Hr. apply list_elem_of_lookup_2 in Hr.
    unfold rowAfter, prisma.promote.
    by destruct (String.eqb_spec (d_slug r) d) as [Hs|_]; [destruct (Hnone r Hr)|]. }
  unfold primary.handler. rewrite Hw, Hd.
  pose proof (updates_result (id w) (Some d) db) as Hres.
  pose proof (updates_rows (id w) (Some d) db) as Hdb.
  cbn beta iota in Hres. rewrite Hfind in Hres. rewrite Hrows in Hdb.
  destruct (primary.updates _ _ _) as [[e|row] db']; cbn [fst snd] in *; [|done].
  subst db'. split_and!; [congruence|done|].
  intros x Hx Hp. cbn [domainRows set_domainRows] in Hx.
  apply list_elem_of_fmap in Hx as (r & -> & Hr).
  assert (Hpr : d_projectId r = id w).
  { rewrite <- Hp. unfold prisma.demote. by destruct (_ && _). }
  apply demote_clears; [by apply Hnone|done].
Qed.

(** Putting its own table back into a database changes nothing. *)
Lemma set_domainRows_same (db : Db) : set_domainRows (domainRows db) db = db.
Proof. by destruct db. Qed.

(** X17 (route.ts lines 9-37 with lines 88-472): the route changes the
    primary flags only for an authorised caller.  Whenever a request
    leaves the table of the domains changed, the handler was called once,
    for a workspace that [projectUsers] lists the caller of the session
    for and with scopes that [throwIfNoAccess] accepted for
    "domains.write"; the rows are those of the two updates, and no row
    that is neither of that workspace nor the named domain has changed.
    Whatever the answer, the only other write of a request is the one of
    the middleware: the tables other than the domains differ from before
    at most in the [lastUsed] of tokens, and for a request that names a
    workspace they are as authentication left them. *)
Theorem POST_writes_only_when_authorised (env : Env) (req : Request)
    (params : option (gmap string string)) (db : Db) :
  let out := primary.POST env req params db in
  (domainRows (st_db (snd out)) <> domainRows db ->
   exists args w scopes u r,
     invocations (st_log (snd out)) = [args] /\
     a_workspace args = Some w /\ a_scopes args = Some scopes /\
     throwIfNoAccess env scopes ["domains.write"] (id w) = None /\
     a_session args ≫= user = Some u /\
     r ∈ projectUsers db /\ pu_projectId r = id w /\ pu_userId r = su_id u /\
     domainRows (st_db (snd out)) = rowAfter (id w) (a_domain args) <$> domainRows db /\
     (forall i x, domainRows db !! i = Some x ->
        d_projectId x <> id w -> a_domain args <> Some (d_slug x) ->
        domainRows (st_db (snd out)) !! i = Some x))
  /\ sameButLastUsed db (set_domainRows (domainRows db) (st_db (snd out)))
  /\ (forall pre,
        preamble req (default ∅ params) = inr pre ->
        Js.truthy (idOrSlug pre) = true \/ isRestrictedToken pre = true ->
        set_domainRows (domainRows db) (st_db (snd out))
        = afterAuthentication env pre db).
Proof.
  cbv zeta. split_and!.
  - intros Hchanged.
    destruct (POST_cases env req params db)
      as [(Hdb & _)|(c & st & Hc & Hlog & Hdb & _)].
    { destruct (same_tables _ _ Hdb) as (_ & _ & Hdom & _). done. }
    destruct (linkChecked_passed _ _ _ _ _ _ _ _ Hc) as (Hp & _).
    destruct (linkChecked_spec _ _ _ _ _ _ _ _ Hc) as (_ & _ & Hest).
    destruct (established_stored _ _ _ _ _ Hest)
      as (u & p & r & Hu & _ & Hwp & _ & _ & Hr & Hrp & Hru).
    exists (fullArgs req (default ∅ params) c (st_headers st)), (c_workspace c),
      (c_scopes c), u, r.
    split_and!; try done.
    + by apply (passed_scopes _ _ _ _ _ Hp).
    + by rewrite Hwp.
    + by rewrite Hdb.
    + intros i x Hi Hpid Hs. rewrite Hdb. cbn [domainRows set_domainRows].
      rewrite list_lookup_fmap, Hi. cbn. f_equal. by apply rowAfter_foreign.
  - destruct (POST_cases env req params db)
      as [(Hdb & _)|(c & st & Hc & _ & Hdb & _)].
    + destruct (same_tables _ _ Hdb) as (_ & _ & Hdom & _).
      by rewrite <- Hdom, set_domainRows_same.
    + destruct (linkChecked_spec _ _ _ _ _ _ _ _ Hc) as (Hsame & _).
      destruct (same_tables _ _ Hsame) as (_ & _ & Hdom & _).
      rewrite Hdb. unfold set_domainRows at 1. cbn [tokens restrictedTokens projects
        projectUsers links projectInvites set_domainRows].
      change (sameButLastUsed db (set_domainRows (domainRows db) (st_db st))).
      by rewrite <- Hdom, set_domainRows_same.
  - intros pre Hpre Hnamed. unfold primary.POST.
    destruct (linkChecked (primary.handler env) primary.options env req
                (default ∅ params) (initial db)) as [[x|c] st] eqn:E.
    + rewrite (leaves_linkChecked _ _ _ _ _ _ _ _ E).
      assert (Hsnd : forall y s, snd (respond y s) = s) by by intros [].
      rewrite Hsnd.
      pose proof (linkChecked_db _ _ _ _ _ _ _ _ _ Hpre Hnamed E) as Hdb.
      destruct (linkChecked_spec _ _ _ _ _ _ _ _ E)
        as [(_ & (pre' & Hpre' & Hno & Hkey) & _)|(Hsame & _)].
      { rewrite Hpre in Hpre'. injection Hpre' as <-. destruct Hnamed as [Hn|Hr].
        - congruence.
        - pose proof (restricted_has_key _ _ _ Hpre Hr). congruence. }
      destruct (same_tables _ _ Hsame) as (_ & _ & Hdom & _).
      by rewrite <- Hdom, set_domainRows_same.
    + pose proof (linkChecked_db _ _ _ _ _ _ _ _ _ Hpre Hnamed E) as Hdb.
      destruct (linkChecked_spec _ _ _ _ _ _ _ _ E) as (Hsame & _).
      destruct (same_tables _ _ Hsame) as (_ & _ & Hdom & _).
      rewrite (withWorkspace_passed _ _ _ _ _ _ _ _ E). cbn [fst snd st_db].
      unfold primary.handler. cbn [a_workspace a_domain fullArgs].
      pose proof (updates_rows (id (c_workspace c)) (domain (c_pre c)) (st_db st)) as Hrows.
      destruct (primary.updates _ _ (st_db st)) as [[e|row] db']; cbn [snd] in Hrows;
        subst db'.
      * cbn [snd]. unfold set_domainRows at 1. cbn [tokens restrictedTokens projects
          projectUsers links projectInvites set_domainRows].
        change (set_domainRows (domainRows db) (st_db st) = afterAuthentication env pre db).
        by rewrite <- Hdom, set_domainRows_same.
      * destruct (DomainSchema_parse env row); cbn [snd];
          unfold set_domainRows at 1; cbn [tokens restrictedTokens projects
            projectUsers links projectInvites set_domainRows];
          change (set_domainRows (domainRows db) (st_db st)
                  = afterAuthentication env pre db);
          by rewrite <- Hdom, set_domainRows_same.
Qed.

(* ===================================================================== *)
(** ** The update of [lastUsed] *)
(* ===================================================================== *)

Section LastUsed.

Variable handler : Handler.
Variable cfg : Config.
Variable env : Env.
Variable req : Request.
Variable params : gmap string string.

Lemma lastUsedUpdates_app l1 l2 :
  lastUsedUpdates (l1 ++ l2) = (lastUsedUpdates l1 ++ lastUsedUpdates l2)%list.
Proof. apply omap_app. Qed.

Lemma authenticate_updates pre workspaceId db x st' :
  authenticate env pre workspaceId (initial db) = (x, st') ->
  lastUsedUpdates (st_log st') = option_list (acceptedKey env pre db).
Proof.
  unfold authenticate, acceptedKey. intros H.
  destruct (Js.whenTruthy (apiKey pre)) as [k|]; run_in H; simpl in *;
    rewrite ?Heqo, ?Heqo0; try done.
  all: by destruct (success _).
Qed.

Lemma fetch_updates pre session workspaceId workspaceSlug st x st' :
  fetch pre session workspaceId workspaceSlug st = (x, st') ->
  lastUsedUpdates (st_log st') = lastUsedUpdates (st_log st).
Proof.
  unfold fetch. intros H.
  run_in H; simpl; rewrite ?lastUsedUpdates_app; simpl; by rewrite ?app_nil_r.
Qed.

Lemma resolved_updates : updatesAcceptedKey env req params (resolved handler cfg env req params).
Proof.
  intros db pre x st Hpre Hnamed H. unfold resolved in H. rewrite Hpre in H.
  unfold liftExn in H. rewrite (bind_ok _ _ _ pre (initial db)) in H by done.
  rewrite (bind_ok _ _ _ tt (initial db)) in H by by apply requireWorkspace_passes.
  destruct (bind_inv _ _ _ _ _ H) as [(ex & Ha & _)|([[s t] wid] & st1 & Ha & H1)];
    clear H; apply authenticate_updates in Ha; [done|].
  destruct (bind_inv _ _ _ _ _ H1) as [(ex & Hf & _)|(f & st2 & Hf & H2)];
    clear H1; apply fetch_updates in Hf; [congruence|].
  rewrite <- Ha, <- Hf. by run_in H2.
Qed.

Lemma updatesAcceptedKey_step (m : M Ctx) (f : Ctx -> M Ctx) :
  updatesAcceptedKey env req params m ->
  (forall c st x st', f c st = (x, st') ->
     lastUsedUpdates (st_log st') = lastUsedUpdates (st_log st)) ->
  updatesAcceptedKey env req params (c <- m ;; f c).
Proof.
  intros Hm Hf db pre x st Hpre Hnamed H.
  destruct (bind_inv _ _ _ _ _ H) as [(ex & Ha & _)|(c & st1 & Ha & H1)].
  - by eapply Hm.
  - rewrite (Hf _ _ _ _ H1). by eapply Hm.
Qed.

Lemma linkChecked_updates : updatesAcceptedKey env req params (linkChecked handler cfg env req params).
Proof.
  repeat (apply updatesAcceptedKey_step); [apply resolved_updates|..];
    intros c st x st' H.
  - unfold checkScopes in H. by run_in H.
  - unfold checkBeta in H.
    run_in H; simpl; rewrite ?lastUsedUpdates_app; simpl; by rewrite ?app_nil_r.
  - unfold refetchLink in H.
    run_in H; simpl; rewrite ?lastUsedUpdates_app; simpl; by rewrite ?app_nil_r.
  - unfold checkDomain in H. by run_in H.
  - unfold checkInvite in H.
    run_in H; simpl; rewrite ?lastUsedUpdates_app; simpl; by rewrite ?app_nil_r.
  - unfold checkClicks in H. by run_in H.
  - unfold checkLinks in H. by run_in H.
  - unfold checkPlan in H. by run_in H.
  - unfold checkAnalytics in H. by run_in H.
  - unfold checkLink in H. by run_in H.
Qed.

End LastUsed.

(** X18 (lines 124-141, 151-231): [lastUsed] is updated for exactly one
    token, the one of the request's API key, and exactly when the request
    names a workspace (or carries a restricted key), the key has a token
    with a user and the rate limiter lets the request through, whatever
    the later checks and the handler answer.  Nothing is updated for a
    request that is rate limited, that carries an unknown key or no key,
    or that names no workspace. *)
Theorem last_used_is_updated_for_accepted_keys (handler : Handler) (cfg : Config)
    (env : Env) (req : Request) (params : gmap string string) (db : Db) (pre : Pre) :
  preamble req params = inr pre ->
  lastUsedUpdates (st_log (snd (withWorkspace handler cfg env req params db)))
  = if Js.truthy (idOrSlug pre) || isRestrictedToken pre
    then option_list (acceptedKey env pre db)
    else [].
Proof.
  intros Hpre.
  destruct (Js.truthy (idOrSlug pre) || isRestrictedToken pre) eqn:Hn.
  - assert (Hnamed : Js.truthy (idOrSlug pre) = true \/ isRestrictedToken pre = true)
      by by apply orb_true_iff.
    destruct (linkChecked handler cfg env req params (initial db)) as [[x|c] st] eqn:E.
    + rewrite (leaves_linkChecked _ _ _ _ _ _ _ _ E).
      pose proof (linkChecked_updates _ _ _ _ _ _ _ _ _ Hpre Hnamed E). by destruct x.
    + rewrite (withWorkspace_passed _ _ _ _ _ _ _ _ E). simpl.
      rewrite lastUsedUpdates_app. simpl. rewrite app_nil_r.
      exact (linkChecked_updates _ _ _ _ _ _ _ _ _ Hpre Hnamed E).
  - apply orb_false_iff in Hn as [Hid Hr].
    destruct (resolved handler cfg env req params (initial db)) as [[x|c] st] eqn:E.
    + rewrite (leaves_resolved _ _ _ _ _ _ _ _ E).
      unfold resolved in E. rewrite Hpre in E. unfold liftExn in E.
      rewrite (bind_ok _ _ _ pre (initial db)) in E by done.
      assert (Hsnd : forall y s, snd (respond y s) = s) by by intros [].
      rewrite Hsnd.
      destruct (bind_inv _ _ _ _ _ E) as [(ex & Hg & _)|([] & st1 & Hg & _)];
        apply requireWorkspace_cases in Hg
          as [(Hx & _ & [Hn|Hn])|[(e & Hx & _ & ->)|(_ & _ & _ & _ & Hlog & _ & Hx)]];
        try congruence; try done.
      by rewrite Hlog.
    + destruct (resolved_spec _ _ _ _ _ _ _ _ E) as (_ & _ & Hest).
      pose proof (est_pre _ _ _ _ _ Hest) as Hp. rewrite Hpre in Hp. injection Hp as ->.
      destruct (est_named _ _ _ _ _ Hest); congruence.
Qed.

(* ===================================================================== *)
(** ** The further properties on a sample deployment *)
(* ===================================================================== *)


(** The workspace [acme] is on the business plan. *)
Lemma plan_check_witness :
  exists c st,
    linksChecked Sample.ok Deployment.enterpriseOnly Sample.env
      (Sample.browserRequest "ws_p1") ∅ (initial Sample.db) = (inr c, st)
    /\ withWorkspace Sample.ok Deployment.enterpriseOnly Sample.env
         (Sample.browserRequest "ws_p1") ∅ Sample.db
       = (ErrorResponse (DubApiError forbidden "Unauthorized: Need higher plan.")
            (st_headers st), st)
    /\ invocations (st_log st) = [].
Proof.
  assert (H : exists c st,
            linksChecked Sample.ok Deployment.enterpriseOnly Sample.env
              (Sample.browserRequest "ws_p1") ∅ (initial Sample.db) = (inr c, st))
    by (eexists _, _; vm_compute; reflexivity).
  destruct H as (c & st & H). exists c, st. split; [exact H|].
  pose proof H as H'. vm_compute in H'. injection H' as <- <-.
  refine (proj2 (plan_check Sample.ok Deployment.enterpriseOnly Sample.env
                   _ _ _) _ _ H _).
  intros Hin. apply list_elem_of_singleton in Hin. vm_compute in Hin. discriminate Hin.
Defined.

(** The workspace [solo] is on the free plan. *)
Lemma analytics_check_witness :
  exists c st,
    planChecked Sample.ok defaultConfig Sample.env
      (Deployment.keyRequest "abc" "ws_p2" "/api/analytics/clicks") ∅
      (initial Sample.db) = (inr c, st)
    /\ withWorkspace Sample.ok defaultConfig Sample.env
         (Deployment.keyRequest "abc" "ws_p2" "/api/analytics/clicks") ∅ Sample.db
       = (ErrorResponse
            (DubApiError forbidden "Analytics API is only available on paid plans.")
            (st_headers st), st)
    /\ invocations (st_log st) = [].
Proof.
  assert (H : exists c st,
            planChecked Sample.ok defaultConfig Sample.env
              (Deployment.keyRequest "abc" "ws_p2" "/api/analytics/clicks") ∅
              (initial Sample.db) = (inr c, st))
    by (eexists _, _; vm_compute; reflexivity).
  destruct H as (c & st & H). exists c, st. split; [exact H|].
  pose proof H as H'. vm_compute in H'. injection H' as <- <-.
  refine (proj2 (analytics_check Sample.ok defaultConfig Sample.env _ _ _) _ _ H _ _ _);
    vm_compute; reflexivity.
Defined.

(** The link [l2] is a link of the workspace [solo]. *)
Lemma link_check_witness :
  exists c st,
    analyticsChecked Sample.ok defaultConfig Sample.env
      (Deployment.linkRequest "ws_p1" "l2") ∅ (initial Deployment.db) = (inr c, st)
    /\ withWorkspace Sample.ok defaultConfig Sample.env
         (Deployment.linkRequest "ws_p1" "l2") ∅ Deployment.db
       = (ErrorResponse (DubApiError not_found "Link not found.") (st_headers st), st)
    /\ invocations (st_log st) = [].
Proof.
  assert (H : exists c st,
            analyticsChecked Sample.ok defaultConfig Sample.env
              (Deployment.linkRequest "ws_p1" "l2") ∅ (initial Deployment.db)
            = (inr c, st))
    by (eexists _, _; vm_compute; reflexivity).
  destruct H as (c & st & H). exists c, st. split; [exact H|].
  pose proof H as H'. vm_compute in H'. injection H' as <- <-.
  refine (proj2 (link_check Sample.ok defaultConfig Sample.env _ _ _) _ _ H _ _).
  - vm_compute. reflexivity.
  - intros l Hl. vm_compute in Hl. injection Hl as <-. vm_compute. discriminate.
Defined.

(** Nobody is a beta tester in the sample deployment. *)
Lemma beta_check_witness :
  exists c st,
    scopesChecked Sample.ok Sample.betaOptions Sample.env
      (Sample.browserRequest "ws_p1") ∅ (initial Sample.db) = (inr c, st)
    /\ withWorkspace Sample.ok Sample.betaOptions Sample.env
         (Sample.browserRequest "ws_p1") ∅ Sample.db
       = (ErrorResponse (DubApiError forbidden "Unauthorized: Beta feature.")
            (st_headers st),
          {| st_db := st_db st; st_headers := st_headers st;
             st_log := st_log st ++ [EIsBetaTester (id (c_workspace c))] |})
    /\ invocations (st_log st) = [].
Proof.
  assert (H : exists c st,
            scopesChecked Sample.ok Sample.betaOptions Sample.env
              (Sample.browserRequest "ws_p1") ∅ (initial Sample.db) = (inr c, st))
    by (eexists _, _; vm_compute; reflexivity).
  destruct H as (c & st & H). exists c, st. split; [exact H|].
  pose proof H as H'. vm_compute in H'. injection H' as <- <-.
  refine (proj2 (beta_check Sample.ok Sample.betaOptions Sample.env _ _ _ eq_refl)
            _ _ H _).
  vm_compute. reflexivity.
Defined.

(** The workspace [acme] has used 100 clicks of 100. *)
Lemma handler_called_within_limits_witness :
  exists args w,
    args ∈ invocations
             (st_log (snd (withWorkspace Sample.ok (Sample.withOptions true true false)
                             Sample.env (Sample.browserRequest "ws_p1") ∅ Sample.db)))
    /\ a_workspace args = Some w
    /\ usage w <= usageLimit w.
Proof.
  assert (H : exists args w,
            invocations
              (st_log (snd (withWorkspace Sample.ok (Sample.withOptions true true false)
                              Sample.env (Sample.browserRequest "ws_p1") ∅ Sample.db)))
            = [args] /\ a_workspace args = Some w)
    by (eexists _, _; split; vm_compute; reflexivity).
  destruct H as (args & w & Hinv & Hw). exists args, w.
  assert (Hin : args ∈ invocations
                  (st_log (snd (withWorkspace Sample.ok (Sample.withOptions true true false)
                                  Sample.env (Sample.browserRequest "ws_p1") ∅ Sample.db)))).
  { rewrite Hinv. apply list_elem_of_singleton. reflexivity. }
  split; [exact Hin|]. split; [exact Hw|].
  exact (proj1 (handler_called_within_limits Sample.ok (Sample.withOptions true true false)
                  Sample.env _ _ _ args w Hin Hw) eq_refl).
Defined.

(** Alice owns the workspace [acme], and owners may write domains. *)
Lemma handler_called_with_granted_scopes_witness :
  exists args w scopes,
    args ∈ invocations
             (st_log (snd (withWorkspace Sample.ok primary.options Sample.env
                             (Sample.browserRequest "ws_p1") ∅ Sample.db)))
    /\ a_workspace args = Some w
    /\ a_scopes args = Some scopes
    /\ throwIfNoAccess Sample.env scopes ["domains.write"] (id w) = None.
Proof.
  assert (H : exists args w,
            invocations
              (st_log (snd (withWorkspace Sample.ok primary.options Sample.env
                              (Sample.browserRequest "ws_p1") ∅ Sample.db)))
            = [args] /\ a_workspace args = Some w)
    by (eexists _, _; split; vm_compute; reflexivity).
  destruct H as (args & w & Hinv & Hw).
  assert (Hin : args ∈ invocations
                  (st_log (snd (withWorkspace Sample.ok primary.options Sample.env
                                  (Sample.browserRequest "ws_p1") ∅ Sample.db)))).
  { rewrite Hinv. apply list_elem_of_singleton. reflexivity. }
  destruct (handler_called_with_granted_scopes Sample.ok primary.options Sample.env
              _ _ _ args w Hin Hw) as (scopes & Hs & Hgranted).
  exists args, w, scopes. split; [exact Hin|]. split; [exact Hw|]. split; [exact Hs|].
  exact (Hgranted eq_refl).
Defined.

(** Alice is listed for the workspace [solo]. *)
Lemma handler_called_for_member_witness :
  exists args w u p r,
    args ∈ invocations
             (st_log (snd (withWorkspace Sample.ok defaultConfig Sample.env
                             (Sample.browserRequest "solo") ∅ Sample.db)))
    /\ a_workspace args = Some w
    /\ a_session args ≫= user = Some u
    /\ p ∈ projects Sample.db /\ w = prisma.mkWorkspace (su_id u) Sample.db p
    /\ r ∈ projectUsers Sample.db /\ pu_projectId r = id w /\ pu_userId r = su_id u.
Proof.
  assert (H : exists args w,
            invocations
              (st_log (snd (withWorkspace Sample.ok defaultConfig Sample.env
                              (Sample.browserRequest "solo") ∅ Sample.db)))
            = [args] /\ a_workspace args = Some w)
    by (eexists _, _; split; vm_compute; reflexivity).
  destruct H as (args & w & Hinv & Hw).
  assert (Hin : args ∈ invocations
                  (st_log (snd (withWorkspace Sample.ok defaultConfig Sample.env
                                  (Sample.browserRequest "solo") ∅ Sample.db)))).
  { rewrite Hinv. apply list_elem_of_singleton. reflexivity. }
  destruct (handler_called_for_member Sample.ok defaultConfig Sample.env
              _ _ _ args w Hin Hw) as (u & p & r & Hrest).
  exists args, w, u, p, r. split; [exact Hin|]. split; [exact Hw|]. exact Hrest.
Defined.

(** The restricted key [dub_r1] is a key of the workspace [acme]; the
    request names the workspace [solo]. *)
Lemma restricted_key_is_bound_to_its_workspace_witness :
  exists pre args w,
    preamble (Deployment.keyRequest "dub_r1" "ws_p2" "/api/links") ∅ = inr pre
    /\ isRestrictedToken pre = true
    /\ args ∈ invocations
                (st_log (snd (withWorkspace Sample.ok defaultConfig Sample.env
                                (Deployment.keyRequest "dub_r1" "ws_p2" "/api/links") ∅
                                Sample.db)))
    /\ a_workspace args = Some w
    /\ id w = "p1".
Proof.
  assert (H : exists pre args w,
            preamble (Deployment.keyRequest "dub_r1" "ws_p2" "/api/links") ∅ = inr pre
            /\ isRestrictedToken pre = true
            /\ invocations
                 (st_log (snd (withWorkspace Sample.ok defaultConfig Sample.env
                                 (Deployment.keyRequest "dub_r1" "ws_p2" "/api/links") ∅
                                 Sample.db)))
               = [args]
            /\ a_workspace args = Some w)
    by (eexists _, _, _; split_and!; vm_compute; reflexivity).
  destruct H as (pre & args & w & Hpre & Hr & Hinv & Hw).
  assert (Hin : args ∈ invocations
                  (st_log (snd (withWorkspace Sample.ok defaultConfig Sample.env
                                  (Deployment.keyRequest "dub_r1" "ws_p2" "/api/links") ∅
                                  Sample.db)))).
  { rewrite Hinv. apply list_elem_of_singleton. reflexivity. }
  exists pre, args, w. split; [exact Hpre|]. split; [exact Hr|].
  split; [exact Hin|]. split; [exact Hw|].
  destruct (restricted_key_is_bound_to_its_workspace Sample.ok defaultConfig Sample.env
              _ _ _ pre args w Hpre Hr Hin Hw) as (k & r & Hk & _ & Hrow & Hh & Hid).
  vm_compute in Hpre. injection Hpre as <-. vm_compute in Hk. injection Hk as <-.
  vm_compute in Hh.
  unfold Sample.db in Hrow. cbn [restrictedTokens] in Hrow.
  apply list_elem_of_singleton in Hrow. subst r. exact (Hid ltac:(discriminate)).
Defined.

(** The name "ws_p1" is the id "p1", the name "solo" a slug. *)
Lemma handler_called_for_named_workspace_witness :
  exists pre args w,
    preamble (Sample.browserRequest "ws_p1") ∅ = inr pre
    /\ isRestrictedToken pre = false
    /\ args ∈ invocations
                (st_log (snd (withWorkspace Sample.ok defaultConfig Sample.env
                                (Sample.browserRequest "ws_p1") ∅ Sample.db)))
    /\ a_workspace args = Some w
    /\ exists s, idOrSlug pre = Some s /\ s <> "" /\
         if Js.startsWith "ws_" s then id w = Js.replace "ws_" "" s else slug w = s.
Proof.
  assert (H : exists pre args w,
            preamble (Sample.browserRequest "ws_p1") ∅ = inr pre
            /\ isRestrictedToken pre = false
            /\ invocations
                 (st_log (snd (withWorkspace Sample.ok defaultConfig Sample.env
                                 (Sample.browserRequest "ws_p1") ∅ Sample.db)))
               = [args]
            /\ a_workspace args = Some w)
    by (eexists _, _, _; split_and!; vm_compute; reflexivity).
  destruct H as (pre & args & w & Hpre & Hr & Hinv & Hw).
  assert (Hin : args ∈ invocations
                  (st_log (snd (withWorkspace Sample.ok defaultConfig Sample.env
                                  (Sample.browserRequest "ws_p1") ∅ Sample.db)))).
  { rewrite Hinv. apply list_elem_of_singleton. reflexivity. }
  exists pre, args, w. split; [exact Hpre|]. split; [exact Hr|].
  split; [exact Hin|]. split; [exact Hw|].
  exact (handler_called_for_named_workspace Sample.ok defaultConfig Sample.env
           _ _ _ pre args w Hpre Hr Hin Hw).
Defined.

(** The domain "acme.co" is a domain of the workspace [acme]. *)
Lemma handler_called_with_own_domain_witness :
  exists args w r,
    args ∈ invocations
             (st_log (snd (withWorkspace Sample.ok defaultConfig Sample.env
                             (Sample.browserRequest "ws_p1") (Sample.named "acme.co")
                             Sample.db)))
    /\ a_workspace args = Some w
    /\ a_domain args = Some "acme.co"
    /\ r ∈ domainRows Sample.db /\ d_slug r = "acme.co" /\ d_projectId r = id w.
Proof.
  assert (H : exists args w,
            invocations
              (st_log (snd (withWorkspace Sample.ok defaultConfig Sample.env
                              (Sample.browserRequest "ws_p1") (Sample.named "acme.co")
                              Sample.db)))
            = [args] /\ a_workspace args = Some w /\ a_domain args = Some "acme.co")
    by (eexists _, _; split_and!; vm_compute; reflexivity).
  destruct H as (args & w & Hinv & Hw & Hd).
  assert (Hin : args ∈ invocations
                  (st_log (snd (withWorkspace Sample.ok defaultConfig Sample.env
                                  (Sample.browserRequest "ws_p1") (Sample.named "acme.co")
                                  Sample.db)))).
  { rewrite Hinv. apply list_elem_of_singleton. reflexivity. }
  destruct (handler_called_with_own_domain Sample.ok defaultConfig Sample.env
              _ _ _ args w "acme.co" Hin Hw Hd ltac:(discriminate))
    as (r & Hrest).
  exists args, w, r. split; [exact Hin|]. split; [exact Hw|]. split; [exact Hd|].
  exact Hrest.
Defined.

(** The external id "x1" names the link [l1] of the workspace [acme]. *)
Lemma handler_called_with_named_link_witness :
  exists pre args w l,
    preamble (Deployment.linkRequest "ws_p1" "ext_x1") ∅ = inr pre
    /\ args ∈ invocations
                (st_log (snd (withWorkspace Sample.ok defaultConfig Sample.env
                                (Deployment.linkRequest "ws_p1" "ext_x1") ∅
                                Deployment.db)))
    /\ a_workspace args = Some w
    /\ a_link args = Some l
    /\ l ∈ links Deployment.db
    /\ l_id l = "l1".
Proof.
  assert (H : exists pre args w l,
            preamble (Deployment.linkRequest "ws_p1" "ext_x1") ∅ = inr pre
            /\ invocations
                 (st_log (snd (withWorkspace Sample.ok defaultConfig Sample.env
                                 (Deployment.linkRequest "ws_p1" "ext_x1") ∅
                                 Deployment.db)))
               = [args]
            /\ a_workspace args = Some w /\ a_link args = Some l /\ l_id l = "l1")
    by (eexists _, _, _, _; split_and!; vm_compute; reflexivity).
  destruct H as (pre & args & w & l & Hpre & Hinv & Hw & Hl & Hid).
  assert (Hin : args ∈ invocations
                  (st_log (snd (withWorkspace Sample.ok defaultConfig Sample.env
                                  (Deployment.linkRequest "ws_p1" "ext_x1") ∅
                                  Deployment.db)))).
  { rewrite Hinv. apply list_elem_of_singleton. reflexivity. }
  exists pre, args, w, l. split; [exact Hpre|]. split; [exact Hin|].
  split; [exact Hw|]. split; [exact Hl|].
  split; [|exact Hid].
  exact (proj1 (handler_called_with_named_link Sample.ok defaultConfig Sample.env
                  _ _ _ pre args w l Hpre Hin Hw Hl)).
Defined.

(** The key [abc] is Alice's; the limiter refuses it. *)
Lemma rate_limited_request_witness :
  withWorkspace Sample.ok defaultConfig Deployment.envLimited
    (Deployment.keyRequest "abc" "ws_p1" "/api/links") ∅ Sample.db
  = (ErrorResponse (DubApiError rate_limit_exceeded "Too many requests.")
       (rateLimitHeaders {| success := false; limit := 600; reset := 60; remaining := 0 |}),
     {| st_db := Sample.db;
        st_headers :=
          rateLimitHeaders {| success := false; limit := 600; reset := 60; remaining := 0 |};
        st_log := [EHashToken "abc"; ETokenFindUnique false "sha256:abc";
                   ERatelimit 600 "abc"] |}).
Proof.
  assert (H : exists pre,
            preamble (Deployment.keyRequest "abc" "ws_p1" "/api/links") ∅ = inr pre)
    by (eexists; vm_compute; reflexivity).
  destruct H as (pre & Hpre).
  pose proof Hpre as H'. vm_compute in H'. injection H' as <-.
  exact (rate_limited_request Sample.ok defaultConfig Deployment.envLimited
           _ _ Sample.db _ "abc" (PlainToken (Some Sample.aliceRow)) Sample.aliceRow
           Hpre (or_introl eq_refl) eq_refl eq_refl eq_refl eq_refl).
Defined.

(** The key [abc] is let through, with 599 requests of 600 remaining. *)
Lemma rate_limit_headers_follow_the_request_witness :
  exists pre args,
    preamble (Deployment.keyRequest "abc" "ws_p1" "/api/links") ∅ = inr pre
    /\ args ∈ invocations
                (st_log (snd (withWorkspace Sample.ok defaultConfig Sample.env
                                (Deployment.keyRequest "abc" "ws_p1" "/api/links") ∅
                                Sample.db)))
    /\ a_headers args = headersAfter Sample.env pre Sample.db
    /\ a_headers args
       = rateLimitHeaders {| success := true; limit := 600; reset := 60; remaining := 599 |}.
Proof.
  assert (H : exists pre args,
            preamble (Deployment.keyRequest "abc" "ws_p1" "/api/links") ∅ = inr pre
            /\ invocations
                 (st_log (snd (withWorkspace Sample.ok defaultConfig Sample.env
                                 (Deployment.keyRequest "abc" "ws_p1" "/api/links") ∅
                                 Sample.db)))
               = [args]
            /\ a_headers args
               = rateLimitHeaders
                   {| success := true; limit := 600; reset := 60; remaining := 599 |})
    by (eexists _, _; split_and!; vm_compute; reflexivity).
  destruct H as (pre & args & Hpre & Hinv & Hh).
  assert (Hin : args ∈ invocations
                  (st_log (snd (withWorkspace Sample.ok defaultConfig Sample.env
                                  (Deployment.keyRequest "abc" "ws_p1" "/api/links") ∅
                                  Sample.db)))).
  { rewrite Hinv. apply list_elem_of_singleton. reflexivity. }
  assert (Hnamed : Js.truthy (idOrSlug pre) = true \/ isRestrictedToken pre = true).
  { left. pose proof Hpre as H'. vm_compute in H'. injection H' as <-. reflexivity. }
  exists pre, args. split; [exact Hpre|]. split; [exact Hin|]. split; [|exact Hh].
  exact (proj2 (rate_limit_headers_follow_the_request Sample.ok defaultConfig Sample.env
                  _ _ Sample.db pre Hpre Hnamed) args Hin).
Defined.


(** After the request, "acme.link" is the one primary domain of [acme]. *)
Lemma POST_leaves_one_primary_witness :
  let out := primary.POST Sample.env (Sample.browserRequest "ws_p1")
               (Some (Sample.named "acme.link")) Sample.db in
  NoDup (d_slug <$> domainRows Sample.db)
  /\ exists w r,
       d_slug r = "acme.link" /\ id w = "p1" /\
       List.filter (fun x => String.eqb (d_projectId x) (id w) && d_primary x)
                   (domainRows (st_db (snd out)))
       = [prisma.setPrimary true r].
Proof.
  cbv zeta.
  assert (Hnd : NoDup (d_slug <$> domainRows Sample.db))
    by (apply (bool_decide_unpack _); vm_compute; exact I).
  split; [exact Hnd|].
  destruct (POST_leaves_one_primary Sample.env (Sample.browserRequest "ws_p1")
              (Some (Sample.named "acme.link")) Sample.db
              (JObj [("id", JStr "d2"); ("slug", JStr "acme.link"); ("primary", JBool true)])
              []
              (snd (primary.POST Sample.env (Sample.browserRequest "ws_p1")
                      (Some (Sample.named "acme.link")) Sample.db)))
    as (args & w & d & r & Hinv & Hw & Hd & Hrest);
    [vm_compute; reflexivity|exact Hnd|].
  vm_compute in Hinv. injection Hinv as <-.
  vm_compute in Hw. injection Hw as <-. vm_compute in Hd. injection Hd as <-.
  destruct (Hrest ltac:(discriminate) eq_refl) as (_ & Hs & _ & Hf).
  eexists _, r. split; [exact Hs|]. split; [|exact Hf]. reflexivity.
Defined.

(** The default domain "dub.sh" has no row: the request of an owner of
    the dub workspace fails, and "dub.co" is no longer primary. *)
Lemma failed_update_still_demotes_witness :
  exists args w,
    args ∈ invocations
             (st_log (snd (primary.POST Sample.env (Sample.browserRequest "ws_dub")
                             (Some (Sample.named "dub.sh")) Deployment.dbWithDub)))
    /\ a_workspace args = Some w
    /\ a_domain args = Some "dub.sh"
    /\ fst (primary.handler Sample.env args Deployment.dbWithDub)
       = inl (LibraryError "RecordNotFound")
    /\ (forall x,
          x ∈ domainRows (snd (primary.handler Sample.env args Deployment.dbWithDub)) ->
          d_projectId x = id w -> d_primary x = false).
Proof.
  assert (H : exists args w,
            invocations
              (st_log (snd (primary.POST Sample.env (Sample.browserRequest "ws_dub")
                              (Some (Sample.named "dub.sh")) Deployment.dbWithDub)))
            = [args] /\ a_workspace args = Some w /\ a_domain args = Some "dub.sh")
    by (eexists _, _; split_and!; vm_compute; reflexivity).
  destruct H as (args & w & Hinv & Hw & Hd).
  assert (Hin : args ∈ invocations
                  (st_log (snd (primary.POST Sample.env (Sample.browserRequest "ws_dub")
                                  (Some (Sample.named "dub.sh")) Deployment.dbWithDub)))).
  { rewrite Hinv. apply list_elem_of_singleton. reflexivity. }
  assert (Hnone : forall r, r ∈ domainRows Deployment.dbWithDub -> d_slug r <> "dub.sh").
  { intros r Hr. apply list_elem_of_In in Hr. vm_compute in Hr.
    destruct Hr as [<-|[<-|[<-|[<-|[]]]]]; discriminate. }
  exists args, w. split; [exact Hin|]. split; [exact Hw|]. split; [exact Hd|].
  destruct (failed_update_still_demotes Sample.env args Deployment.dbWithDub w "dub.sh"
              Hw Hd Hnone) as (Hfail & _ & Hcleared).
  split; [exact Hfail|exact Hcleared].
Defined.

(** Alice, an owner of [acme], makes "acme.link" primary with her key
    [abc]; the key [dub_r1], which lacks the scope, is refused, and only
    its [lastUsed] is written. *)
Lemma POST_writes_only_when_authorised_witness :
  let out := primary.POST Sample.env
               (Deployment.keyRequest "abc" "ws_p1" "/api/domains/acme.link/primary")
               (Some (Sample.named "acme.link")) Sample.db in
  let refused := primary.POST Sample.env
                   (Sample.request (Some "Bearer dub_r1") []
                      "/api/domains/acme.link/primary")
                   (Some (Sample.named "acme.link")) Sample.db in
  domainRows (st_db (snd out)) <> domainRows Sample.db
  /\ (exists args w scopes u r,
        invocations (st_log (snd out)) = [args] /\
        a_workspace args = Some w /\ a_scopes args = Some scopes /\
        throwIfNoAccess Sample.env scopes ["domains.write"] (id w) = None /\
        a_session args ≫= user = Some u /\
        r ∈ projectUsers Sample.db /\ pu_projectId r = id w /\ pu_userId r = su_id u /\
        domainRows (st_db (snd out))
        = rowAfter (id w) (a_domain args) <$> domainRows Sample.db /\
        (forall i x, domainRows Sample.db !! i = Some x ->
           d_projectId x <> id w -> a_domain args <> Some (d_slug x) ->
           domainRows (st_db (snd out)) !! i = Some x))
  /\ invocations (st_log (snd refused)) = []
  /\ st_db (snd refused) <> Sample.db
  /\ sameButLastUsed Sample.db
       (set_domainRows (domainRows Sample.db) (st_db (snd refused))).
Proof.
  cbv zeta.
  assert (H : domainRows
                (st_db (snd (primary.POST Sample.env
                               (Deployment.keyRequest "abc" "ws_p1"
                                  "/api/domains/acme.link/primary")
                               (Some (Sample.named "acme.link")) Sample.db)))
              <> domainRows Sample.db)
    by (vm_compute; discriminate).
  split; [exact H|]. split.
  - exact (proj1 (POST_writes_only_when_authorised Sample.env
                    (Deployment.keyRequest "abc" "ws_p1" "/api/domains/acme.link/primary")
                    (Some (Sample.named "acme.link")) Sample.db) H).
  - split; [vm_compute; reflexivity|]. split; [vm_compute; discriminate|].
    exact (proj1 (proj2 (POST_writes_only_when_authorised Sample.env
                           (Sample.request (Some "Bearer dub_r1") []
                              "/api/domains/acme.link/primary")
                           (Some (Sample.named "acme.link")) Sample.db))).
Defined.

(** The token of the key [abc] is updated although the workspace [p9]
    does not exist; nothing is updated for a browser session. *)
Lemma last_used_is_updated_for_accepted_keys_witness :
  lastUsedUpdates
    (st_log (snd (withWorkspace Sample.ok defaultConfig Sample.env
                    (Deployment.keyRequest "abc" "ws_p9" "/api/links") ∅ Sample.db)))
  = [(false, "sha256:abc")]
  /\ fst (withWorkspace Sample.ok defaultConfig Sample.env
            (Deployment.keyRequest "abc" "ws_p9" "/api/links") ∅ Sample.db)
     = ErrorResponse (DubApiError not_found "Workspace not found.")
         (rateLimitHeaders {| success := true; limit := 600; reset := 60; remaining := 599 |}).
Proof.
  split; [|vm_compute; reflexivity].
  assert (H : exists pre,
            preamble (Deployment.keyRequest "abc" "ws_p9" "/api/links") ∅ = inr pre)
    by (eexists; vm_compute; reflexivity).
  destruct H as (pre & Hpre).
  rewrite (last_used_is_updated_for_accepted_keys Sample.ok defaultConfig Sample.env
             _ _ Sample.db pre Hpre).
  vm_compute in Hpre. injection Hpre as <-. vm_compute. reflexivity.
Defined.
